(** * Automated qPCR results: ingestion and classification

    A shallow embedding of [shared/data_analysis.py] (classes [DataImporter]
    and [DataAnalyzer]) and the properties of its table extraction, table
    merging and well classification.

    Conventions of the embedding.
    - A pandas [DataFrame] is a list of column labels and a list of rows of
      cells; a cell is NaN, [None], a number or a string.
    - A Python float is a rational or one of the two infinities; NaN is the
      cell [Missing], and [None] is the cell [PyNone]: pandas takes both for
      missing values, Python compares a NaN and refuses to compare [None].
      Order comparisons of finite floats are exact, so they are the
      comparisons of the rationals.  The quotient of two finite floats
      with a non-zero divisor is rounded by the machine: it is left abstract
      ([fdiv]) and every statement holds for all roundings.
    - A Python exception is a value of [exn]; code that may raise returns a
      [result].
    - Text is ASCII. *)

From Stdlib Require Import String Ascii List QArith Bool Arith Lia.
Import ListNotations.
Close Scope Q_scope.
Open Scope nat_scope.
Open Scope string_scope.
Open Scope list_scope.

(* ------------------------------------------------------------------ *)
(** ** Exceptions *)

Inductive exn : Type :=
| IndexError
| KeyError
| ValueError
| TypeError
| UnboundLocalError
| ZeroDivisionError
| SystemExit.

Inductive result (A : Type) : Type :=
| Ok (a : A)
| Raise (e : exn).

Arguments Ok {A} a.
Arguments Raise {A} e.

Definition bind {A B : Type} (m : result A) (k : A -> result B) : result B :=
  match m with
  | Ok a => k a
  | Raise e => Raise e
  end.

Notation "x <- m ;; k" := (bind m (fun x => k))
  (at level 61, m at next level, right associativity).

(** [try: ... except Exception: ... raise SystemExit()] *)
Definition or_exit {A : Type} (m : result A) : result A :=
  match m with
  | Ok a => Ok a
  | Raise _ => Raise SystemExit
  end.

Fixpoint mapM {A B : Type} (f : A -> result B) (l : list A) : result (list B) :=
  match l with
  | [] => Ok []
  | a :: l' => b <- f a ;; bs <- mapM f l' ;; Ok (b :: bs)
  end.

(* ------------------------------------------------------------------ *)
(** ** Numbers and cells *)

Inductive number : Type :=
| Fin (q : Q)
| PInf
| NInf.

Inductive cell : Type :=
| Missing
| PyNone
| Num (n : number)
| Str (s : string).

(** [pd.isna]: NaN and [None]. *)
Definition is_null (c : cell) : bool :=
  match c with
  | Missing | PyNone => true
  | _ => false
  end.

Definition Qlt_bool (x y : Q) : bool := negb (Qle_bool y x).

Definition num_ltb (a b : number) : bool :=
  match a, b with
  | Fin x, Fin y => Qlt_bool x y
  | NInf, NInf => false
  | NInf, _ => true
  | _, NInf => false
  | PInf, _ => false
  | Fin _, PInf => true
  end.

Definition num_eqb (a b : number) : bool :=
  match a, b with
  | Fin x, Fin y => Qeq_bool x y
  | PInf, PInf => true
  | NInf, NInf => true
  | _, _ => false
  end.

Definition num_leb (a b : number) : bool := num_ltb a b || num_eqb a b.

Definition of_int (z : Z) : number := Fin (inject_Z z).

(** [x / y] on floats: the IEEE quotient.  A zero divisor gives an infinity
    of the sign of the dividend, and [None] (NaN) for [0 / 0]; so do the
    quotients of two infinities.  [fdiv] rounds the finite quotients. *)
Definition num_div (fdiv : Q -> Q -> number) (a b : number) : option number :=
  match a, b with
  | Fin x, Fin y =>
      if Qeq_bool y 0%Q then
        if Qeq_bool x 0%Q then None
        else if Qlt_bool 0%Q x then Some PInf else Some NInf
      else Some (fdiv x y)
  | Fin _, _ => Some (Fin 0%Q)
  | PInf, Fin y => if Qlt_bool y 0%Q then Some NInf else Some PInf
  | NInf, Fin y => if Qlt_bool y 0%Q then Some PInf else Some NInf
  | _, _ => None
  end.

(** The equality pandas joins on: numbers by value, strings by content,
    missing keys (NaN or [None]) with each other. *)
Definition cell_eqb (a b : cell) : bool :=
  match a, b with
  | Num x, Num y => num_eqb x y
  | Str s, Str t => String.eqb s t
  | Num _, _ | Str _, _ => false
  | _, _ => is_null b
  end.

(** The equality of the hash table behind [Series.unique]: a NaN is a NaN,
    [None] is [None], and the two differ. *)
Definition cell_same (a b : cell) : bool :=
  match a, b with
  | Missing, Missing => true
  | PyNone, PyNone => true
  | Num x, Num y => num_eqb x y
  | Str s, Str t => String.eqb s t
  | _, _ => false
  end.

(** [c < t] and [c >= t] in Python, for a value of a row and a number:
    false on NaN, a [TypeError] on [None] and on a string. *)
Definition cell_lt (c : cell) (t : number) : result bool :=
  match c with
  | Missing => Ok false
  | Num n => Ok (num_ltb n t)
  | PyNone | Str _ => Raise TypeError
  end.

Definition cell_ge (c : cell) (t : number) : result bool :=
  match c with
  | Missing => Ok false
  | Num n => Ok (num_leb t n)
  | PyNone | Str _ => Raise TypeError
  end.

(** [column >= t] cell by cell, as pandas compares a column with a number:
    false on a missing value, NaN or [None], a [TypeError] on a string. *)
Definition elem_ge (c : cell) (t : number) : result bool :=
  match c with
  | Missing | PyNone => Ok false
  | Num n => Ok (num_leb t n)
  | Str _ => Raise TypeError
  end.

(* ------------------------------------------------------------------ *)
(** ** Strings *)

Definition is_empty (s : string) : bool :=
  match s with
  | EmptyString => true
  | String _ _ => false
  end.

(** [needle in hay] for two strings. *)
Fixpoint contains (needle hay : string) : bool :=
  match hay with
  | EmptyString => prefix needle hay
  | String _ hay' => prefix needle hay || contains needle hay'
  end.

(** [str.isspace] on ASCII: tab to carriage return, the four separators
    and the space. *)
Definition py_isspace (c : ascii) : bool :=
  let n := nat_of_ascii c in
  (Nat.leb 9 n && Nat.leb n 13) || (Nat.leb 28 n && Nat.leb n 32).

Fixpoint lstrip (s : string) : string :=
  match s with
  | EmptyString => EmptyString
  | String c s' => if py_isspace c then lstrip s' else s
  end.

Fixpoint rev_string (s acc : string) : string :=
  match s with
  | EmptyString => acc
  | String c s' => rev_string s' (String c acc)
  end.

Definition rstrip (s : string) : string :=
  rev_string (lstrip (rev_string s EmptyString)) EmptyString.

Definition strip (s : string) : string := rstrip (lstrip s).

(** [DataImporter.isblank]: [all(not field.strip() for field in row)]. *)
Definition isblank (row : list string) : bool :=
  forallb (fun field => is_empty (strip field)) row.

(** *** [str] of a list of strings *)

Definition squote : ascii := ascii_of_nat 39.
Definition dquote : ascii := ascii_of_nat 34.
Definition backslash : ascii := ascii_of_nat 92.

Fixpoint has_char (c : ascii) (s : string) : bool :=
  match s with
  | EmptyString => false
  | String d s' => Ascii.eqb c d || has_char c s'
  end.

Definition hex_digit (n : nat) : ascii :=
  if Nat.ltb n 10 then ascii_of_nat (48 + n) else ascii_of_nat (87 + n).

Definition repr_char (q c : ascii) : string :=
  let n := nat_of_ascii c in
  if Ascii.eqb c backslash then String backslash (String backslash EmptyString)
  else if Ascii.eqb c q then String backslash (String q EmptyString)
  else if Nat.eqb n 10 then String backslash "n"
  else if Nat.eqb n 13 then String backslash "r"
  else if Nat.eqb n 9 then String backslash "t"
  else if Nat.ltb n 32 || Nat.eqb n 127 then
    String backslash
      (String "x" (String (hex_digit (n / 16)) (String (hex_digit (n mod 16)) EmptyString)))
  else String c EmptyString.

Fixpoint repr_body (q : ascii) (s : string) : string :=
  match s with
  | EmptyString => EmptyString
  | String c s' => repr_char q c ++ repr_body q s'
  end.

(** [repr] of a [str]: single quotes, unless the text has a single quote
    and no double quote. *)
Definition py_repr (s : string) : string :=
  let q := if has_char squote s && negb (has_char dquote s) then dquote else squote in
  String q (repr_body q s ++ String q EmptyString).

Fixpoint join_reprs (l : list string) : string :=
  match l with
  | [] => EmptyString
  | [s] => py_repr s
  | s :: l' => py_repr s ++ ", " ++ join_reprs l'
  end.

(** [str(line)] for a row of a [csv.reader]. *)
Definition py_str (line : list string) : string :=
  "[" ++ join_reprs line ++ "]".

(* ------------------------------------------------------------------ *)
(** ** Data frames

    A frame is its number of rows and its columns in order, each a label
    with the column's cells; the cell of row [i] is [nth i cells Missing].
    The dtype of a column is not stored: where the code depends on it, it
    is the dtype pandas infers from the cells, float64 when every cell is a
    number or NaN and object when a cell is a string or [None]. *)

Record DataFrame : Type := mkDataFrame {
  nrows : nat;
  cols : list (string * list cell)
}.

Definition labels (df : DataFrame) : list string := map fst (cols df).

Definition mem (c : string) (l : list string) : bool := existsb (String.eqb c) l.

(** A row handed to [apply(..., axis=1)]: the labels with the row's cells. *)
Definition Series : Type := list (string * cell).

(** [row[col]] and [dict[key]] *)
Fixpoint get {A : Type} (r : list (string * A)) (col : string) : result A :=
  match r with
  | [] => Raise KeyError
  | (k, v) :: r' => if String.eqb k col then Ok v else get r' col
  end.

Definition row (df : DataFrame) (i : nat) : Series :=
  map (fun c => (fst c, nth i (snd c) Missing)) (cols df).

Definition iterrows (df : DataFrame) : list Series :=
  map (row df) (seq 0 (nrows df)).

(** [df[col]], the cells of the rows in order. *)
Definition column (df : DataFrame) (col : string) : result (list cell) :=
  vs <- get (cols df) col ;;
  Ok (map (fun i => nth i vs Missing) (seq 0 (nrows df))).

(** [df.loc[:, wanted]]: the columns of every wanted label, a [KeyError]
    when a label has no column. *)
Fixpoint loc_cols_of (cs : list (string * list cell)) (wanted : list string)
  : result (list (string * list cell)) :=
  match wanted with
  | [] => Ok []
  | w :: wanted' =>
      match filter (fun c => String.eqb (fst c) w) cs with
      | [] => Raise KeyError
      | found => rest <- loc_cols_of cs wanted' ;; Ok (found ++ rest)
      end
  end.

Definition loc_cols (df : DataFrame) (wanted : list string) : result DataFrame :=
  cs <- loc_cols_of (cols df) wanted ;;
  Ok (mkDataFrame (nrows df) cs).

(** [df.loc[mask]]: the rows where the mask holds. *)
Definition kept (mask : list bool) (n : nat) : list nat :=
  filter (fun i => nth i mask false) (seq 0 n).

Definition loc_rows (df : DataFrame) (mask : list bool) : DataFrame :=
  let idx := kept mask (nrows df) in
  mkDataFrame (length idx)
    (map (fun c => (fst c, map (fun i => nth i (snd c) Missing) idx)) (cols df)).

(** [df.rename(columns=mapping)] *)
Definition rename_label (mapping : list (string * string)) (c : string) : string :=
  match get mapping c with
  | Ok c' => c'
  | Raise _ => c
  end.

Definition rename (df : DataFrame) (mapping : list (string * string)) : DataFrame :=
  mkDataFrame (nrows df)
    (map (fun c => (rename_label mapping (fst c), snd c)) (cols df)).

(** [df[col] = values]: the column is replaced, or added as the last one. *)
Definition set_col (df : DataFrame) (col : string) (vs : list cell) : DataFrame :=
  if mem col (labels df)
  then mkDataFrame (nrows df)
         (map (fun c => if String.eqb (fst c) col then (fst c, vs) else c) (cols df))
  else mkDataFrame (nrows df) (cols df ++ [(col, vs)]).

Definition fillna_cell (v : cell) (c : cell) : cell :=
  match c with
  | Missing | PyNone => v
  | _ => c
  end.

(** [df.fillna(v)] *)
Definition fillna (df : DataFrame) (v : cell) : DataFrame :=
  mkDataFrame (nrows df)
    (map (fun c => (fst c, map (fun i => fillna_cell v (nth i (snd c) Missing))
                               (seq 0 (nrows df))))
         (cols df)).

(** [df[col] = df[col].fillna(v)] *)
Definition fillna_col (df : DataFrame) (col : string) (v : cell) : result DataFrame :=
  vs <- column df col ;;
  Ok (set_col df col (map (fillna_cell v) vs)).

(** [pd.merge(left, right, on=key)]: the inner join.  The key must label
    one column on each side.  Keys of text against keys of numbers are a
    [ValueError]: the join is refused when one key column is of dtype object
    without a number in it (texts, [None], NaN) and the other is a column of
    floats that is not empty.  An object column that holds a number is let
    through, as pandas does when the number is an int, which a well number
    is.  Every pair of a left row and a right row with equal keys gives a
    row, in the order of the left rows; the columns are those of the left
    frame and then those of the right one without its key, a label found on
    both sides taking the suffix [_x] or [_y]. *)
Definition object_cell (c : cell) : bool :=
  match c with
  | PyNone | Str _ => true
  | _ => false
  end.

(** The dtype of the cells is object. *)
Definition object_dtype (vs : list cell) : bool := existsb object_cell vs.

Definition is_nil {A : Type} (l : list A) : bool :=
  match l with
  | [] => true
  | _ :: _ => false
  end.

Definition is_num (c : cell) : bool :=
  match c with
  | Num _ => true
  | _ => false
  end.

Definition text_keys (ks : list cell) : bool :=
  object_dtype ks && negb (existsb is_num ks).

Definition float_keys (ks : list cell) : bool :=
  negb (object_dtype ks) && negb (is_nil ks).

Definition keys_clash (kl kr : list cell) : bool :=
  (text_keys kl && float_keys kr) || (text_keys kr && float_keys kl).

Definition key_column (df : DataFrame) (key : string) : result (list cell) :=
  match filter (fun c => String.eqb (fst c) key) (cols df) with
  | [] => Raise KeyError
  | [_] => column df key
  | _ :: _ :: _ => Raise ValueError
  end.

Definition join_pairs (kl kr : list cell) : list (nat * nat) :=
  flat_map
    (fun i => map (pair i)
                (filter (fun j => cell_eqb (nth i kl Missing) (nth j kr Missing))
                        (seq 0 (length kr))))
    (seq 0 (length kl)).

Definition merge (left right : DataFrame) (key : string) : result DataFrame :=
  kl <- key_column left key ;;
  kr <- key_column right key ;;
  _ <- (if keys_clash kl kr then Raise ValueError else Ok tt) ;;
  let pairs := join_pairs kl kr in
  let overlap c :=
    negb (String.eqb c key) && mem c (labels left) && mem c (labels right) in
  let lcols :=
    map (fun c => (if overlap (fst c) then (fst c ++ "_x")%string else fst c,
                   map (fun p => nth (fst p) (snd c) Missing) pairs))
        (cols left) in
  let rcols :=
    map (fun c => (if overlap (fst c) then (fst c ++ "_y")%string else fst c,
                   map (fun p => nth (snd p) (snd c) Missing) pairs))
        (filter (fun c => negb (String.eqb (fst c) key)) (cols right)) in
  Ok (mkDataFrame (length pairs) (lcols ++ rcols)).

(** The well keys of a frame, and whether a key is among them. *)
Definition wells (df : DataFrame) : list cell :=
  match column df "Well" with
  | Ok ws => ws
  | Raise _ => []
  end.

Definition well_in (w : cell) (df : DataFrame) : bool :=
  existsb (cell_eqb w) (wells df).

(** *** [pd.DataFrame(data, columns=header)] for rows of text

    Short rows are filled with [None] up to the longest row; the
    number of labels must be the length of the longest row, unless there is
    no row at all. *)

Definition max_len {A : Type} (l : list (list A)) : nat :=
  fold_right (fun r m => Nat.max (length r) m) 0 l.

Definition py_DataFrame (data : list (list string)) (header : list string)
  : result DataFrame :=
  match data with
  | [] => Ok (mkDataFrame 0 (map (fun h => (h, [])) header))
  | _ :: _ =>
      if Nat.eqb (max_len data) (length header)
      then Ok (mkDataFrame (length data)
                 (map (fun k => (nth k header EmptyString,
                                 map (fun r => nth k (map Str r) PyNone) data))
                      (seq 0 (length header))))
      else Raise ValueError
  end.

(* ------------------------------------------------------------------ *)
(** ** Raw table extraction: [csv_to_df] and [extract_header]

    [csv_file] and [reader] are the rows the [csv.reader] yields, one list
    of fields per line. *)

Definition csv_to_df_step (results_flag : string)
  (st : bool * list (list string)) (line : list string)
  : bool * list (list string) :=
  let '(data_bool, data_cleaned) := st in
  let data_bool := if isblank line then false else data_bool in
  let data_cleaned := if data_bool then data_cleaned ++ [line] else data_cleaned in
  let data_bool := if existsb (String.eqb results_flag) line then true else data_bool in
  (data_bool, data_cleaned).

Definition csv_to_df_loop (results_flag : string) (csv_file : list (list string))
  : list (list string) :=
  snd (fold_left (csv_to_df_step results_flag) csv_file (false, [])).

Definition csv_to_df (csv_file : list (list string)) (results_flag : string)
  : result DataFrame :=
  match csv_to_df_loop results_flag csv_file with
  | [] => Raise IndexError                     (* data_cleaned.pop(0) *)
  | header :: data_cleaned => py_DataFrame data_cleaned header
  end.

(** A [str] argument that may be [None]; [None] and the empty string are
    false. *)
Definition truthy (o : option string) : bool :=
  match o with
  | None => false
  | Some s => negb (is_empty s)
  end.

Definition in_str (o : option string) (line : list string) : bool :=
  match o with
  | None => false
  | Some s => contains s (py_str line)
  end.

Definition extract_header_step (flag stop : option string)
  (st : bool * list (list string)) (line : list string)
  : bool * list (list string) :=
  let '(headbool, head) := st in
  let headbool :=
    if negb (truthy stop) then
      if isblank line then false else headbool
    else
      if in_str stop line then false else headbool in
  let headbool :=
    if truthy flag then
      if in_str flag line then true else headbool
    else headbool in
  let head := if headbool then head ++ [line] else head in
  (headbool, head).

Definition extract_header (reader : list (list string)) (flag stop : option string)
  : list (list string) :=
  let headbool := if truthy flag then false else true in
  snd (fold_left (extract_header_step flag stop) reader (headbool, [])).

(* ------------------------------------------------------------------ *)
(** ** Table merger: [summarize] *)

Fixpoint foldM {S A : Type} (f : S -> A -> result S) (l : list A) (s : S) : result S :=
  match l with
  | [] => Ok s
  | a :: l' => s' <- f s a ;; foldM f l' s'
  end.

(** [columns.pop(1)] *)
Definition pop1 (l : list string) : list string :=
  match l with
  | a :: _ :: l' => a :: l'
  | _ => l
  end.

Definition summarize_columns (machine_type division fluor : string) (first_loop : bool)
  : list string :=
  let columns := ["Well"; "Sample Name"; (fluor ++ " CT")%string] in
  let columns :=
    if contains "QuantStudio" machine_type
    then columns ++ [(fluor ++ " Cq Conf")%string; (fluor ++ " dRn")%string]
    else columns in
  let columns :=
    if String.eqb division "hiv"
    then columns ++ [(fluor ++ " Quantity")%string]
    else columns in
  if first_loop then columns else pop1 columns.

(** One turn of the loop; the state is the summary table, [None] while
    [first_loop] holds. *)
Definition summarize_step (machine_type division : string)
  (summary_table : option DataFrame) (entry : string * DataFrame)
  : result (option DataFrame) :=
  let fluor := fst entry in
  match summary_table with
  | None =>
      t <- or_exit (loc_cols (snd entry)
                      (summarize_columns machine_type division fluor true)) ;;
      Ok (Some t)
  | Some summary =>
      part <- loc_cols (snd entry)
                (summarize_columns machine_type division fluor false) ;;
      t <- merge summary part "Well" ;;
      Ok (Some t)
  end.

Definition summarize (machine_type division : string)
  (df_dict : list (string * DataFrame)) : result DataFrame :=
  st <- foldM (summarize_step machine_type division) df_dict None ;;
  match st with
  | Some summary_table => Ok summary_table
  | None => Raise UnboundLocalError
  end.

(* ------------------------------------------------------------------ *)
(** ** QuantStudio: the per-reporter tables and the largest dRn

    The loop of [parse_qs] over the reporters, on the cleaned results
    table. *)

(** [Series.max()]: the largest number, missing values skipped. *)
Definition num_max (a b : number) : number := if num_ltb a b then b else a.

Fixpoint series_max (vs : list cell) : result cell :=
  match vs with
  | [] => Ok Missing
  | c :: vs' =>
      m <- series_max vs' ;;
      match c, m with
      | Str _, _ => Raise TypeError
      | _, Str _ => Raise TypeError
      | Missing, _ | PyNone, _ => Ok m
      | Num x, Missing | Num x, PyNone => Ok (Num x)
      | Num x, Num y => Ok (Num (num_max x y))
      end
  end.

Definition qs_partial (division : string) (results_table : DataFrame) (fluor : string)
  : result DataFrame :=
  reporter <- column results_table "Reporter" ;;
  let t := loc_rows results_table (map (cell_eqb (Str fluor)) reporter) in
  let t := rename t [("Well", "Well No.");
                     ("Well Position", "Well");
                     ("CT", (fluor ++ " CT")%string);
                     ("Cq Conf", (fluor ++ " Cq Conf")%string);
                     ("Delta Rn (last cycle)", (fluor ++ " dRn")%string)] in
  Ok (if String.eqb division "hiv"
      then rename t [("Quantity", (fluor ++ " Quantity")%string)]
      else t).

Definition baseline_end_of (display : string) : Z :=
  if String.eqb display "Internal Control" then 5%Z else 10%Z.

Definition max_dRn_entry (display fluor : string) (partial : DataFrame) : result cell :=
  let baseline_end := baseline_end_of display in
  be <- column partial "Baseline End" ;;
  mask <- mapM (fun c => elem_ge c (of_int baseline_end)) be ;;
  get_max <- loc_cols (loc_rows partial mask) [(fluor ++ " dRn")%string] ;;
  vs <- column get_max (fluor ++ " dRn") ;;
  series_max vs.

Definition parse_qs_step (division : string) (results_table : DataFrame)
  (st : list (string * DataFrame) * list (string * cell)) (entry : string * string)
  : result (list (string * DataFrame) * list (string * cell)) :=
  let fluor := fst entry in
  partial <- qs_partial division results_table fluor ;;
  m <- max_dRn_entry (snd entry) fluor partial ;;
  Ok (fst st ++ [(fluor, partial)], snd st ++ [(fluor, m)]).

(** The tables and [max_dRn_dict], then [self.results]. *)
Definition parse_qs_tables (machine_type division : string)
  (reporter_dict : list (string * string)) (results_table : DataFrame)
  : result (DataFrame * list (string * cell)) :=
  st <- foldM (parse_qs_step division results_table) reporter_dict ([], []) ;;
  results <- summarize machine_type division (fst st) ;;
  Ok (results, snd st).

(* ------------------------------------------------------------------ *)
(** ** Rotor-Gene: [parse_rgq]

    [results_filepaths] are the paths the loop runs over; [read_csv] is
    [pd.read_csv(filepath, skiprows=27)] and [csv_rows] the rows a
    [csv.reader] gives for the file. *)

Fixpoint insert_sorted (s : string) (l : list string) : list string :=
  match l with
  | [] => [s]
  | t :: l' => if String.leb s t then s :: l else t :: insert_sorted s l'
  end.

Definition sorted (l : list string) : list string :=
  fold_right insert_sorted [] l.

Record rgq_state : Type := mkRgq {
  results_table : DataFrame;
  used_filepaths : list string;
  first_loop : bool;
  results : option DataFrame;
  head : option (list (list string))
}.

Definition rgq_fluor_step (csv_rows : string -> result (list (list string)))
  (filepath : string) (st : rgq_state) (entry : string * string) : result rgq_state :=
  let fluor := fst entry in
  if contains (fluor ++ ".csv") filepath || contains (snd entry ++ ".csv") filepath
  then
    let used := used_filepaths st ++ [filepath] in
    let table := rename (results_table st)
                   [("No.", "Well");
                    ("Name", "Sample Name");
                    ("Ct", (fluor ++ " CT")%string);
                    ("Ct Comment", "Comments");
                    ("Given Conc (copies/reaction)", "Copies")] in
    if first_loop st then
      res <- loc_cols table
               ["Well"; "Sample Name"; "Copies"; "Comments"; (fluor ++ " CT")%string] ;;
      lines <- csv_rows filepath ;;
      Ok (mkRgq table used false (Some res)
                (Some (extract_header lines None (Some "Quantitative"))))
    else
      match results st with
      | None => Raise TypeError
      | Some summary =>
          part <- loc_cols table ["Well"; (fluor ++ " CT")%string] ;;
          res <- merge summary part "Well" ;;
          Ok (mkRgq table used false (Some res) (head st))
      end
  else Ok st.

Definition rgq_file_step (read_csv : string -> result DataFrame)
  (csv_rows : string -> result (list (list string)))
  (cq_cutoff : number) (reporter_dict : list (string * string))
  (st : rgq_state) (filepath : string) : result rgq_state :=
  table <- read_csv filepath ;;
  table <- or_exit (fillna_col table "Ct" (Num cq_cutoff)) ;;
  foldM (rgq_fluor_step csv_rows filepath) reporter_dict
        (mkRgq table (used_filepaths st) (first_loop st) (results st) (head st)).

Definition parse_rgq (read_csv : string -> result DataFrame)
  (csv_rows : string -> result (list (list string)))
  (cq_cutoff : number) (reporter_dict : list (string * string))
  (results_filepaths : list string)
  : result (option DataFrame * option (list (list string))) :=
  st <- foldM (rgq_file_step read_csv csv_rows cq_cutoff reporter_dict)
          results_filepaths
          (mkRgq (mkDataFrame 0 []) [] true None None) ;;
  if list_eq_dec string_dec (sorted results_filepaths) (sorted (used_filepaths st))
  then Ok (results st, head st)
  else Raise SystemExit.

(** The files matched to a reporter, once for every reporter whose token
    the path contains. *)
Definition matched_files (reporter_dict : list (string * string))
  (results_filepaths : list string) : list string :=
  flat_map
    (fun filepath =>
       flat_map
         (fun entry =>
            if contains (fst entry ++ ".csv") filepath
               || contains (snd entry ++ ".csv") filepath
            then [filepath] else [])
         reporter_dict)
    results_filepaths.

(* ------------------------------------------------------------------ *)
(** ** Classification: [DataAnalyzer] *)

Record DataAnalyzer : Type := mkAnalyzer {
  df : DataFrame;
  machine_type : string;
  reporter_dict : list (string * string);
  reporter_list : list string;
  ic : string;
  max_dRn : list (string * cell);
  cq_cutoff : number;
  pos_cutoff : number;
  dRn_percent_cutoff : number;
  min_drm_percent : number;
  max_drm_percent : number
}.

(** [l[i]] *)
Definition py_nth {A : Type} (l : list A) (i : nat) : result A :=
  match nth_error l i with
  | Some a => Ok a
  | None => Raise IndexError
  end.

(** [min(l)] keeps the first of equal smallest items; [l.index(v)] is the
    first position holding [v]. *)
Fixpoint py_min_from (best : number) (l : list number) : number :=
  match l with
  | [] => best
  | x :: l' => py_min_from (if num_ltb x best then x else best) l'
  end.

Definition py_min (l : list number) : result number :=
  match l with
  | [] => Raise ValueError
  | x :: l' => Ok (py_min_from x l')
  end.

Fixpoint py_index (v : number) (l : list number) : result nat :=
  match l with
  | [] => Raise ValueError
  | x :: l' => if num_eqb x v then Ok 0 else k <- py_index v l' ;; Ok (S k)
  end.

(** [row[col] < cutoff], with the value when it holds: false on NaN, a
    [TypeError] on [None] and on a string. *)
Definition below (c : cell) (t : number) : result (option number) :=
  match c with
  | Missing => Ok None
  | Num n => Ok (if num_ltb n t then Some n else None)
  | PyNone | Str _ => Raise TypeError
  end.

Definition cell_gt (c : cell) (t : number) : result bool :=
  match c with
  | Missing => Ok false
  | Num n => Ok (num_ltb t n)
  | PyNone | Str _ => Raise TypeError
  end.

(** The quotient of two cells as floats: NaN when one of them is not a
    number or the quotient is undefined. *)
Definition div_cell (fdiv : Q -> Q -> number) (x y : cell) : cell :=
  match x, y with
  | Num a, Num b =>
      match num_div fdiv a b with
      | Some n => Num n
      | None => Missing
      end
  | _, _ => Missing
  end.

Definition is_zero (c : cell) : bool :=
  match c with
  | Num (Fin y) => Qeq_bool y 0%Q
  | _ => false
  end.

(** [x / y] for a value [x] of a row and a Python float [y].  [None] and a
    string are a [TypeError].  [boxed] tells whether the row is of dtype
    object, so that its values are Python numbers, for which a zero divisor
    is a [ZeroDivisionError]; the values of a row of floats are numpy's and
    follow IEEE, with an infinity or NaN for a zero divisor. *)
Definition py_truediv (fdiv : Q -> Q -> number) (boxed : bool) (x y : cell)
  : result cell :=
  match x, y with
  | PyNone, _ | Str _, _ | _, PyNone | _, Str _ => Raise TypeError
  | _, _ =>
      if boxed && is_zero y then Raise ZeroDivisionError
      else Ok (div_cell fdiv x y)
  end.

Definition is_quantstudio (machine_type : string) : bool :=
  String.eqb machine_type "QuantStudio 3" || String.eqb machine_type "QuantStudio 5".

(** The value appended to [cq_vals] for the reporter [r]: its Cq when the
    well is positive for it, else 99.  [fdiv] rounds the finite quotients
    and [boxed] is whether the row is of dtype object. *)
Definition vhf_entry (fdiv : Q -> Q -> number) (boxed : bool)
  (self : DataAnalyzer) (row : Series) (r : string) : result number :=
  if is_quantstudio (machine_type self) then
    ct <- get row (r ++ " CT") ;;
    v <- below ct (pos_cutoff self) ;;
    match v with
    | Some cq =>
        d <- get row (r ++ " dRn") ;;
        m <- get (max_dRn self) r ;;
        q <- py_truediv fdiv boxed d m ;;
        b <- cell_gt q (dRn_percent_cutoff self) ;;
        Ok (if b then cq else of_int 99)
    | None => Ok (of_int 99)
    end
  else
    ct <- get row (r ++ " CT") ;;
    v <- below ct (pos_cutoff self) ;;
    match v with
    | Some cq => Ok cq
    | None => Ok (of_int 99)
    end.

(** The turn of the loop for [i], on [reporter_list[i]]. *)
Definition vhf_candidate (fdiv : Q -> Q -> number) (boxed : bool)
  (self : DataAnalyzer) (row : Series) (i : nat) : result number :=
  r <- py_nth (reporter_list self) i ;;
  vhf_entry fdiv boxed self row r.

Definition vhf_cq_vals (fdiv : Q -> Q -> number) (boxed : bool)
  (self : DataAnalyzer) (row : Series) : result (list number) :=
  foldM (fun cq_vals i => v <- vhf_candidate fdiv boxed self row i ;; Ok (cq_vals ++ [v]))
        (seq 1 (length (reporter_list self) - 1))
        [of_int 98].

Definition vhf_fluor_min (cq_vals : list number) : result nat :=
  m <- py_min cq_vals ;; py_index m cq_vals.

Definition vhf_result (fdiv : Q -> Q -> number) (boxed : bool)
  (self : DataAnalyzer) (row : Series) : result string :=
  cq_vals <- vhf_cq_vals fdiv boxed self row ;;
  fluor_min <- vhf_fluor_min cq_vals ;;
  if negb (Nat.eqb fluor_min 0) then
    r <- py_nth (reporter_list self) fluor_min ;;
    name <- get (reporter_dict self) r ;;
    Ok (name ++ " Positive")%string
  else
    ct <- get row (ic self ++ " CT") ;;
    b <- cell_lt ct (pos_cutoff self) ;;
    Ok (if b then "Negative" else "Invalid Result").

(** The rows [apply(..., axis=1)] hands over are of dtype object when some
    column of the frame is. *)
Definition object_frame (t : DataFrame) : bool :=
  existsb (fun c => object_dtype (map (fun i => nth i (snd c) Missing) (seq 0 (nrows t))))
          (cols t).

(** [vhf_analysis]: the call of every row, in the column [Result]. *)
Definition vhf_analysis (fdiv : Q -> Q -> number) (self : DataAnalyzer)
  : result DataFrame :=
  calls <- mapM (vhf_result fdiv (object_frame (df self)) self) (iterrows (df self)) ;;
  Ok (set_col (df self) "Result" (map Str calls)).

Definition hiv_result (self : DataAnalyzer) (row : Series) (col : string) : result string :=
  p <- get row col ;;
  b1 <- cell_lt p (min_drm_percent self) ;;
  b <- (if b1 then Ok true
        else q <- get row (ic self ++ " Quantity") ;; cell_lt q (of_int 50)) ;;
  if b : bool then Ok "Negative"
  else
    b3 <- cell_ge p (max_drm_percent self) ;;
    Ok (if b3 then "Positive" else "Indeterminate").

(** The quotient of two columns of one frame, cell by cell: NaN where a
    value is missing. *)
Definition cell_div (fdiv : Q -> Q -> number) (a b : cell) : result cell :=
  match a, b with
  | Str _, _ => Raise TypeError
  | _, Str _ => Raise TypeError
  | Missing, _ | PyNone, _ => Ok Missing
  | _, Missing | _, PyNone => Ok Missing
  | Num x, Num y =>
      Ok (match num_div fdiv x y with
          | Some n => Num n
          | None => Missing
          end)
  end.

Fixpoint series_div (fdiv : Q -> Q -> number) (xs ys : list cell) : result (list cell) :=
  match xs, ys with
  | x :: xs', y :: ys' =>
      q <- cell_div fdiv x y ;; qs <- series_div fdiv xs' ys' ;; Ok (q :: qs)
  | _, _ => Ok []
  end.

(** One turn of the loop of [hiv_analysis], for the reporter [fluor]. *)
Definition hiv_step (fdiv : Q -> Q -> number) (self : DataAnalyzer)
  (table : DataFrame) (fluor : string) : result DataFrame :=
  name <- get (reporter_dict self) fluor ;;
  let pct := (name ++ " DRM Percentage")%string in
  xs <- column table (fluor ++ " Quantity") ;;
  ys <- column table (ic self ++ " Quantity") ;;
  qs <- series_div fdiv xs ys ;;
  let table := fillna (set_col table pct qs) (Num (of_int 0)) in
  calls <- mapM (fun r => hiv_result self r pct) (iterrows table) ;;
  Ok (set_col table (name ++ " Call") (map Str calls)).

Definition hiv_analysis (fdiv : Q -> Q -> number) (self : DataAnalyzer)
  : result DataFrame :=
  foldM (hiv_step fdiv self) (tl (reporter_list self)) (df self).

(* ------------------------------------------------------------------ *)
(** ** Vocabulary of the statements *)

(** A column of [n] rows after [fillna(v)]. *)
Definition filled (v : cell) (n : nat) (vs : list cell) : list cell :=
  map (fun i => fillna_cell v (nth i vs Missing)) (seq 0 n).

(** The last character of a label, to tell labels with different
    suffixes apart. *)
Fixpoint last_char (s : string) : option ascii :=
  match s with
  | EmptyString => None
  | String c EmptyString => Some c
  | String _ s' => last_char s'
  end.

(** The [0] of [fillna(0)]. *)
Definition zero : cell := Num (of_int 0).

(** The table with the percentages of one reporter, before the calls. *)
Definition with_pct (t : DataFrame) (name : string) (qs : list cell) : DataFrame :=
  fillna (set_col t (name ++ " DRM Percentage") qs) zero.

(** The labels a run of [hiv_analysis] writes. *)
Definition hiv_labels (self : DataAnalyzer) (fluors : list string) : list string :=
  flat_map
    (fun fluor =>
       match get (reporter_dict self) fluor with
       | Ok name => [(name ++ " DRM Percentage")%string; (name ++ " Call")%string]
       | Raise _ => []
       end)
    fluors.

(** A cell of a column of floats: a number or NaN. *)
Definition float_cell (c : cell) : Prop :=
  match c with
  | Missing | Num _ => True
  | PyNone | Str _ => False
  end.

(** The frame has the column and its cells are numbers or NaN. *)
Definition numeric (t : DataFrame) (c : string) : Prop :=
  exists vs, get (cols t) c = Ok vs /\ forall i, i < nrows t -> float_cell (nth i vs Missing).

(** The number in a cell after [fillna(0)]. *)
Definition as_num (c : cell) : number :=
  match c with
  | Num n => n
  | _ => of_int 0
  end.

(** The call for a percentage [p] and a control quantity [q]. *)
Definition call_of (self : DataAnalyzer) (p q : number) : string :=
  if num_ltb p (min_drm_percent self) || num_ltb q (of_int 50) then "Negative"
  else if num_leb (max_drm_percent self) p then "Positive"
  else "Indeterminate".

(** The table holds, for the display name [name], a percentage and a
    control quantity in every row, both numbers, and the call that goes
    with them. *)
Definition hiv_called (self : DataAnalyzer) (t : DataFrame) (name : string) : Prop :=
  exists pcts qs calls,
    get (cols t) (name ++ " DRM Percentage") = Ok pcts /\
    get (cols t) (ic self ++ " Quantity") = Ok qs /\
    get (cols t) (name ++ " Call") = Ok calls /\
    forall i, i < nrows t ->
      exists p q,
        nth i pcts Missing = Num p /\
        nth i qs Missing = Num q /\
        nth i calls Missing = Str (call_of self p q).

(** The percentages and the calls of one turn of the loop, from the
    reporter's quantities [xs] and the control's [ys]. *)
Definition step_pcts (fdiv : Q -> Q -> number) (n : nat) (xs ys : list cell) : list cell :=
  map (fun i => div_cell fdiv (nth i xs Missing) (nth i ys Missing)) (seq 0 n).

Definition step_calls (fdiv : Q -> Q -> number) (self : DataAnalyzer)
  (n : nat) (xs ys : list cell) : list string :=
  map (fun i =>
         call_of self
           (as_num (div_cell fdiv (nth i xs Missing) (nth i ys Missing)))
           (as_num (nth i ys Missing)))
      (seq 0 n).

(** The cell of row [i] in column [c] is the number 0. *)
Definition zero_at (t : DataFrame) (c : string) (i : nat) : Prop :=
  exists ys q, get (cols t) c = Ok ys /\ nth i ys Missing = Num (Fin q) /\ (q == 0)%Q.

(** A quantity that is zero or NaN. *)
Definition no_quantity (c : cell) : Prop :=
  c = Missing \/ exists a, c = Num (Fin a) /\ (a == 0)%Q.

Definition no_quantity_at (t : DataFrame) (c : string) (i : nat) : Prop :=
  exists xs, get (cols t) c = Ok xs /\ no_quantity (nth i xs Missing).

(** The two ways [vhf_result] ends: on the control, and on the reporter
    at position [k]. *)
Definition ic_call (self : DataAnalyzer) (row : Series) : result string :=
  ct <- get row (ic self ++ " CT") ;;
  b <- cell_lt ct (pos_cutoff self) ;;
  Ok (if b then "Negative" else "Invalid Result").

Definition positive_call (self : DataAnalyzer) (k : nat) : result string :=
  r <- py_nth (reporter_list self) k ;;
  name <- get (reporter_dict self) r ;;
  Ok (name ++ " Positive")%string.

(** Whether a row counts for the largest dRn: its baseline end is a number
    and at least the threshold. *)
Definition passes (threshold : number) (c : cell) : bool :=
  match c with
  | Num b => num_leb threshold b
  | _ => false
  end.

Definition counted_rows (display : string) (n : nat) (be : list cell) : list nat :=
  filter (fun i => passes (of_int (baseline_end_of display)) (nth i be Missing)) (seq 0 n).

(** What the entry [m] of a reporter's table is: the dRn of a counted row
    that no counted row exceeds, or NaN when no counted row has one. *)
Definition largest_dRn (display fluor : string) (t : DataFrame) (m : cell) : Prop :=
  forall be ds,
    get (cols t) "Baseline End" = Ok be ->
    get (cols t) (fluor ++ " dRn") = Ok ds ->
    match m with
    | Missing =>
        forall i, In i (counted_rows display (nrows t) be) -> nth i ds Missing = Missing
    | Num x =>
        (exists i, In i (counted_rows display (nrows t) be) /\ nth i ds Missing = Num x) /\
        (forall i y, In i (counted_rows display (nrows t) be) ->
                     nth i ds Missing = Num y -> num_ltb x y = false)
    | PyNone | Str _ => False
    end.

(** The rows with a baseline end strictly above the threshold, the strict
    reading of "exceeds". *)
Definition rows_exceeding (display : string) (n : nat) (be : list cell) : list nat :=
  filter (fun i =>
            match nth i be Missing with
            | Num b => num_ltb (of_int (baseline_end_of display)) b
            | _ => false
            end)
         (seq 0 n).

(** The path, once if it has the reporter's token. *)
Definition file_matches (filepath : string) (entry : string * string) : list string :=
  if contains (fst entry ++ ".csv") filepath || contains (snd entry ++ ".csv") filepath
  then [filepath] else [].

(* ------------------------------------------------------------------ *)
(** ** Inputs of the examples *)

Definition hiv_example_analyzer (table : DataFrame) : DataAnalyzer :=
  mkAnalyzer table "Mic" [("VQ", "Internal Control"); ("FAM", "K103N")] ["VQ"; "FAM"] "VQ"
    [] (of_int 35) (of_int 30) (Fin (5 # 100)) (Fin (5 # 100)) (Fin (1 # 10)).

(** Finite quotients taken exactly, for the examples. *)
Definition exact_div (a b : Q) : number := Fin (a / b).

Definition hiv_example_table : DataFrame :=
  mkDataFrame 3
    [("Well", [Num (of_int 1); Num (of_int 2); Num (of_int 3)]);
     ("Sample Name", [Str "s1"; Missing; Str "s3"]);
     ("VQ Quantity", [Num (of_int 0); Num (of_int 0); Num (of_int 1000)]);
     ("FAM Quantity", [Num (of_int 100); Missing; Num (of_int 70)])].

Definition vhf_example_analyzer (machine : string) (cutoff : number) : DataAnalyzer :=
  mkAnalyzer (mkDataFrame 0 []) machine
    [("Cy5", "Internal Control"); ("FAM", "Ebola"); ("HEX", "Marburg")]
    ["Cy5"; "FAM"; "HEX"] "Cy5"
    [("Cy5", Num (of_int 4)); ("FAM", Num (of_int 2)); ("HEX", Num (of_int 2))]
    (of_int 35) cutoff (Fin (5 # 100)) (Fin (5 # 100)) (Fin (1 # 10)).

Definition vhf_example_row : Series :=
  [("Well", Str "A1"); ("Sample Name", Str "s1");
   ("Cy5 CT", Num (of_int 20)); ("FAM CT", Num (of_int 25)); ("HEX CT", Num (of_int 25));
   ("FAM dRn", Num (of_int 1)); ("HEX dRn", Num (of_int 0))].


Definition vhf_late_row : Series :=
  [("Well", Str "A1"); ("Sample Name", Str "s1");
   ("Cy5 CT", Num (of_int 20)); ("FAM CT", Num (Fin (985 # 10)));
   ("HEX CT", Num (of_int 100))].

Definition qs_example_table : DataFrame :=
  mkDataFrame 4
    [("Well", [Num (of_int 1); Num (of_int 1); Num (of_int 2); Num (of_int 2)]);
     ("Well Position", [Str "A1"; Str "A1"; Str "A2"; Str "A2"]);
     ("Sample Name", [Str "s1"; Str "s1"; Str "s2"; Str "s2"]);
     ("Reporter", [Str "FAM"; Str "VIC"; Str "FAM"; Str "VIC"]);
     ("CT", [Num (of_int 22); Num (of_int 24); Num (of_int 35); Num (of_int 25)]);
     ("Cq Conf", [Num (of_int 1); Num (of_int 1); Num (of_int 0); Num (of_int 1)]);
     ("Baseline End",
      [Num (of_int 10); Num (of_int 5); Num (of_int 11); Num (of_int 4)]);
     ("Delta Rn (last cycle)",
      [Num (of_int 7); Num (of_int 6); Num (of_int 3); Num (of_int 9)])].

Definition qs_example_dict : list (string * string) :=
  [("VIC", "Internal Control"); ("FAM", "Ebola")].

Definition qs_example_partial : DataFrame :=
  mkDataFrame 3
    [("Well", [Str "A1"; Str "A2"; Str "A3"]);
     ("Baseline End", [Num (of_int 10); Num (of_int 11); Num (of_int 9)]);
     ("FAM dRn", [Num (of_int 7); Num (of_int 3); Num (of_int 8)])].

Definition mic_example_fam : DataFrame :=
  mkDataFrame 2
    [("Well", [Num (of_int 1); Num (of_int 2)]);
     ("Sample Name", [Str "s1"; Str "s2"]);
     ("FAM CT", [Num (of_int 22); Num (of_int 35)])].

Definition mic_example_hex : DataFrame :=
  mkDataFrame 1
    [("Well", [Num (of_int 1)]);
     ("Sample Name", [Str "s1"]);
     ("HEX CT", [Num (of_int 25)])].

Definition rgq_example_file : DataFrame :=
  mkDataFrame 2
    [("No.", [Num (of_int 1); Num (of_int 2)]);
     ("Name", [Str "s1"; Str "s2"]);
     ("Ct", [Num (of_int 21); Missing]);
     ("Ct Comment", [Missing; Missing]);
     ("Given Conc (copies/reaction)", [Missing; Missing])].

Definition rgq_example_dict : list (string * string) :=
  [("Green", "Ebola"); ("Yellow", "Internal Control")].

(* ------------------------------------------------------------------ *)
(** ** Vocabulary of further statements *)

(** The stop test and the flag test of [extract_header] on a line. *)
Definition stop_hit (stop : option string) (line : list string) : bool :=
  if truthy stop then in_str stop line else isblank line.

Definition flag_hit (flag : option string) (line : list string) : bool :=
  truthy flag && in_str flag line.

(** The items before the first one that satisfies [p]. *)
Fixpoint take_until {A : Type} (p : A -> bool) (l : list A) : list A :=
  match l with
  | [] => []
  | a :: l' => if p a then [] else a :: take_until p l'
  end.

(** A text of whitespace only. *)
Fixpoint all_space (s : string) : bool :=
  match s with
  | EmptyString => true
  | String c s' => py_isspace c && all_space s'
  end.

(* ------------------------------------------------------------------ *)
(** ** Initialisation and dispatch: [init_reporters] and [parse] *)

(** The entry of an assay in the configuration: its table of reporters and
    the name of its internal control, each of which may be absent. *)
Record AssayConfig : Type := mkAssayConfig {
  assay_table : option (list (string * string));
  assay_ic : option string
}.

Definition from_key {A : Type} (o : option A) : result A :=
  match o with
  | Some a => Ok a
  | None => Raise KeyError
  end.

(** [init_reporters]: the reporters, the internal control and the list of
    the reporters' keys. *)
Definition init_reporters (config : list (string * AssayConfig)) (assay : string)
  : result (list (string * string) * string * list string) :=
  found <- or_exit (entry <- get config assay ;;
                    reporter_dict <- from_key (assay_table entry) ;;
                    ic <- from_key (assay_ic entry) ;;
                    Ok (reporter_dict, ic)) ;;
  Ok (fst found, snd found, map fst (fst found)).

Inductive Parser : Type :=
| ParseRgq
| ParseMic
| ParseQs.

(** The parser [parse] runs for a machine type. *)
Definition parse_dispatch (machine_type : string) : result Parser :=
  if String.eqb machine_type "Rotor-Gene" then Ok ParseRgq
  else if String.eqb machine_type "Mic" then Ok ParseMic
  else if contains "QuantStudio" machine_type then Ok ParseQs
  else Raise ValueError.

(** A cell that is not missing: neither NaN nor [None]. *)
Definition present (c : cell) : bool := negb (is_null c).

(* ------------------------------------------------------------------ *)
(** ** File selection: [select_file] *)

(** What [select_file] hands back: one path, or the tuple of paths. *)
Inductive Selection : Type :=
| OneFile (path : string)
| ManyFiles (paths : list string).

(** [ask_many] is what [askopenfilenames] returns and [ask_one] what
    [askopenfilename] returns (the empty text when the dialog is closed);
    [splitext] is the extension of [os.path.splitext].  The result is the
    selection with the extension. *)
Definition select_file (splitext : string -> string)
  (ask_many : list string) (ask_one : string) (num_files : nat)
  : result (Selection * string) :=
  if Nat.ltb 1 num_files then
    first <- py_nth ask_many 0 ;;
    let ext := splitext first in
    if negb (Nat.eqb (length ask_many) num_files) then Raise SystemExit
    else
      match ask_many with
      | [] => Raise SystemExit
      | _ :: _ => Ok (ManyFiles ask_many, ext)
      end
  else
    let ext := splitext ask_one in
    if is_empty ask_one then Raise SystemExit
    else Ok (OneFile ask_one, ext).

(** [for filepath in results_filepaths]: the paths of a tuple, the
    characters of a single path. *)
Fixpoint chars (s : string) : list string :=
  match s with
  | EmptyString => []
  | String c s' => String c EmptyString :: chars s'
  end.

Definition iter_selection (s : Selection) : list string :=
  match s with
  | OneFile path => chars path
  | ManyFiles paths => paths
  end.

(** [parse_rgq] from the dialog on. *)
Definition parse_rgq_selected (splitext : string -> string)
  (ask_many : list string) (ask_one : string)
  (read_csv : string -> result DataFrame)
  (csv_rows : string -> result (list (list string)))
  (cq_cutoff : number) (reporter_dict : list (string * string))
  : result (option DataFrame * option (list (list string))) :=
  selected <- select_file splitext ask_many ask_one (length reporter_dict) ;;
  parse_rgq read_csv csv_rows cq_cutoff reporter_dict (iter_selection (fst selected)).

(* ------------------------------------------------------------------ *)
(** ** Mic: the chunks of a text export and the choice of tabs *)

(** [line.strip() == ''] *)
Definition line_blank (line : string) : bool := is_empty (strip line).

(** [itertools.groupby] on blankness, the blank groups left out: the runs
    of lines between blank lines.  [cur] is the run being read. *)
Fixpoint chunks_from (cur : list string) (csv_lines : list string) : list (list string) :=
  match csv_lines with
  | [] =>
      match cur with
      | [] => []
      | _ :: _ => [cur]
      end
  | line :: rest =>
      if line_blank line then
        match cur with
        | [] => chunks_from [] rest
        | _ :: _ => cur :: chunks_from [] rest
        end
      else chunks_from (cur ++ [line]) rest
  end.

Definition chunks (csv_lines : list string) : list (list string) :=
  chunks_from [] csv_lines.

Definition mic_title_matches (fluor display title : string) : bool :=
  contains "Start Worksheet - Analysis - Cycling" title
  && contains "Result" title
  && (contains fluor title || contains display title).

(** The inner loop over the chunks for one reporter: the chunk chosen, if
    any, and the latest sample-information chunk seen. *)
Fixpoint mic_scan (division fluor display : string) (chunks : list (list string))
  (info_csv : option (list string))
  : result (option (list string) * option (list string)) :=
  match chunks with
  | [] => Ok (None, info_csv)
  | chunk :: rest =>
      title <- py_nth chunk 0 ;;
      if mic_title_matches fluor display title then Ok (Some chunk, info_csv)
      else if String.eqb division "hiv" && contains "Start Worksheet - Samples" title
      then mic_scan division fluor display rest (Some chunk)
      else mic_scan division fluor display rest info_csv
  end.

Record mic_state : Type := mkMic {
  results_csvs : list (string * list string);
  tabs_to_use : list (string * string);
  info_csv : option (list string)
}.

Definition mic_fluor_step (division : string) (chunks : list (list string))
  (st : mic_state) (entry : string * string) : result mic_state :=
  found <- mic_scan division (fst entry) (snd entry) chunks (info_csv st) ;;
  match fst found with
  | Some chunk =>
      title <- py_nth chunk 0 ;;
      Ok (mkMic (results_csvs st ++ [(fst entry, chunk)])
                (tabs_to_use st ++ [(fst entry, title)])
                (snd found))
  | None => Ok (mkMic (results_csvs st) (tabs_to_use st) (snd found))
  end.

(** The choice of a chunk per reporter in a text export, with the check
    that every reporter has one. *)
Definition mic_select_chunks (division : string) (reporter_dict : list (string * string))
  (csv_lines : list string) : result mic_state :=
  st <- foldM (mic_fluor_step division (chunks csv_lines)) reporter_dict
          (mkMic [] [] None) ;;
  if list_eq_dec string_dec (sorted (map fst (tabs_to_use st)))
                            (sorted (map fst reporter_dict))
  then Ok st
  else Raise SystemExit.

(** The choice of a tab per reporter in a spreadsheet. *)
Definition mic_tab_matches (display tab : string) : bool :=
  contains display tab && contains "Result" tab && negb (contains "Absolute" tab).

Definition mic_tab_step (sheetnames : list string)
  (tabs : list (string * string)) (entry : string * string) : list (string * string) :=
  match find (mic_tab_matches (snd entry)) sheetnames with
  | Some tab => tabs ++ [(fst entry, tab)]
  | None => tabs
  end.

Definition mic_select_tabs (reporter_dict : list (string * string))
  (sheetnames : list string) : result (list (string * string)) :=
  let tabs := fold_left (mic_tab_step sheetnames) reporter_dict [] in
  if list_eq_dec string_dec (sorted (map fst tabs)) (sorted (map fst reporter_dict))
  then Ok tabs
  else Raise SystemExit.

(** The choice [mic_scan] makes among chunks: the first one whose title
    matches. *)
Definition chunk_matches (fluor display : string) (chunk : list string) : bool :=
  match chunk with
  | [] => false
  | title :: _ => mic_title_matches fluor display title
  end.

Definition mic_chosen (chunks : list (list string)) (entry : string * string)
  : option (list string) :=
  find (chunk_matches (fst entry) (snd entry)) chunks.

(** The chunks and the titles recorded for the reporters that have one. *)
Definition chosen_chunks (chs : list (list string)) (dict : list (string * string))
  : list (string * list string) :=
  flat_map (fun e => match mic_chosen chs e with
                     | Some chunk => [(fst e, chunk)]
                     | None => []
                     end) dict.

Definition chosen_titles (chs : list (list string)) (dict : list (string * string))
  : list (string * string) :=
  flat_map (fun e => match mic_chosen chs e with
                     | Some (title :: _) => [(fst e, title)]
                     | _ => []
                     end) dict.

(* ------------------------------------------------------------------ *)
(** ** QuantStudio: the check of the reporters in the file *)

(** [Series.unique()]: the values in the order of their first
    occurrence. *)
Definition unique (vs : list cell) : list cell :=
  fold_left (fun seen v => if existsb (cell_same v) seen then seen else seen ++ [v]) vs [].

Fixpoint as_strings (vs : list cell) : option (list string) :=
  match vs with
  | [] => Some []
  | Str s :: vs' =>
      match as_strings vs' with
      | Some names => Some (s :: names)
      | None => None
      end
  | _ :: _ => None
  end.

Definition is_str (c : cell) : bool :=
  match c with
  | Str _ => true
  | _ => false
  end.

(** [sorted(list(results_table['Reporter'].unique())) !=
    sorted(self.reporter_dict)]: sorting texts together with numbers, or
    [None] together with anything, is a [TypeError]; a list without a text
    differs from the list of keys. *)
Definition is_none (c : cell) : bool :=
  match c with
  | PyNone => true
  | _ => false
  end.

Definition qs_check_reporters (results_table : DataFrame)
  (reporter_dict : list (string * string)) : result unit :=
  reporter <- column results_table "Reporter" ;;
  let found := unique reporter in
  match as_strings found with
  | Some names =>
      if list_eq_dec string_dec (sorted names) (sorted (map fst reporter_dict))
      then Ok tt
      else Raise SystemExit
  | None =>
      if existsb is_str found || (existsb is_none found && Nat.ltb 1 (length found))
      then Raise TypeError
      else Raise SystemExit
  end.

(** The number of rows of all the per-reporter tables together. *)
Definition rows_of_partials (division : string) (results_table : DataFrame)
  (reporter_dict : list (string * string)) : result nat :=
  parts <- mapM (qs_partial division results_table) (map fst reporter_dict) ;;
  Ok (list_sum (map nrows parts)).

(* ------------------------------------------------------------------ *)
(** ** Export: [DataExporter.cleanup] *)

(** [l.remove(x)]: the list without the first [x], a [ValueError] when
    there is none. *)
Fixpoint py_remove (x : string) (l : list string) : result (list string) :=
  match l with
  | [] => Raise ValueError
  | y :: l' =>
      if String.eqb y x then Ok l'
      else l'' <- py_remove x l' ;; Ok (y :: l'')
  end.

(** The turn of the loop of [cleanup] for one entry of [columns]. *)
Definition cleanup_step (reporter_dict : list (string * string))
  (reporter_list : list string) (rm_headers : list string) (header : string)
  : result (list string) :=
  if contains "Cq" header && negb (contains "Cq Conf" header) then
    foldM (fun rm entry => py_remove (snd entry ++ " Cq") rm) reporter_dict rm_headers
  else if contains "dRn" header then
    foldM (fun rm entry => py_remove (snd entry ++ " dRn") rm) reporter_dict rm_headers
  else if contains "Call" header then
    foldM (fun rm key => name <- get reporter_dict key ;; py_remove (name ++ " Call") rm)
          (tl reporter_list) rm_headers
  else if contains "DRM Percentage" header then
    foldM (fun rm key =>
             name <- get reporter_dict key ;; py_remove (name ++ " DRM Percentage") rm)
          (tl reporter_list) rm_headers
  else
    match py_remove header rm_headers with
    | Ok rm => Ok rm
    | Raise _ => Ok rm_headers
    end.

(** [df.drop(columns=rm_headers)] for labels of the frame. *)
Definition drop_columns (t : DataFrame) (rm_headers : list string) : DataFrame :=
  mkDataFrame (nrows t) (filter (fun c => negb (mem (fst c) rm_headers)) (cols t)).

Definition cleanup (reporter_dict : list (string * string)) (reporter_list : list string)
  (columns : list string) (results : DataFrame) : result DataFrame :=
  rm_headers <- foldM (cleanup_step reporter_dict reporter_list) columns (labels results) ;;
  Ok (drop_columns results rm_headers).

(** An entry of [columns] that names a group of columns. *)
Definition is_group (header : string) : bool :=
  (contains "Cq" header && negb (contains "Cq Conf" header))
  || contains "dRn" header
  || contains "Call" header
  || contains "DRM Percentage" header.

Definition export_example_table : DataFrame :=
  mkDataFrame 1
    [("Well", [Str "A1"]); ("Sample Name", [Str "s1"]);
     ("Internal Control Cq", [Num (of_int 20)]); ("Ebola Cq", [Num (of_int 25)]);
     ("Result", [Str "Ebola Positive"])].

(* ================================================================== *)
(** * Properties *)

(** ** Raw table extraction *)

Example py_str_example :
  py_str ["Experiment Name"; "run 1"] = "['Experiment Name', 'run 1']".
Proof. reflexivity. Qed.

Example csv_to_df_example :
  csv_to_df [["x"]; ["[Results]"]; ["Well"; "CT"]; ["1"; "20.5"]; ["2"]; []; ["z"]]
            "[Results]"
  = Ok (mkDataFrame 2 [("Well", [Str "1"; Str "2"]); ("CT", [Str "20.5"; PyNone])]).
Proof. reflexivity. Qed.

Lemma csv_to_df_loop_no_flag (flag : string) (f : list (list string)) :
  forall acc,
    (forall l, In l f -> existsb (String.eqb flag) l = false) ->
    fold_left (csv_to_df_step flag) f (false, acc) = (false, acc).
Proof.
  induction f as [|line f IH]; intros acc H; simpl.
  - reflexivity.
  - rewrite (H line (or_introl eq_refl)).
    destruct (isblank line); apply IH; intros l Hl; apply H; right; exact Hl.
Qed.

Lemma csv_to_df_loop_blank (flag : string) (f : list (list string)) :
  forall b acc,
    (forall l, In l f -> isblank l = true) ->
    snd (fold_left (csv_to_df_step flag) f (b, acc)) = acc.
Proof.
  induction f as [|line f IH]; intros b acc H; simpl.
  - reflexivity.
  - rewrite (H line (or_introl eq_refl)).
    apply IH; intros l Hl; apply H; right; exact Hl.
Qed.

Lemma map_nth_seq {A : Type} (d : A) (l : list A) :
  map (fun k => nth k l d) (seq 0 (length l)) = l.
Proof.
  induction l as [|a l IH]; [reflexivity|].
  simpl. f_equal. rewrite <- seq_shift, map_map. exact IH.
Qed.

Lemma py_DataFrame_shape (data : list (list string)) (header : list string) (t : DataFrame) :
  py_DataFrame data header = Ok t ->
  labels t = header /\ nrows t = length data.
Proof.
  unfold py_DataFrame, labels; destruct data as [|r data].
  - intros H; injection H as <-; split; [|reflexivity].
    simpl. rewrite map_map. simpl. apply map_id.
  - destruct (Nat.eqb _ _); [|discriminate].
    intros H; injection H as <-; split; [|reflexivity].
    cbn [cols]. rewrite map_map. cbn [fst]. apply map_nth_seq.
Qed.

(** C5 (as the code has it).  [csv_to_df] pops the first buffered row as the
    header and builds the table from the rows left: a returned table has the
    first buffered row as its labels and one row per remaining buffered row;
    when the header is the only buffered row the result is the empty table
    with that header, and no error; when nothing is buffered, as for an input
    of blank lines only or one where no line has the flag, the pop raises
    [IndexError]. *)
Theorem csv_to_df_header_pop (csv_file : list (list string)) (results_flag : string) :
  ((forall l, In l csv_file -> isblank l = true) ->
   csv_to_df csv_file results_flag = Raise IndexError) /\
  ((forall l, In l csv_file -> existsb (String.eqb results_flag) l = false) ->
   csv_to_df csv_file results_flag = Raise IndexError) /\
  (forall pre fl header,
     csv_file = pre ++ [fl; header] ->
     (forall l, In l pre -> existsb (String.eqb results_flag) l = false) ->
     existsb (String.eqb results_flag) fl = true ->
     isblank header = false ->
     csv_to_df csv_file results_flag = Ok (mkDataFrame 0 (map (fun h => (h, [])) header))) /\
  (forall t,
     csv_to_df csv_file results_flag = Ok t ->
     exists data,
       csv_to_df_loop results_flag csv_file = labels t :: data /\
       nrows t = length data).
Proof.
  unfold csv_to_df, csv_to_df_loop; split; [|split; [|split]].
  - intros H; now rewrite csv_to_df_loop_blank.
  - intros H; now rewrite csv_to_df_loop_no_flag.
  - intros pre fl header -> Hpre Hfl Hh.
    rewrite fold_left_app, csv_to_df_loop_no_flag by exact Hpre.
    cbn [fold_left csv_to_df_step]. rewrite Hfl, Hh.
    destruct (isblank fl), (existsb (String.eqb results_flag) header); reflexivity.
  - intros t H.
    destruct (snd _) as [|header data]; [discriminate|].
    apply py_DataFrame_shape in H. destruct H as [<- H].
    exists data; split; [reflexivity|exact H].
Qed.

Lemma csv_to_df_header_pop_witness :
  csv_to_df [[]; [" "]] "[Results]" = Raise IndexError /\
  csv_to_df [["Well"; "CT"]; ["1"; "20"]] "[Results]" = Raise IndexError /\
  csv_to_df [["x"]; ["[Results]"]; ["Well"; "CT"]] "[Results]"
    = Ok (mkDataFrame 0 [("Well", []); ("CT", [])]) /\
  (exists data,
     csv_to_df_loop "[Results]" [["[Results]"]; ["Well"]; ["7"]] = ["Well"] :: data /\
     1 = length data).
Proof.
  split; [|split; [|split]].
  - apply (csv_to_df_header_pop [[]; [" "]] "[Results]").
    intros l [<-|[<-|[]]]; reflexivity.
  - apply (csv_to_df_header_pop [["Well"; "CT"]; ["1"; "20"]] "[Results]").
    intros l [<-|[<-|[]]]; reflexivity.
  - apply (proj1 (proj2 (proj2
             (csv_to_df_header_pop [["x"]; ["[Results]"]; ["Well"; "CT"]] "[Results]")))
             [["x"]] ["[Results]"] ["Well"; "CT"]).
    + reflexivity.
    + intros l [<-|[]]; reflexivity.
    + reflexivity.
    + reflexivity.
  - apply (proj2 (proj2 (proj2
             (csv_to_df_header_pop [["[Results]"]; ["Well"]; ["7"]] "[Results]")))
             (mkDataFrame 1 [("Well", [Str "7"])])).
    reflexivity.
Defined.

(** C5 as stated fails: with the header as the only buffered row the call
    returns an empty table instead of failing, and a blank input or one
    without the flag raises [IndexError] instead of giving an empty table. *)
Lemma csv_to_df_no_format_error :
  csv_to_df [["[Results]"]; ["Well"; "CT"]] "[Results]"
    = Ok (mkDataFrame 0 [("Well", []); ("CT", [])]) /\
  csv_to_df [[]; [" "; EmptyString]] "[Results]" = Raise IndexError /\
  csv_to_df [["Well"; "CT"]; ["1"; "20"]] "[Results]" = Raise IndexError.
Proof. repeat split. Qed.

Lemma extract_header_step_eq (flag stop : option string)
  (headbool : bool) (head : list (list string)) (line : list string) :
  extract_header_step flag stop (headbool, head) line =
  let off := if truthy stop then in_str stop line else isblank line in
  let on := truthy flag && in_str flag line in
  let headbool' := if on then true else if off then false else headbool in
  (headbool', if headbool' then head ++ [line] else head).
Proof.
  unfold extract_header_step.
  destruct (truthy stop), (truthy flag), (in_str stop line), (in_str flag line),
    (isblank line), headbool; reflexivity.
Qed.

Lemma extract_header_loop_keeps (flag stop : option string) (reader : list (list string)) :
  forall headbool head x,
    In x head ->
    In x (snd (fold_left (extract_header_step flag stop) reader (headbool, head))).
Proof.
  induction reader as [|line reader IH]; intros hb head x Hx; cbn [fold_left].
  - exact Hx.
  - rewrite extract_header_step_eq; cbv zeta.
    apply IH.
    destruct (if truthy flag && in_str flag line then true else _);
      [apply in_or_app; left|]; exact Hx.
Qed.

Lemma extract_header_loop_flag_line (flag stop : option string) (reader : list (list string)) :
  forall headbool head line,
    In line reader ->
    truthy flag = true ->
    in_str flag line = true ->
    In line (snd (fold_left (extract_header_step flag stop) reader (headbool, head))).
Proof.
  induction reader as [|l reader IH]; intros hb head line Hin Ht Hf; cbn [fold_left].
  - destruct Hin.
  - rewrite extract_header_step_eq; cbv zeta.
    destruct Hin as [->|Hin].
    + rewrite Ht, Hf; simpl.
      apply extract_header_loop_keeps, in_or_app; right; left; reflexivity.
    + now apply IH.
Qed.

(** C7 (as the code has it).  Each line is handled in the order: stop (or
    blank line, without a stop token) turns capturing off, then a flag match
    turns it on, then the line is appended when capturing is on.  So the flag
    check has the last word: a line that matches the flag is always in the
    captured header, also when it matches the stop condition too. *)
Theorem extract_header_check_order
  (reader : list (list string)) (flag stop : option string) :
  (forall headbool head line,
     extract_header_step flag stop (headbool, head) line =
     let off := if truthy stop then in_str stop line else isblank line in
     let on := truthy flag && in_str flag line in
     let headbool' := if on then true else if off then false else headbool in
     (headbool', if headbool' then head ++ [line] else head)) /\
  (forall line,
     In line reader ->
     truthy flag = true ->
     in_str flag line = true ->
     In line (extract_header reader flag stop)).
Proof.
  split.
  - intros; apply extract_header_step_eq.
  - intros line Hin Ht Hf. unfold extract_header.
    now apply extract_header_loop_flag_line.
Qed.

Lemma extract_header_check_order_witness :
  In ["Experiment end"]
     (extract_header [["a"]; ["Experiment end"]; ["b"]] (Some "Experiment") (Some "end")).
Proof.
  apply (extract_header_check_order
           [["a"]; ["Experiment end"]; ["b"]] (Some "Experiment") (Some "end")).
  - right; left; reflexivity.
  - reflexivity.
  - reflexivity.
Defined.

(** C7 as stated fails: a line that matches both the stop and the flag is
    captured, here and on every input. *)
Lemma extract_header_stop_and_flag_line_kept :
  extract_header [["Experiment"; "7"]; ["Experiment end"]; ["b"]]
                 (Some "Experiment") (Some "end")
    = [["Experiment"; "7"]; ["Experiment end"]; ["b"]] /\
  (forall reader flag stop line,
     In line reader ->
     truthy flag = true ->
     in_str flag line = true ->
     (if truthy stop then in_str stop line else isblank line) = true ->
     In line (extract_header reader flag stop)).
Proof.
  split; [reflexivity|].
  intros reader flag stop line Hin Ht Hf _. unfold extract_header.
  now apply extract_header_loop_flag_line.
Qed.

(* ------------------------------------------------------------------ *)
(** ** Comparing numbers *)

Lemma num_ltb_irrefl (a : number) : num_ltb a a = false.
Proof.
  destruct a as [q| |]; try reflexivity.
  unfold num_ltb, Qlt_bool.
  assert (H : Qle_bool q q = true) by (apply Qle_bool_iff, Qle_refl).
  now rewrite H.
Qed.

Lemma num_eqb_refl (a : number) : num_eqb a a = true.
Proof. destruct a; try reflexivity. apply Qeq_bool_refl. Qed.

Lemma num_leb_refl (a : number) : num_leb a a = true.
Proof. unfold num_leb. now rewrite num_eqb_refl, orb_true_r. Qed.

(* ------------------------------------------------------------------ *)
(** ** Reading and writing columns *)

Ltac inv_bind H :=
  match type of H with
  | bind ?m _ = Ok _ =>
      let E := fresh "E" in
      destruct m eqn:E; [cbn [bind] in H | discriminate H]
  end.

Lemma bind_ok {A B : Type} (m : result A) (k : A -> result B) (b : B) :
  bind m k = Ok b -> exists a, m = Ok a /\ k a = Ok b.
Proof. destruct m as [a|e]; [intros H; exists a; split; [reflexivity|exact H] | discriminate]. Qed.

Lemma nth_map_seq {A : Type} (f : nat -> A) (n i : nat) (d : A) :
  i < n -> nth i (map f (seq 0 n)) d = f i.
Proof.
  intros Hi.
  rewrite (nth_indep _ d (f 0)) by (now rewrite length_map, length_seq).
  rewrite (map_nth f (seq 0 n) 0 i), seq_nth by exact Hi. reflexivity.
Qed.

Lemma get_map_snd {A B : Type} (f : A -> B) (cs : list (string * A)) (k : string) :
  get (map (fun c => (fst c, f (snd c))) cs) k = (v <- get cs k ;; Ok (f v)).
Proof.
  induction cs as [|[l v] cs IH]; [reflexivity|].
  cbn [map get fst snd]. destruct (String.eqb l k); [reflexivity|exact IH].
Qed.

Lemma get_row (t : DataFrame) (i : nat) (c : string) :
  get (row t i) c = (vs <- get (cols t) c ;; Ok (nth i vs Missing)).
Proof. unfold row. apply (get_map_snd (fun vs => nth i vs Missing)). Qed.

Lemma get_fillna (t : DataFrame) (v : cell) (c : string) :
  get (cols (fillna t v)) c = (vs <- get (cols t) c ;; Ok (filled v (nrows t) vs)).
Proof. unfold fillna. cbn [cols]. apply (get_map_snd (filled v (nrows t))). Qed.

Lemma get_not_mem {A : Type} (cs : list (string * A)) (c : string) :
  mem c (map fst cs) = false -> get cs c = Raise KeyError.
Proof.
  induction cs as [|[l v] cs IH]; [reflexivity|].
  cbn [map fst mem existsb get]. rewrite (String.eqb_sym c l).
  destruct (String.eqb l c); [discriminate|]. exact IH.
Qed.

Lemma get_app_not_mem {A : Type} (cs cs' : list (string * A)) (c : string) :
  mem c (map fst cs) = false -> get (cs ++ cs') c = get cs' c.
Proof.
  induction cs as [|[l v] cs IH]; [reflexivity|].
  cbn [map fst mem existsb get app]. rewrite (String.eqb_sym c l).
  destruct (String.eqb l c); [discriminate|]. exact IH.
Qed.

Lemma get_app_other {A : Type} (cs : list (string * A)) (c c' : string) (v : A) :
  c' <> c -> get (cs ++ [(c, v)]) c' = get cs c'.
Proof.
  intros Hne. induction cs as [|[l w] cs IH].
  - cbn [app get]. destruct (String.eqb_spec c c'); [congruence|reflexivity].
  - cbn [app get]. destruct (String.eqb l c'); [reflexivity|exact IH].
Qed.

Lemma get_set_col_same (t : DataFrame) (c : string) (vs : list cell) :
  get (cols (set_col t c vs)) c = Ok vs.
Proof.
  unfold set_col, labels. destruct (mem c (map fst (cols t))) eqn:Hm; cbn [cols].
  - induction (cols t) as [|[l w] cs IH]; [discriminate|].
    cbn [map fst mem existsb] in Hm. cbn [map fst get].
    destruct (String.eqb_spec l c) as [->|Hne].
    + cbn [fst get]. now rewrite String.eqb_refl.
    + cbn [fst get]. destruct (String.eqb_spec l c); [contradiction|].
      apply IH. rewrite String.eqb_sym in Hm.
      destruct (String.eqb_spec l c); [contradiction|exact Hm].
  - rewrite get_app_not_mem by exact Hm. cbn [get]. now rewrite String.eqb_refl.
Qed.

Lemma get_set_col_other (t : DataFrame) (c c' : string) (vs : list cell) :
  c' <> c -> get (cols (set_col t c vs)) c' = get (cols t) c'.
Proof.
  intros Hne. unfold set_col. destruct (mem c (labels t)); cbn [cols].
  - induction (cols t) as [|[l w] cs IH]; [reflexivity|].
    cbn [map fst get]. destruct (String.eqb_spec l c) as [->|Hl].
    + cbn [get]. destruct (String.eqb_spec c c'); [congruence|exact IH].
    + cbn [get]. destruct (String.eqb l c'); [reflexivity|exact IH].
  - now apply get_app_other.
Qed.

Lemma nrows_set_col (t : DataFrame) (c : string) (vs : list cell) :
  nrows (set_col t c vs) = nrows t.
Proof. unfold set_col. now destruct (mem c (labels t)). Qed.

Lemma mapM_length {A B : Type} (f : A -> result B) (l : list A) :
  forall bs, mapM f l = Ok bs -> length bs = length l.
Proof.
  induction l as [|a l IH]; intros bs H; cbn [mapM] in H.
  - now injection H as <-.
  - inv_bind H. inv_bind H. injection H as <-. cbn [length]. f_equal. now apply IH.
Qed.

Lemma mapM_seq_ok {B : Type} (f : nat -> result B) (g : nat -> B) (n : nat) :
  forall s,
    (forall i, s <= i < s + n -> f i = Ok (g i)) ->
    mapM f (seq s n) = Ok (map g (seq s n)).
Proof.
  induction n as [|n IH]; intros s H; [reflexivity|].
  cbn [seq mapM map]. rewrite (H s) by lia. cbn [bind].
  rewrite IH; [reflexivity|]. intros i Hi. apply H. lia.
Qed.

Lemma mapM_seq_inv {B : Type} (f : nat -> result B) (n : nat) :
  forall s bs,
    mapM f (seq s n) = Ok bs ->
    forall i d, i < n -> f (s + i) = Ok (nth i bs d).
Proof.
  induction n as [|n IH]; intros s bs H i d Hi; [lia|].
  cbn [seq mapM] in H. inv_bind H. inv_bind H. injection H as <-.
  destruct i as [|i]; cbn [nth].
  - now rewrite Nat.add_0_r.
  - rewrite <- Nat.add_succ_comm. apply IH; [assumption|lia].
Qed.

Lemma mapM_map {A B C : Type} (f : B -> result C) (g : A -> B) (l : list A) :
  mapM f (map g l) = mapM (fun a => f (g a)) l.
Proof.
  induction l as [|a l IH]; [reflexivity|]. cbn [map mapM]. now rewrite IH.
Qed.

Lemma length_append (a s : string) :
  String.length (a ++ s) = String.length a + String.length s.
Proof. induction a as [|c a IH]; [reflexivity|]. cbn. now rewrite IH. Qed.

Lemma append_cancel_r (s : string) :
  forall a b, (a ++ s)%string = (b ++ s)%string -> a = b.
Proof.
  induction a as [|c a IH]; intros [|d b] E.
  - reflexivity.
  - apply (f_equal String.length) in E.
    cbn [append] in E. cbn [String.length] in E. rewrite length_append in E. lia.
  - apply (f_equal String.length) in E.
    cbn [append] in E. cbn [String.length] in E. rewrite length_append in E. lia.
  - cbn [append] in E. injection E as -> E. f_equal. now apply IH.
Qed.

Lemma last_char_append (a s : string) :
  is_empty s = false -> last_char (a ++ s) = last_char s.
Proof.
  intros Hs. induction a as [|c a IH]; [reflexivity|].
  cbn [append last_char]. rewrite IH.
  destruct (a ++ s)%string eqn:E; [|reflexivity].
  destruct a; [cbn in E; subst s; discriminate|discriminate].
Qed.

Lemma suffix_neq (a b s s' : string) :
  is_empty s = false -> is_empty s' = false ->
  last_char s <> last_char s' ->
  (a ++ s)%string <> (b ++ s')%string.
Proof.
  intros Hs Hs' Hne E. apply Hne.
  rewrite <- (last_char_append a s Hs), <- (last_char_append b s' Hs'). now rewrite E.
Qed.

Lemma pct_neq_quantity (a b : string) :
  (a ++ " DRM Percentage")%string <> (b ++ " Quantity")%string.
Proof. apply suffix_neq; [reflexivity|reflexivity|discriminate]. Qed.

Lemma call_neq_quantity (a b : string) :
  (a ++ " Call")%string <> (b ++ " Quantity")%string.
Proof. apply suffix_neq; [reflexivity|reflexivity|discriminate]. Qed.

Lemma call_neq_pct (a b : string) :
  (a ++ " Call")%string <> (b ++ " DRM Percentage")%string.
Proof. apply suffix_neq; [reflexivity|reflexivity|discriminate]. Qed.

(* ------------------------------------------------------------------ *)
(** ** The HIV analysis *)

Lemma hiv_step_inv (fdiv : Q -> Q -> number) (self : DataAnalyzer)
  (t t' : DataFrame) (fluor : string) :
  hiv_step fdiv self t fluor = Ok t' ->
  exists name xs ys qs calls,
    get (reporter_dict self) fluor = Ok name /\
    column t (fluor ++ " Quantity") = Ok xs /\
    column t (ic self ++ " Quantity") = Ok ys /\
    series_div fdiv xs ys = Ok qs /\
    mapM (fun r => hiv_result self r (name ++ " DRM Percentage"))
         (iterrows (with_pct t name qs)) = Ok calls /\
    t' = set_col (with_pct t name qs) (name ++ " Call") (map Str calls).
Proof.
  unfold hiv_step. intros H.
  inv_bind H. inv_bind H. inv_bind H. inv_bind H. inv_bind H.
  injection H as <-.
  eexists _, _, _, _, _. repeat split; eassumption.
Qed.

Lemma nrows_with_pct (t : DataFrame) (name : string) (qs : list cell) :
  nrows (with_pct t name qs) = nrows t.
Proof. unfold with_pct, fillna. cbn [nrows]. apply nrows_set_col. Qed.

(** What one turn leaves of a column that is not one of its two own. *)
Lemma hiv_step_frame (fdiv : Q -> Q -> number) (self : DataAnalyzer)
  (t t' : DataFrame) (fluor name : string) :
  hiv_step fdiv self t fluor = Ok t' ->
  get (reporter_dict self) fluor = Ok name ->
  nrows t' = nrows t /\
  forall c,
    c <> (name ++ " DRM Percentage")%string ->
    c <> (name ++ " Call")%string ->
    get (cols t') c = (vs <- get (cols t) c ;; Ok (filled zero (nrows t) vs)).
Proof.
  intros H Hname.
  destruct (hiv_step_inv _ _ _ _ _ H)
    as (name' & xs & ys & qs & calls & Hn & _ & _ & _ & _ & ->).
  rewrite Hname in Hn. injection Hn as <-.
  split.
  - now rewrite nrows_set_col, nrows_with_pct.
  - intros c Hc1 Hc2.
    rewrite get_set_col_other by exact Hc2.
    unfold with_pct. rewrite get_fillna, nrows_set_col.
    now rewrite get_set_col_other by exact Hc1.
Qed.

Lemma filled_filled (n : nat) (vs : list cell) :
  filled zero n (filled zero n vs) = filled zero n vs.
Proof.
  unfold filled. apply map_ext_in. intros i Hi. apply in_seq in Hi.
  rewrite nth_map_seq by lia.
  now destruct (nth i vs Missing).
Qed.

Lemma nth_filled (v : cell) (n i : nat) (vs : list cell) :
  i < n -> nth i (filled v n vs) Missing = fillna_cell v (nth i vs Missing).
Proof. intros Hi. unfold filled. now rewrite nth_map_seq. Qed.

Lemma hiv_loop_frame (fdiv : Q -> Q -> number) (self : DataAnalyzer)
  (fluors : list string) :
  forall t t' c,
    foldM (hiv_step fdiv self) fluors t = Ok t' ->
    ~ In c (hiv_labels self fluors) ->
    nrows t' = nrows t /\
    get (cols t') c =
      match fluors with
      | [] => get (cols t) c
      | _ :: _ => vs <- get (cols t) c ;; Ok (filled zero (nrows t) vs)
      end.
Proof.
  induction fluors as [|fluor fluors IH]; intros t t' c H Hc.
  - cbn [foldM] in H. injection H as <-. split; reflexivity.
  - cbn [foldM] in H. inv_bind H. rename a into t1.
    destruct (hiv_step_inv _ _ _ _ _ E) as (name & _ & _ & _ & _ & Hn & _).
    destruct (hiv_step_frame _ _ _ _ _ _ E Hn) as [Hrows Hget].
    cbn [hiv_labels flat_map] in Hc. rewrite Hn in Hc.
    assert (Hc' : ~ In c (hiv_labels self fluors)).
    { intros Hin. apply Hc. cbn [app]. right; right. exact Hin. }
    destruct (IH t1 t' c H Hc') as [Hrows' Hget'].
    split; [congruence|].
    rewrite Hget'.
    rewrite Hget by (intros ->; apply Hc; cbn; auto).
    destruct fluors; [reflexivity|].
    destruct (get (cols t) c) as [vs|e]; [|reflexivity].
    cbn [bind]. now rewrite Hrows, filled_filled.
Qed.

(** C9.  When [hiv_analysis] has a non-control reporter to work on, every
    column of the table other than the percentage and call columns it
    writes comes out with each missing cell, NaN or [None], replaced by 0
    and every other cell as it was: the fill is not limited to the new
    percentage column. *)
Theorem hiv_analysis_fills_every_column (fdiv : Q -> Q -> number) (self : DataAnalyzer)
  (t' : DataFrame) (c : string) (vs : list cell) :
  tl (reporter_list self) <> [] ->
  hiv_analysis fdiv self = Ok t' ->
  ~ In c (hiv_labels self (tl (reporter_list self))) ->
  get (cols (df self)) c = Ok vs ->
  nrows t' = nrows (df self) /\
  exists vs',
    get (cols t') c = Ok vs' /\
    forall i, i < nrows (df self) ->
      nth i vs' Missing =
        match nth i vs Missing with
        | Missing | PyNone => Num (of_int 0)
        | other => other
        end.
Proof.
  unfold hiv_analysis. intros Hne H Hc Hvs.
  destruct (hiv_loop_frame _ _ _ _ _ _ H Hc) as [Hrows Hget].
  split; [exact Hrows|].
  destruct (tl (reporter_list self)) as [|f fs]; [contradiction|].
  rewrite Hvs in Hget. cbn [bind] in Hget.
  eexists; split; [exact Hget|].
  intros i Hi. rewrite nth_filled by exact Hi.
  destruct (nth i vs Missing); reflexivity.
Qed.

(** *** The call, and a run on numeric quantity columns *)

Lemma hiv_result_eq (self : DataAnalyzer) (r : Series) (col : string) (p q : number) :
  get r col = Ok (Num p) ->
  get r (ic self ++ " Quantity") = Ok (Num q) ->
  hiv_result self r col = Ok (call_of self p q).
Proof.
  intros Hp Hq. unfold hiv_result, call_of. rewrite Hp. cbn [bind cell_lt].
  destruct (num_ltb p (min_drm_percent self)); cbn [bind orb]; [reflexivity|].
  rewrite Hq. cbn [bind cell_lt].
  destruct (num_ltb q (of_int 50)); reflexivity.
Qed.

Lemma cell_div_float_cell (fdiv : Q -> Q -> number) (x y : cell) :
  float_cell x -> float_cell y -> cell_div fdiv x y = Ok (div_cell fdiv x y).
Proof. destruct x, y; cbn; intros; try contradiction; reflexivity. Qed.

Lemma series_div_maps (fdiv : Q -> Q -> number) (f g : nat -> cell) (l : list nat) :
  series_div fdiv (map f l) (map g l) = mapM (fun i => cell_div fdiv (f i) (g i)) l.
Proof.
  induction l as [|i l IH]; [reflexivity|].
  cbn [map series_div mapM]. now rewrite IH.
Qed.

Lemma fillna_zero_num (c : cell) :
  float_cell c -> fillna_cell zero c = Num (as_num c).
Proof. destruct c; cbn; intros; try contradiction; reflexivity. Qed.

Lemma div_cell_float_cell (fdiv : Q -> Q -> number) (x y : cell) :
  float_cell (div_cell fdiv x y).
Proof.
  unfold div_cell. destruct x, y; cbn; try exact I.
  destruct (num_div fdiv n n0); exact I.
Qed.

Lemma hiv_step_ok (fdiv : Q -> Q -> number) (self : DataAnalyzer)
  (t : DataFrame) (fluor name : string) (xs ys : list cell) :
  get (reporter_dict self) fluor = Ok name ->
  get (cols t) (fluor ++ " Quantity") = Ok xs ->
  get (cols t) (ic self ++ " Quantity") = Ok ys ->
  (forall i, i < nrows t -> float_cell (nth i xs Missing)) ->
  (forall i, i < nrows t -> float_cell (nth i ys Missing)) ->
  hiv_step fdiv self t fluor =
    Ok (set_col (with_pct t name (step_pcts fdiv (nrows t) xs ys))
                (name ++ " Call")
                (map Str (step_calls fdiv self (nrows t) xs ys))).
Proof.
  intros Hname Hxs Hys Nx Ny.
  unfold hiv_step. rewrite Hname. cbn [bind].
  unfold column. rewrite Hxs, Hys. cbn [bind].
  rewrite series_div_maps.
  rewrite (mapM_seq_ok _
             (fun i => div_cell fdiv (nth i xs Missing) (nth i ys Missing)))
    by (intros i Hi; apply cell_div_float_cell; [apply Nx|apply Ny]; lia).
  cbn [bind].
  change (fillna (set_col t (name ++ " DRM Percentage") _) _)
    with (with_pct t name (step_pcts fdiv (nrows t) xs ys)).
  unfold iterrows. rewrite nrows_with_pct.
  assert (Hcalls :
    mapM (fun r => hiv_result self r (name ++ " DRM Percentage"))
         (map (row (with_pct t name (step_pcts fdiv (nrows t) xs ys))) (seq 0 (nrows t)))
    = Ok (step_calls fdiv self (nrows t) xs ys)).
  { unfold step_calls.
    rewrite <- (mapM_seq_ok
                  (fun i => hiv_result self
                              (row (with_pct t name (step_pcts fdiv (nrows t) xs ys)) i)
                              (name ++ " DRM Percentage"))).
    - generalize (seq 0 (nrows t)).
      induction l as [|i l IH]; [reflexivity|].
      cbn [map mapM]. now rewrite IH.
    - intros i Hi. apply hiv_result_eq.
      + rewrite get_row. unfold with_pct. rewrite get_fillna, get_set_col_same.
        cbn [bind]. rewrite nrows_set_col, nth_filled by lia.
        unfold step_pcts. rewrite nth_map_seq by lia.
        now rewrite fillna_zero_num by apply div_cell_float_cell.
      + rewrite get_row. unfold with_pct. rewrite get_fillna.
        rewrite get_set_col_other
          by (intros E; symmetry in E; revert E; apply pct_neq_quantity).
        rewrite Hys. cbn [bind]. rewrite nrows_set_col, nth_filled by lia.
        now rewrite fillna_zero_num by (apply Ny; lia). }
  rewrite Hcalls. reflexivity.
Qed.

Lemma cell_div_ok (fdiv : Q -> Q -> number) (x y q : cell) :
  cell_div fdiv x y = Ok q -> float_cell q /\ is_str y = false.
Proof.
  destruct x as [| |a|sx], y as [| |b|sy]; cbn; intros H; try discriminate H;
    injection H as <-; try (split; [exact I|reflexivity]).
  split; [|reflexivity]. destruct (num_div fdiv a b); exact I.
Qed.

Lemma fillna_zero_not_text (c : cell) :
  is_str c = false -> exists q, fillna_cell zero c = Num q.
Proof. destruct c; cbn; intros H; try discriminate H; eexists; reflexivity. Qed.

Lemma quantity_not_hiv_label (self : DataAnalyzer) (g : string) (fluors : list string) :
  ~ In (g ++ " Quantity")%string (hiv_labels self fluors).
Proof.
  unfold hiv_labels. intros Hin. apply in_flat_map in Hin.
  destruct Hin as (f & _ & Hin).
  destruct (get (reporter_dict self) f) as [name|]; [|destruct Hin].
  destruct Hin as [E|[E|[]]].
  - now apply pct_neq_quantity in E.
  - now apply call_neq_quantity in E.
Qed.

Lemma call_in_hiv_labels (self : DataAnalyzer) (f name : string) (fluors : list string) :
  In f fluors -> get (reporter_dict self) f = Ok name ->
  In (name ++ " Call")%string (hiv_labels self fluors).
Proof.
  intros Hf Hname. unfold hiv_labels. apply in_flat_map. exists f.
  split; [exact Hf|]. rewrite Hname. right; now left.
Qed.

(** One turn of the loop leaves the table with the calls of its reporter. *)
Lemma hiv_step_called (fdiv : Q -> Q -> number) (self : DataAnalyzer)
  (t t' : DataFrame) (fluor name : string) :
  hiv_step fdiv self t fluor = Ok t' ->
  get (reporter_dict self) fluor = Ok name ->
  hiv_called self t' name.
Proof.
  intros H Hname.
  destruct (hiv_step_inv _ _ _ _ _ H)
    as (name' & xs & ys & qs & calls & Hn & Hxs & Hys & Hdiv & Hcalls & ->).
  rewrite Hname in Hn. injection Hn as <-.
  unfold column in Hxs, Hys. inv_bind Hxs. inv_bind Hys.
  injection Hxs as <-. injection Hys as <-. rename a into xs0, a0 into ys0.
  rewrite series_div_maps in Hdiv.
  set (T := with_pct t name qs) in *.
  assert (HT : nrows T = nrows t) by apply nrows_with_pct.
  assert (Hpct : get (cols T) (name ++ " DRM Percentage") = Ok (filled zero (nrows t) qs)).
  { unfold T, with_pct. rewrite get_fillna, get_set_col_same. cbn [bind].
    now rewrite nrows_set_col. }
  assert (Hicq : get (cols T) (ic self ++ " Quantity") = Ok (filled zero (nrows t) ys0)).
  { unfold T, with_pct. rewrite get_fillna.
    rewrite get_set_col_other
      by (intros Eq; symmetry in Eq; revert Eq; apply pct_neq_quantity).
    rewrite E0. cbn [bind]. now rewrite nrows_set_col. }
  exists (filled zero (nrows t) qs), (filled zero (nrows t) ys0), (map Str calls).
  split; [|split; [|split]].
  - rewrite get_set_col_other
      by (intros Eq; symmetry in Eq; revert Eq; apply call_neq_pct).
    exact Hpct.
  - rewrite get_set_col_other
      by (intros Eq; symmetry in Eq; revert Eq; apply call_neq_quantity).
    exact Hicq.
  - apply get_set_col_same.
  - rewrite nrows_set_col, HT. intros i Hi.
    pose proof (mapM_seq_inv _ _ 0 qs Hdiv i Missing Hi) as Hq. cbn [Nat.add] in Hq.
    destruct (cell_div_ok _ _ _ _ Hq) as [Fq Ny].
    destruct (fillna_zero_not_text _ Ny) as [q Hfq].
    exists (as_num (nth i qs Missing)), q.
    assert (Hp : nth i (filled zero (nrows t) qs) Missing = Num (as_num (nth i qs Missing)))
      by (rewrite nth_filled by exact Hi; now apply fillna_zero_num).
    assert (Hqq : nth i (filled zero (nrows t) ys0) Missing = Num q)
      by (rewrite nth_filled by exact Hi; exact Hfq).
    split; [exact Hp|]. split; [exact Hqq|].
    unfold iterrows in Hcalls. rewrite mapM_map, HT in Hcalls.
    pose proof (mapM_seq_inv _ _ 0 calls Hcalls i EmptyString Hi) as Hc.
    cbn [Nat.add] in Hc.
    rewrite (hiv_result_eq self _ _ (as_num (nth i qs Missing)) q) in Hc.
    + injection Hc as Hc.
      apply mapM_length in Hcalls. rewrite length_seq in Hcalls.
      rewrite (nth_indep _ Missing (Str EmptyString)) by (rewrite length_map; lia).
      rewrite map_nth. now rewrite <- Hc.
    + rewrite get_row, Hpct. cbn [bind]. now rewrite Hp.
    + rewrite get_row, Hicq. cbn [bind]. now rewrite Hqq.
Qed.

(** The later turns keep them, when none writes the same columns. *)
Lemma hiv_called_kept (fdiv : Q -> Q -> number) (self : DataAnalyzer)
  (fluors : list string) (t t' : DataFrame) (name : string) :
  foldM (hiv_step fdiv self) fluors t = Ok t' ->
  ~ In (name ++ " Call")%string (hiv_labels self fluors) ->
  ~ In (name ++ " DRM Percentage")%string (hiv_labels self fluors) ->
  hiv_called self t name ->
  hiv_called self t' name.
Proof.
  intros Hloop Hcall Hpct (pcts & qs & calls & Hp & Hq & Hc & Hrows).
  destruct (hiv_loop_frame _ _ _ _ _ _ Hloop Hcall) as [Hn Hgc].
  destruct (hiv_loop_frame _ _ _ _ _ _ Hloop Hpct) as [_ Hgp].
  destruct (hiv_loop_frame _ _ _ _ _ (ic self ++ " Quantity") Hloop
              (quantity_not_hiv_label self (ic self) fluors)) as [_ Hgq].
  rewrite Hp in Hgp. rewrite Hq in Hgq. rewrite Hc in Hgc.
  destruct fluors as [|f rest].
  - exists pcts, qs, calls. rewrite Hn. repeat split; assumption.
  - cbn [bind] in Hgp, Hgq, Hgc.
    exists (filled zero (nrows t) pcts), (filled zero (nrows t) qs),
           (filled zero (nrows t) calls).
    split; [exact Hgp|]. split; [exact Hgq|]. split; [exact Hgc|].
    rewrite Hn. intros i Hi. destruct (Hrows i Hi) as (p & q & Hpi & Hqi & Hci).
    exists p, q. rewrite !nth_filled by exact Hi. rewrite Hpi, Hqi, Hci.
    repeat split.
Qed.

Lemma hiv_loop_called (fdiv : Q -> Q -> number) (self : DataAnalyzer)
  (fluors : list string) :
  forall t t' f name,
    foldM (hiv_step fdiv self) fluors t = Ok t' ->
    In f fluors -> get (reporter_dict self) f = Ok name ->
    hiv_called self t' name.
Proof.
  induction fluors as [|f0 rest IH]; intros t t' f name Hloop Hf Hname; [destruct Hf|].
  cbn [foldM] in Hloop. inv_bind Hloop. rename a into t1.
  destruct Hf as [->|Hf]; [|exact (IH t1 t' f name Hloop Hf Hname)].
  destruct (in_dec string_dec (name ++ " Call")%string (hiv_labels self rest))
    as [Hin|Hnin].
  - unfold hiv_labels in Hin. apply in_flat_map in Hin.
    destruct Hin as (f' & Hf' & Hin).
    destruct (get (reporter_dict self) f') as [name'|] eqn:Hname'; [|destruct Hin].
    destruct Hin as [Eq|[Eq|[]]].
    + symmetry in Eq. now apply call_neq_pct in Eq.
    + apply append_cancel_r in Eq. subst name'.
      exact (IH t1 t' f' name Hloop Hf' Hname').
  - apply (hiv_called_kept fdiv self rest t1 t' name Hloop Hnin).
    + intros Hin. apply Hnin. unfold hiv_labels in Hin. apply in_flat_map in Hin.
      destruct Hin as (f' & Hf' & Hin).
      destruct (get (reporter_dict self) f') as [name'|] eqn:Hname'; [|destruct Hin].
      destruct Hin as [Eq|[Eq|[]]].
      * apply append_cancel_r in Eq. subst name'.
        exact (call_in_hiv_labels self f' name rest Hf' Hname').
      * now apply call_neq_pct in Eq.
    + exact (hiv_step_called fdiv self t t1 f name E Hname).
Qed.

(** C3.  With the percentage [p] in the row's percentage column and the
    control's quantity [q], the call is "Negative" when [p] is strictly below
    the minimum or [q] is below 50, else "Positive" when [p] is at least the
    maximum, else "Indeterminate"; the control's quantity is not looked at
    when [p] is below the minimum.  So a percentage equal to the minimum is
    not "Negative" on its own account, and one equal to the maximum is
    "Positive" unless the first rule applies.  After a run of
    [hiv_analysis], for every non-control reporter and every row of the
    table, the reporter's call column holds this call for the percentage
    stored in the reporter's percentage column and the quantity stored in
    the control's quantity column of that row. *)
Theorem hiv_result_order (self : DataAnalyzer) :
  (forall row col p,
     get row col = Ok (Num p) ->
     (num_ltb p (min_drm_percent self) = true ->
      hiv_result self row col = Ok "Negative") /\
     (forall q,
        get row (ic self ++ " Quantity") = Ok (Num q) ->
        hiv_result self row col =
          Ok (if num_ltb p (min_drm_percent self) || num_ltb q (of_int 50)
              then "Negative"
              else if num_leb (max_drm_percent self) p then "Positive"
              else "Indeterminate")
        /\ (p = min_drm_percent self -> num_ltb q (of_int 50) = false ->
            hiv_result self row col =
              Ok (if num_leb (max_drm_percent self) p then "Positive" else "Indeterminate"))
        /\ (p = max_drm_percent self ->
            num_ltb p (min_drm_percent self) = false -> num_ltb q (of_int 50) = false ->
            hiv_result self row col = Ok "Positive"))) /\
  (forall fdiv t' fluor name,
     hiv_analysis fdiv self = Ok t' ->
     In fluor (tl (reporter_list self)) ->
     get (reporter_dict self) fluor = Ok name ->
     exists pcts qs calls,
       get (cols t') (name ++ " DRM Percentage") = Ok pcts /\
       get (cols t') (ic self ++ " Quantity") = Ok qs /\
       get (cols t') (name ++ " Call") = Ok calls /\
       forall i, i < nrows t' ->
         exists p,
           nth i pcts Missing = Num p /\
           ((num_ltb p (min_drm_percent self) = true /\
             nth i calls Missing = Str "Negative") \/
            (num_ltb p (min_drm_percent self) = false /\
             exists q,
               nth i qs Missing = Num q /\
               nth i calls Missing =
                 Str (if num_ltb q (of_int 50) then "Negative"
                      else if num_leb (max_drm_percent self) p then "Positive"
                      else "Indeterminate")))).
Proof.
  split.
  - intros row col p Hp. split.
    + intros Hlt. unfold hiv_result. rewrite Hp. cbn [bind cell_lt]. rewrite Hlt.
      reflexivity.
    + intros q Hq.
      pose proof (hiv_result_eq self row col p q Hp Hq) as E. unfold call_of in E.
      split; [exact E|split].
      * intros -> Hq50. rewrite E, num_ltb_irrefl, Hq50. reflexivity.
      * intros -> Hmin Hq50. rewrite E, Hmin, Hq50, num_leb_refl. reflexivity.
  - intros fdiv t' fluor name H Hf Hname. unfold hiv_analysis in H.
    destruct (hiv_loop_called fdiv self _ _ _ fluor name H Hf Hname)
      as (pcts & qs & calls & Hp & Hq & Hc & Hrows).
    exists pcts, qs, calls. repeat split; try assumption.
    intros i Hi. destruct (Hrows i Hi) as (p & q & Hpi & Hqi & Hci).
    exists p. split; [exact Hpi|]. unfold call_of in Hci.
    destruct (num_ltb p (min_drm_percent self)) eqn:Hlt.
    + left. split; [reflexivity|exact Hci].
    + right. split; [reflexivity|]. exists q. split; [exact Hqi|exact Hci].
Qed.

Lemma hiv_result_order_witness :
  hiv_result (hiv_example_analyzer hiv_example_table)
    [("K103N DRM Percentage", Num (Fin (1 # 100)))] "K103N DRM Percentage"
  = Ok "Negative" /\
  hiv_result (hiv_example_analyzer hiv_example_table)
    [("VQ Quantity", Num (of_int 1000)); ("K103N DRM Percentage", Num (Fin (1 # 10)))]
    "K103N DRM Percentage"
  = Ok "Positive" /\
  exists pcts qs calls,
    get [("Well", [Num (of_int 1); Num (of_int 2); Num (of_int 3)]);
         ("Sample Name", [Str "s1"; Num (of_int 0); Str "s3"]);
         ("VQ Quantity", [Num (of_int 0); Num (of_int 0); Num (of_int 1000)]);
         ("FAM Quantity", [Num (of_int 100); Num (of_int 0); Num (of_int 70)]);
         ("K103N DRM Percentage", [Num PInf; Num (of_int 0); Num (Fin (70 # 1000))]);
         ("K103N Call", [Str "Negative"; Str "Negative"; Str "Indeterminate"])]
        "K103N DRM Percentage" = Ok pcts /\
    get [("Well", [Num (of_int 1); Num (of_int 2); Num (of_int 3)]);
         ("Sample Name", [Str "s1"; Num (of_int 0); Str "s3"]);
         ("VQ Quantity", [Num (of_int 0); Num (of_int 0); Num (of_int 1000)]);
         ("FAM Quantity", [Num (of_int 100); Num (of_int 0); Num (of_int 70)]);
         ("K103N DRM Percentage", [Num PInf; Num (of_int 0); Num (Fin (70 # 1000))]);
         ("K103N Call", [Str "Negative"; Str "Negative"; Str "Indeterminate"])]
        "VQ Quantity" = Ok qs /\
    get [("Well", [Num (of_int 1); Num (of_int 2); Num (of_int 3)]);
         ("Sample Name", [Str "s1"; Num (of_int 0); Str "s3"]);
         ("VQ Quantity", [Num (of_int 0); Num (of_int 0); Num (of_int 1000)]);
         ("FAM Quantity", [Num (of_int 100); Num (of_int 0); Num (of_int 70)]);
         ("K103N DRM Percentage", [Num PInf; Num (of_int 0); Num (Fin (70 # 1000))]);
         ("K103N Call", [Str "Negative"; Str "Negative"; Str "Indeterminate"])]
        "K103N Call" = Ok calls /\
    forall i, i < 3 ->
      exists p,
        nth i pcts Missing = Num p /\
        ((num_ltb p (Fin (5 # 100)) = true /\ nth i calls Missing = Str "Negative") \/
         (num_ltb p (Fin (5 # 100)) = false /\
          exists q,
            nth i qs Missing = Num q /\
            nth i calls Missing =
              Str (if num_ltb q (of_int 50) then "Negative"
                   else if num_leb (Fin (1 # 10)) p then "Positive"
                   else "Indeterminate"))).
Proof.
  split; [|split].
  - apply (proj1 (proj1 (hiv_result_order (hiv_example_analyzer hiv_example_table))
             [("K103N DRM Percentage", Num (Fin (1 # 100)))]
             "K103N DRM Percentage" (Fin (1 # 100)) eq_refl)).
    reflexivity.
  - apply (proj2 (proj1 (hiv_result_order (hiv_example_analyzer hiv_example_table))
             [("VQ Quantity", Num (of_int 1000));
              ("K103N DRM Percentage", Num (Fin (1 # 10)))]
             "K103N DRM Percentage" (Fin (1 # 10)) eq_refl) (of_int 1000));
      reflexivity.
  - apply (proj2 (hiv_result_order (hiv_example_analyzer hiv_example_table))
             exact_div
             (mkDataFrame 3
                [("Well", [Num (of_int 1); Num (of_int 2); Num (of_int 3)]);
                 ("Sample Name", [Str "s1"; Num (of_int 0); Str "s3"]);
                 ("VQ Quantity", [Num (of_int 0); Num (of_int 0); Num (of_int 1000)]);
                 ("FAM Quantity", [Num (of_int 100); Num (of_int 0); Num (of_int 70)]);
                 ("K103N DRM Percentage",
                  [Num PInf; Num (of_int 0); Num (Fin (70 # 1000))]);
                 ("K103N Call", [Str "Negative"; Str "Negative"; Str "Indeterminate"])])
             "FAM" "K103N").
    + reflexivity.
    + left; reflexivity.
    + reflexivity.
Defined.

Lemma call_of_zero_control (self : DataAnalyzer) (p : number) (q : Q) :
  (q == 0)%Q -> call_of self p (Fin q) = "Negative".
Proof.
  intros Hq. unfold call_of.
  assert (H : num_ltb (Fin q) (of_int 50) = true).
  { unfold num_ltb, of_int, Qlt_bool.
    destruct (Qle_bool (inject_Z 50) q) eqn:E; [|reflexivity].
    apply Qle_bool_iff in E. rewrite Hq in E. now compute in E. }
  rewrite H, orb_true_r. reflexivity.
Qed.

Lemma nth_step_calls (fdiv : Q -> Q -> number) (self : DataAnalyzer)
  (n i : nat) (xs ys : list cell) :
  i < n ->
  nth i (map Str (step_calls fdiv self n xs ys)) Missing =
  Str (call_of self
         (as_num (div_cell fdiv (nth i xs Missing) (nth i ys Missing)))
         (as_num (nth i ys Missing))).
Proof.
  intros Hi. unfold step_calls. rewrite map_map. now rewrite nth_map_seq.
Qed.

Lemma numeric_after_step (fdiv : Q -> Q -> number) (self : DataAnalyzer)
  (t t' : DataFrame) (fluor name g : string) :
  hiv_step fdiv self t fluor = Ok t' ->
  get (reporter_dict self) fluor = Ok name ->
  numeric t (g ++ " Quantity") ->
  numeric t' (g ++ " Quantity").
Proof.
  intros H Hname (vs & Hvs & Hn).
  destruct (hiv_step_frame _ _ _ _ _ _ H Hname) as [Hrows Hget].
  exists (filled zero (nrows t) vs). split.
  - rewrite Hget, Hvs; [reflexivity| |].
    + intros E; symmetry in E; revert E; apply pct_neq_quantity.
    + intros E; symmetry in E; revert E; apply call_neq_quantity.
  - intros i Hi. rewrite Hrows in Hi. rewrite nth_filled by exact Hi.
    specialize (Hn i Hi). now destruct (nth i vs Missing).
Qed.

Lemma zero_at_after_step (fdiv : Q -> Q -> number) (self : DataAnalyzer)
  (t t' : DataFrame) (fluor name g : string) (i : nat) :
  hiv_step fdiv self t fluor = Ok t' ->
  get (reporter_dict self) fluor = Ok name ->
  i < nrows t ->
  zero_at t (g ++ " Quantity") i ->
  zero_at t' (g ++ " Quantity") i.
Proof.
  intros H Hname Hi (ys & q & Hys & Hnth & Hq).
  destruct (hiv_step_frame _ _ _ _ _ _ H Hname) as [Hrows Hget].
  exists (filled zero (nrows t) ys), q. repeat split; [| |exact Hq].
  - rewrite Hget, Hys; [reflexivity| |].
    + intros E; symmetry in E; revert E; apply pct_neq_quantity.
    + intros E; symmetry in E; revert E; apply call_neq_quantity.
  - rewrite nth_filled by exact Hi. now rewrite Hnth.
Qed.

Lemma hiv_loop_zero_control (fdiv : Q -> Q -> number) (self : DataAnalyzer)
  (i0 : nat) (fluors : list string) :
  forall t,
    (forall f, In f fluors -> exists name, get (reporter_dict self) f = Ok name) ->
    (forall f, In f fluors -> numeric t (f ++ " Quantity")) ->
    numeric t (ic self ++ " Quantity") ->
    i0 < nrows t ->
    zero_at t (ic self ++ " Quantity") i0 ->
    exists t',
      foldM (hiv_step fdiv self) fluors t = Ok t' /\
      nrows t' = nrows t /\
      forall f name,
        In f fluors -> get (reporter_dict self) f = Ok name ->
        exists calls,
          get (cols t') (name ++ " Call") = Ok calls /\
          nth i0 calls Missing = Str "Negative".
Proof.
  induction fluors as [|f rest IH]; intros t Hnames Hnum Hic Hi Hzero.
  - exists t. repeat split. intros f name [].
  - destruct (Hnames f (or_introl eq_refl)) as [name Hname].
    destruct (Hnum f (or_introl eq_refl)) as (xs & Hxs & Nx).
    destruct Hic as (ys & Hys & Ny).
    pose proof (hiv_step_ok fdiv self t f name xs ys Hname Hxs Hys Nx Ny) as Hstep.
    set (t1 := set_col _ _ _) in Hstep.
    destruct (hiv_step_frame _ _ _ _ _ _ Hstep Hname) as [Hrows1 _].
    destruct (IH t1) as (t' & Hloop & Hrows' & Hcalls).
    + intros g Hg. apply Hnames. now right.
    + intros g Hg. apply (numeric_after_step fdiv self t t1 f name g Hstep Hname).
      apply Hnum. now right.
    + apply (numeric_after_step fdiv self t t1 f name (ic self) Hstep Hname).
      exists ys. now split.
    + now rewrite Hrows1.
    + apply (zero_at_after_step fdiv self t t1 f name (ic self) i0 Hstep Hname Hi Hzero).
    + exists t'. cbn [foldM]. rewrite Hstep. cbn [bind].
      split; [exact Hloop|]. split; [congruence|].
      intros g gname [<-|Hg] Hgname; [|exact (Hcalls g gname Hg Hgname)].
      rewrite Hname in Hgname. injection Hgname as <-.
      destruct (in_dec string_dec (name ++ " Call")%string (hiv_labels self rest))
        as [Hin|Hnin].
      * unfold hiv_labels in Hin. apply in_flat_map in Hin.
        destruct Hin as (f' & Hf' & Hin).
        destruct (get (reporter_dict self) f') as [name'|] eqn:Hname'; [|destruct Hin].
        destruct Hin as [E|[E|[]]].
        -- symmetry in E. now apply call_neq_pct in E.
        -- rewrite <- E. exact (Hcalls f' name' Hf' Hname').
      * destruct (hiv_loop_frame _ _ _ _ _ _ Hloop Hnin) as [_ Hget].
        assert (Hown : get (cols t1) (name ++ " Call")
                       = Ok (map Str (step_calls fdiv self (nrows t) xs ys)))
          by apply get_set_col_same.
        assert (Hneg : nth i0 (map Str (step_calls fdiv self (nrows t) xs ys)) Missing
                       = Str "Negative").
        { rewrite nth_step_calls by exact Hi.
          destruct Hzero as (ys' & q & Hys' & Hnth & Hq).
          rewrite Hys in Hys'. injection Hys' as <-.
          rewrite Hnth. cbn [as_num]. now rewrite call_of_zero_control. }
        rewrite Hown in Hget. destruct rest as [|r rest'].
        -- eexists; split; [exact Hget|exact Hneg].
        -- cbn [bind] in Hget. eexists; split; [exact Hget|].
           rewrite nth_filled by (rewrite Hrows1; exact Hi).
           now rewrite Hneg.
Qed.

Lemma no_quantity_fillna (c : cell) : no_quantity c -> no_quantity (fillna_cell zero c).
Proof.
  intros [->|(a & -> & Ha)].
  - right. exists (inject_Z 0). split; [reflexivity|reflexivity].
  - right. exists a. now split.
Qed.

Lemma no_quantity_after_step (fdiv : Q -> Q -> number) (self : DataAnalyzer)
  (t t' : DataFrame) (fluor name g : string) (i : nat) :
  hiv_step fdiv self t fluor = Ok t' ->
  get (reporter_dict self) fluor = Ok name ->
  i < nrows t ->
  no_quantity_at t (g ++ " Quantity") i ->
  no_quantity_at t' (g ++ " Quantity") i.
Proof.
  intros H Hname Hi (xs & Hxs & Hq).
  destruct (hiv_step_frame _ _ _ _ _ _ H Hname) as [Hrows Hget].
  exists (filled zero (nrows t) xs). split.
  - rewrite Hget, Hxs; [reflexivity| |].
    + intros E; symmetry in E; revert E; apply pct_neq_quantity.
    + intros E; symmetry in E; revert E; apply call_neq_quantity.
  - rewrite nth_filled by exact Hi. now apply no_quantity_fillna.
Qed.

Lemma pct_zero_over_zero (fdiv : Q -> Q -> number) (x : cell) (q : Q) :
  no_quantity x -> (q == 0)%Q ->
  fillna_cell zero (div_cell fdiv x (Num (Fin q))) = zero.
Proof.
  intros [->|(a & -> & Ha)] Hq; [reflexivity|].
  cbn [div_cell num_div].
  rewrite (Qeq_eq_bool _ _ Hq), (Qeq_eq_bool _ _ Ha). reflexivity.
Qed.

Lemma nth_step_pcts (fdiv : Q -> Q -> number) (n i : nat) (xs ys : list cell) :
  i < n ->
  nth i (filled zero n (step_pcts fdiv n xs ys)) Missing =
  fillna_cell zero (div_cell fdiv (nth i xs Missing) (nth i ys Missing)).
Proof.
  intros Hi. rewrite nth_filled by exact Hi.
  unfold step_pcts. now rewrite nth_map_seq.
Qed.

Lemma hiv_loop_zero_pct (fdiv : Q -> Q -> number) (self : DataAnalyzer)
  (i0 : nat) (fluors : list string) :
  forall t,
    (forall f, In f fluors -> exists name, get (reporter_dict self) f = Ok name) ->
    (forall f, In f fluors -> numeric t (f ++ " Quantity")) ->
    numeric t (ic self ++ " Quantity") ->
    i0 < nrows t ->
    zero_at t (ic self ++ " Quantity") i0 ->
    forall t',
      foldM (hiv_step fdiv self) fluors t = Ok t' ->
      forall f name,
        In f fluors -> get (reporter_dict self) f = Ok name ->
        (forall g, In g fluors -> get (reporter_dict self) g = Ok name ->
                   no_quantity_at t (g ++ " Quantity") i0) ->
        exists pcts,
          get (cols t') (name ++ " DRM Percentage") = Ok pcts /\
          nth i0 pcts Missing = Num (of_int 0).
Proof.
  induction fluors as [|f rest IH]; intros t Hnames Hnum Hic Hi Hzero t' Hloop.
  - intros f name [].
  - destruct (Hnames f (or_introl eq_refl)) as [name Hname].
    destruct (Hnum f (or_introl eq_refl)) as (xs & Hxs & Nx).
    pose proof Hic as (ys & Hys & Ny).
    pose proof (hiv_step_ok fdiv self t f name xs ys Hname Hxs Hys Nx Ny) as Hstep.
    set (t1 := set_col _ _ _) in Hstep.
    cbn [foldM] in Hloop. rewrite Hstep in Hloop. cbn [bind] in Hloop.
    destruct (hiv_step_frame _ _ _ _ _ _ Hstep Hname) as [Hrows1 _].
    assert (IH1 := IH t1
      (fun g Hg => Hnames g (or_intror Hg))
      (fun g Hg => numeric_after_step fdiv self t t1 f name g Hstep Hname
                     (Hnum g (or_intror Hg)))
      (numeric_after_step fdiv self t t1 f name (ic self) Hstep Hname Hic)
      (eq_ind_r (fun n => i0 < n) Hi Hrows1)
      (zero_at_after_step fdiv self t t1 f name (ic self) i0 Hstep Hname Hi Hzero)
      t' Hloop).
    assert (Hlater : forall g gname,
      In g rest -> get (reporter_dict self) g = Ok gname ->
      (forall h, In h (f :: rest) -> get (reporter_dict self) h = Ok gname ->
                 no_quantity_at t (h ++ " Quantity") i0) ->
      exists pcts,
        get (cols t') (gname ++ " DRM Percentage") = Ok pcts /\
        nth i0 pcts Missing = Num (of_int 0)).
    { intros g gname Hg Hgname Hall. apply (IH1 g gname Hg Hgname).
      intros h Hh Hhname.
      apply (no_quantity_after_step fdiv self t t1 f name h i0 Hstep Hname Hi).
      apply Hall; [now right|exact Hhname]. }
    intros g gname [<-|Hg] Hgname Hall; [|exact (Hlater g gname Hg Hgname Hall)].
    rewrite Hname in Hgname. injection Hgname as <-.
    destruct (in_dec string_dec (name ++ " DRM Percentage")%string (hiv_labels self rest))
      as [Hin|Hnin].
    + unfold hiv_labels in Hin. apply in_flat_map in Hin.
      destruct Hin as (f' & Hf' & Hin).
      destruct (get (reporter_dict self) f') as [name'|] eqn:Hname'; [|destruct Hin].
      destruct Hin as [E|[E|[]]].
      * apply append_cancel_r in E. subst name'.
        exact (Hlater f' name Hf' Hname' Hall).
      * now apply call_neq_pct in E.
    + destruct (hiv_loop_frame _ _ _ _ _ _ Hloop Hnin) as [_ Hget].
      assert (Hown : get (cols t1) (name ++ " DRM Percentage")
                     = Ok (filled zero (nrows t) (step_pcts fdiv (nrows t) xs ys))).
      { subst t1. rewrite get_set_col_other
          by (intros E; symmetry in E; revert E; apply call_neq_pct).
        unfold with_pct. rewrite get_fillna, get_set_col_same. cbn [bind].
        now rewrite nrows_set_col. }
      assert (Hz : nth i0 (filled zero (nrows t) (step_pcts fdiv (nrows t) xs ys)) Missing
                   = Num (of_int 0)).
      { rewrite nth_step_pcts by exact Hi.
        destruct Hzero as (ys' & q & Hys' & Hnth & Hq).
        rewrite Hys in Hys'. injection Hys' as <-. rewrite Hnth.
        destruct (Hall f (or_introl eq_refl) Hname) as (xs' & Hxs' & Hno).
        rewrite Hxs in Hxs'. injection Hxs' as <-.
        now apply pct_zero_over_zero. }
      rewrite Hown in Hget. destruct rest as [|r rest'].
      * eexists; split; [exact Hget|exact Hz].
      * cbn [bind] in Hget. eexists; split; [exact Hget|].
        rewrite nth_filled by (rewrite Hrows1; exact Hi).
        now rewrite Hz.
Qed.

(** C4 (as the code has it).  On a table whose quantity columns hold numbers
    or NaN, [hiv_analysis] runs to the end; in a row where the
    control's quantity is exactly 0 every reporter's call is "Negative",
    whatever the reporter's own quantity; and the percentage stored there is
    0 when the quantity of the reporter (of every reporter writing that
    percentage column) is zero or NaN in that row. *)
Theorem hiv_zero_control (fdiv : Q -> Q -> number) (self : DataAnalyzer) (i0 : nat) :
  (forall f, In f (tl (reporter_list self)) ->
             exists name, get (reporter_dict self) f = Ok name) ->
  (forall f, In f (tl (reporter_list self)) -> numeric (df self) (f ++ " Quantity")) ->
  numeric (df self) (ic self ++ " Quantity") ->
  i0 < nrows (df self) ->
  zero_at (df self) (ic self ++ " Quantity") i0 ->
  exists t',
    hiv_analysis fdiv self = Ok t' /\
    (forall f name,
       In f (tl (reporter_list self)) -> get (reporter_dict self) f = Ok name ->
       exists calls,
         get (cols t') (name ++ " Call") = Ok calls /\
         nth i0 calls Missing = Str "Negative") /\
    (forall f name,
       In f (tl (reporter_list self)) -> get (reporter_dict self) f = Ok name ->
       (forall g, In g (tl (reporter_list self)) ->
                  get (reporter_dict self) g = Ok name ->
                  no_quantity_at (df self) (g ++ " Quantity") i0) ->
       exists pcts,
         get (cols t') (name ++ " DRM Percentage") = Ok pcts /\
         nth i0 pcts Missing = Num (of_int 0)).
Proof.
  intros Hnames Hnum Hic Hi Hzero. unfold hiv_analysis.
  destruct (hiv_loop_zero_control fdiv self i0 _ _ Hnames Hnum Hic Hi Hzero)
    as (t' & Hloop & _ & Hcalls).
  exists t'. split; [exact Hloop|]. split; [exact Hcalls|].
  exact (hiv_loop_zero_pct fdiv self i0 _ _ Hnames Hnum Hic Hi Hzero t' Hloop).
Qed.

Lemma hiv_example_names :
  forall f, In f (tl (reporter_list (hiv_example_analyzer hiv_example_table))) ->
            exists name,
              get (reporter_dict (hiv_example_analyzer hiv_example_table)) f = Ok name.
Proof. intros f [<-|[]]. exists "K103N". reflexivity. Defined.

Lemma hiv_example_numeric (c : string) (vs : list cell) :
  get (cols hiv_example_table) c = Ok vs ->
  Forall float_cell vs ->
  numeric hiv_example_table c.
Proof.
  intros Hget Hall. exists vs. split; [exact Hget|].
  intros i Hi. destruct (nth_in_or_default i vs Missing) as [Hin | Hd]; [|rewrite Hd; exact I].
  revert Hin. apply Forall_forall. exact Hall.
Defined.

Lemma hiv_zero_control_witness :
  exists t',
    hiv_analysis exact_div (hiv_example_analyzer hiv_example_table) = Ok t' /\
    (forall f name,
       In f ["FAM"] ->
       get [("VQ", "Internal Control"); ("FAM", "K103N")] f = Ok name ->
       exists calls,
         get (cols t') (name ++ " Call") = Ok calls /\
         nth 1 calls Missing = Str "Negative") /\
    (forall f name,
       In f ["FAM"] ->
       get [("VQ", "Internal Control"); ("FAM", "K103N")] f = Ok name ->
       (forall g, In g ["FAM"] ->
                  get [("VQ", "Internal Control"); ("FAM", "K103N")] g = Ok name ->
                  no_quantity_at hiv_example_table (g ++ " Quantity") 1) ->
       exists pcts,
         get (cols t') (name ++ " DRM Percentage") = Ok pcts /\
         nth 1 pcts Missing = Num (of_int 0)).
Proof.
  apply (hiv_zero_control exact_div (hiv_example_analyzer hiv_example_table) 1).
  - exact hiv_example_names.
  - intros f [<-|[]].
    apply (hiv_example_numeric _ [Num (of_int 100); Missing; Num (of_int 70)]);
      [reflexivity|repeat constructor].
  - apply (hiv_example_numeric _ [Num (of_int 0); Num (of_int 0); Num (of_int 1000)]);
      [reflexivity|repeat constructor].
  - cbn. lia.
  - exists [Num (of_int 0); Num (of_int 0); Num (of_int 1000)], (inject_Z 0).
    repeat split.
Defined.

(** C4 as stated fails: with a control quantity of 0 and a reporter quantity
    of 100 the stored percentage is infinite, not 0 (the call is "Negative"
    all the same). *)
Lemma hiv_zero_control_pct_infinite :
  (t' <- hiv_analysis exact_div (hiv_example_analyzer hiv_example_table) ;;
   pcts <- column t' "K103N DRM Percentage" ;;
   calls <- column t' "K103N Call" ;;
   Ok (nth 0 pcts Missing, nth 0 calls Missing))
  = Ok (Num PInf, Str "Negative").
Proof. reflexivity. Qed.

Lemma hiv_analysis_fills_every_column_witness :
  exists t',
    hiv_analysis exact_div (hiv_example_analyzer hiv_example_table) = Ok t' /\
    nrows t' = 3 /\
    exists vs',
      get (cols t') "Sample Name" = Ok vs' /\
      forall i, i < 3 ->
        nth i vs' Missing =
          match nth i [Str "s1"; Missing; Str "s3"] Missing with
          | Missing | PyNone => Num (of_int 0)
          | other => other
          end.
Proof.
  eexists. split; [reflexivity|].
  apply (hiv_analysis_fills_every_column exact_div
           (hiv_example_analyzer hiv_example_table) _ "Sample Name"
           [Str "s1"; Missing; Str "s3"]).
  - discriminate.
  - reflexivity.
  - intros [H|[H|[]]]; discriminate H.
  - reflexivity.
Defined.

(* ------------------------------------------------------------------ *)
(** ** The order of numbers *)

Lemma Qlt_bool_iff (x y : Q) : Qlt_bool x y = true <-> (x < y)%Q.
Proof.
  unfold Qlt_bool. rewrite negb_true_iff. split.
  - intros H. apply Qnot_le_lt. intros Hle. apply Qle_bool_iff in Hle. congruence.
  - intros H. destruct (Qle_bool y x) eqn:E; [|reflexivity].
    apply Qle_bool_iff in E. exfalso. revert E. now apply Qlt_not_le.
Qed.

Lemma Qlt_bool_false (x y : Q) : Qlt_bool x y = false <-> (y <= x)%Q.
Proof.
  unfold Qlt_bool. rewrite negb_false_iff. apply Qle_bool_iff.
Qed.

(** [a <= b] as "not [b < a]". *)
Lemma num_nlt_trans (a b c : number) :
  num_ltb b a = false -> num_ltb c b = false -> num_ltb c a = false.
Proof.
  destruct a as [x| |], b as [y| |], c as [z| |]; cbn; try congruence.
  rewrite !Qlt_bool_false. apply Qle_trans.
Qed.

Lemma num_nlt_total (a b : number) :
  num_ltb a b = false -> num_eqb a b = false -> num_ltb b a = true.
Proof.
  destruct a as [x| |], b as [y| |]; cbn; try congruence.
  rewrite Qlt_bool_false, Qlt_bool_iff. intros Hle Hne.
  apply Qle_lt_or_eq in Hle. destruct Hle as [Hlt|Heq]; [exact Hlt|].
  apply Qeq_bool_neq in Hne. exfalso. apply Hne. now symmetry.
Qed.

Lemma num_ltb_eqb_l (a b c : number) :
  num_eqb a b = true -> num_ltb a c = num_ltb b c.
Proof.
  destruct a as [x| |], b as [y| |], c as [z| |]; cbn; try congruence.
  intros H. apply Qeq_bool_iff in H. unfold Qlt_bool. f_equal.
  destruct (Qle_bool z x) eqn:E1, (Qle_bool z y) eqn:E2; try reflexivity.
  - apply Qle_bool_iff in E1. rewrite H in E1. apply Qle_bool_iff in E1. congruence.
  - apply Qle_bool_iff in E2. rewrite <- H in E2. apply Qle_bool_iff in E2. congruence.
Qed.

Lemma num_ltb_eqb_r (a b c : number) :
  num_eqb a b = true -> num_ltb c a = num_ltb c b.
Proof.
  destruct a as [x| |], b as [y| |], c as [z| |]; cbn; try congruence.
  intros H. apply Qeq_bool_iff in H. unfold Qlt_bool. f_equal.
  destruct (Qle_bool x z) eqn:E1, (Qle_bool y z) eqn:E2; try reflexivity.
  - apply Qle_bool_iff in E1. rewrite H in E1. apply Qle_bool_iff in E1. congruence.
  - apply Qle_bool_iff in E2. rewrite <- H in E2. apply Qle_bool_iff in E2. congruence.
Qed.

Lemma num_ltb_asym (a b : number) : num_ltb a b = true -> num_ltb b a = false.
Proof.
  destruct a as [x| |], b as [y| |]; cbn; try congruence.
  rewrite Qlt_bool_iff, Qlt_bool_false. apply Qlt_le_weak.
Qed.

(** ** [min] and [index] *)

Lemma py_min_from_least (l : list number) :
  forall best x, In x (best :: l) -> num_ltb x (py_min_from best l) = false.
Proof.
  induction l as [|y l IH]; intros best x Hx; cbn [py_min_from].
  - destruct Hx as [<-|[]]. apply num_ltb_irrefl.
  - destruct (num_ltb y best) eqn:E.
    + destruct Hx as [<-|Hx]; [|now apply IH].
      apply (num_nlt_trans _ y).
      * apply IH. now left.
      * now apply num_ltb_asym.
    + destruct Hx as [<-|[<-|Hx]].
      * apply IH. now left.
      * apply (num_nlt_trans _ best); [apply IH; now left|exact E].
      * apply IH. now right.
Qed.

Lemma py_min_from_in (l : list number) :
  forall best, In (py_min_from best l) (best :: l).
Proof.
  induction l as [|y l IH]; intros best; cbn [py_min_from].
  - now left.
  - destruct (IH (if num_ltb y best then y else best)) as [H|H].
    + destruct (num_ltb y best); rewrite <- H; [right; now left|now left].
    + right; now right.
Qed.

Lemma py_index_found (v : number) (l : list number) :
  In v l -> exists k, py_index v l = Ok k.
Proof.
  induction l as [|x l IH]; intros Hin; [destruct Hin|].
  cbn [py_index]. destruct (num_eqb x v) eqn:E; [now exists 0|].
  destruct Hin as [->|Hin]; [now rewrite num_eqb_refl in E|].
  destruct (IH Hin) as [k Hk]. exists (S k). now rewrite Hk.
Qed.

Lemma py_index_first (v : number) (l : list number) :
  forall k d,
    py_index v l = Ok k ->
    k < length l /\
    num_eqb (nth k l d) v = true /\
    forall j, j < k -> num_eqb (nth j l d) v = false.
Proof.
  induction l as [|x l IH]; intros k d H; [discriminate|].
  cbn [py_index] in H. destruct (num_eqb x v) eqn:E.
  - injection H as <-. cbn. repeat split; [lia|exact E|lia].
  - inv_bind H. injection H as <-.
    destruct (IH a d eq_refl) as (Hlen & Heq & Hfirst).
    cbn [length nth]. repeat split; [lia|exact Heq|].
    intros [|j] Hj; [exact E|]. apply Hfirst. lia.
Qed.

(** [cq_vals.index(min(cq_vals))] is the first position of a least value. *)
Lemma vhf_fluor_min_first (l : list number) (d : number) :
  l <> [] ->
  exists k,
    vhf_fluor_min l = Ok k /\
    k < length l /\
    (forall j, j < length l -> num_ltb (nth j l d) (nth k l d) = false) /\
    (forall j, j < k -> num_ltb (nth k l d) (nth j l d) = true).
Proof.
  intros Hne. destruct l as [|x l]; [contradiction|].
  unfold vhf_fluor_min. cbn [py_min bind].
  set (m := py_min_from x l).
  destruct (py_index_found m (x :: l) (py_min_from_in l x)) as [k Hk].
  destruct (py_index_first m (x :: l) k d Hk) as (Hlen & Heq & Hfirst).
  exists k. split; [exact Hk|]. split; [exact Hlen|]. split.
  - intros j Hj. rewrite (num_ltb_eqb_r _ _ _ Heq).
    apply py_min_from_least. apply nth_In. exact Hj.
  - intros j Hj. rewrite (num_ltb_eqb_l _ _ _ Heq).
    apply num_nlt_total.
    + apply py_min_from_least. apply nth_In. lia.
    + apply Hfirst. exact Hj.
Qed.

(* ------------------------------------------------------------------ *)
(** ** The VHF call *)

Lemma foldM_snoc {A B : Type} (f : A -> result B) (l : list A) :
  forall acc,
    foldM (fun acc i => v <- f i ;; Ok (acc ++ [v])) l acc
    = (vs <- mapM f l ;; Ok (acc ++ vs)).
Proof.
  induction l as [|a l IH]; intros acc; cbn [foldM mapM bind].
  - now rewrite app_nil_r.
  - destruct (f a) as [b|e]; cbn [bind]; [|reflexivity].
    rewrite IH. destruct (mapM f l) as [bs|e]; cbn [bind]; [|reflexivity].
    now rewrite <- app_assoc.
Qed.

Lemma mapM_py_nth {A B : Type} (g : A -> result B) (rest : list A) :
  forall pre,
    mapM (fun i => r <- py_nth (pre ++ rest) i ;; g r) (seq (length pre) (length rest))
    = mapM g rest.
Proof.
  induction rest as [|a rest IH]; intros pre; [reflexivity|].
  cbn [length seq mapM]. unfold py_nth at 1.
  rewrite nth_error_app2, Nat.sub_diag by lia. cbn [nth_error bind].
  specialize (IH (pre ++ [a])).
  rewrite <- app_assoc, length_app, Nat.add_1_r in IH. cbn [app] in IH.
  now rewrite IH.
Qed.

Lemma vhf_cq_vals_eq (fdiv : Q -> Q -> number) (boxed : bool)
  (self : DataAnalyzer) (row : Series) :
  vhf_cq_vals fdiv boxed self row =
  (vs <- mapM (vhf_entry fdiv boxed self row) (tl (reporter_list self)) ;;
   Ok (of_int 98 :: vs)).
Proof.
  unfold vhf_cq_vals. rewrite foldM_snoc. unfold vhf_candidate.
  destruct (reporter_list self) as [|r0 rest]; [reflexivity|].
  cbn [length tl]. replace (S (length rest) - 1) with (length rest) by lia.
  change (r0 :: rest) with ([r0] ++ rest).
  change 1 with (length [r0]) at 1.
  now rewrite mapM_py_nth.
Qed.

Lemma mapM_nth_error {A B : Type} (f : A -> result B) (l : list A) :
  forall bs j b,
    mapM f l = Ok bs -> nth_error bs j = Some b ->
    exists a, nth_error l j = Some a /\ f a = Ok b.
Proof.
  induction l as [|a l IH]; intros bs j b H Hj; cbn [mapM] in H.
  - injection H as <-. now destruct j.
  - inv_bind H. inv_bind H. injection H as <-.
    destruct j as [|j]; cbn [nth_error] in *.
    + injection Hj as <-. now exists a.
    + now apply (IH a1).
Qed.

Lemma vhf_entry_cases (fdiv : Q -> Q -> number) (boxed : bool)
  (self : DataAnalyzer) (row : Series) (r : string) (v : number) :
  vhf_entry fdiv boxed self row r = Ok v ->
  v = of_int 99 \/
  (get row (r ++ " CT") = Ok (Num v) /\ num_ltb v (pos_cutoff self) = true).
Proof.
  unfold vhf_entry. intros H.
  destruct (is_quantstudio (machine_type self)).
  - inv_bind H. inv_bind H. destruct a0 as [cq|]; [|injection H as <-; now left].
    inv_bind H. inv_bind H. inv_bind H. inv_bind H.
    destruct a3; injection H as <-; [|now left].
    right. destruct a as [| |n|s]; cbn [below] in E0; try discriminate.
    destruct (num_ltb n (pos_cutoff self)) eqn:L; [|discriminate].
    injection E0 as ->. now split.
  - inv_bind H. inv_bind H. destruct a0 as [cq|]; injection H as <-; [|now left].
    right. destruct a as [| |n|s]; cbn [below] in E0; try discriminate.
    destruct (num_ltb n (pos_cutoff self)) eqn:L; [|discriminate].
    injection E0 as ->. now split.
Qed.

Lemma vhf_result_of_min (fdiv : Q -> Q -> number) (boxed : bool)
  (self : DataAnalyzer) (row : Series) (cq_vals : list number) (k : nat) :
  vhf_cq_vals fdiv boxed self row = Ok cq_vals ->
  vhf_fluor_min cq_vals = Ok k ->
  vhf_result fdiv boxed self row =
    if Nat.eqb k 0 then ic_call self row else positive_call self k.
Proof.
  intros Hv Hk. unfold vhf_result. rewrite Hv. cbn [bind]. rewrite Hk. cbn [bind].
  now destruct (Nat.eqb k 0).
Qed.




(** C10.  A position other than 0 is chosen only for a reporter that is
    called positive with a Cq strictly below 98; when no candidate is
    strictly below 98, as for a reporter that qualifies under a cutoff above
    98 with a Cq of 98 or more, position 0 is chosen and the call is the
    control's, "Negative" or "Invalid Result". *)
Theorem vhf_positive_below_98 (fdiv : Q -> Q -> number) (boxed : bool)
  (self : DataAnalyzer) (row : Series) (cq_vals : list number) :
  vhf_cq_vals fdiv boxed self row = Ok cq_vals ->
  exists fluor_min,
    vhf_fluor_min cq_vals = Ok fluor_min /\
    (0 < fluor_min ->
     exists r,
       nth_error (reporter_list self) fluor_min = Some r /\
       get row (r ++ " CT") = Ok (Num (nth fluor_min cq_vals (of_int 98))) /\
       num_ltb (nth fluor_min cq_vals (of_int 98)) (pos_cutoff self) = true /\
       num_ltb (nth fluor_min cq_vals (of_int 98)) (of_int 98) = true /\
       forall j, j < length cq_vals ->
         num_ltb (nth j cq_vals (of_int 98)) (nth fluor_min cq_vals (of_int 98)) = false) /\
    ((forall v, In v (tl cq_vals) -> num_ltb v (of_int 98) = false) ->
     fluor_min = 0 /\
     vhf_result fdiv boxed self row =
       (ct <- get row (ic self ++ " CT") ;;
        b <- cell_lt ct (pos_cutoff self) ;;
        Ok (if b then "Negative" else "Invalid Result"))).
Proof.
  intros Hv. pose proof Hv as Hv'. rewrite vhf_cq_vals_eq in Hv'.
  inv_bind Hv'. rename a into vs. injection Hv' as <-.
  destruct (vhf_fluor_min_first (of_int 98 :: vs) (of_int 98))
    as (k & Hk & Hlen & Hleast & Hfirst); [discriminate|].
  exists k. split; [exact Hk|]. split.
  - intros Hpos. destruct k as [|j]; [lia|].
    pose proof (Hfirst 0 Hpos) as H98. cbn [nth] in H98 |- *.
    cbn [length] in Hlen.
    assert (Hj : nth_error vs j = Some (nth j vs (of_int 98)))
      by (apply nth_error_nth'; lia).
    destruct (mapM_nth_error _ _ _ _ _ E Hj) as (r & Hr & Hentry).
    exists r. split.
    { destruct (reporter_list self); [now destruct j|exact Hr]. }
    destruct (vhf_entry_cases _ _ _ _ _ _ Hentry) as [H99|[Hct Hlt]].
    + rewrite H99 in H98. discriminate H98.
    + split; [exact Hct|]. split; [exact Hlt|]. split; [exact H98|].
      intros i Hi. exact (Hleast i Hi).
  - intros Hall.
    assert (Hk0 : k = 0).
    { destruct k as [|j]; [reflexivity|].
      pose proof (Hfirst 0 (Nat.lt_0_succ j)) as H98. cbn [nth] in H98.
      rewrite Hall in H98; [discriminate|].
      cbn [tl]. apply nth_In. cbn [length] in Hlen. lia. }
    split; [exact Hk0|].
    rewrite (vhf_result_of_min fdiv boxed self row _ k Hv Hk), Hk0. reflexivity.
Qed.

Lemma vhf_positive_below_98_witness :
  exists fluor_min,
    vhf_fluor_min [of_int 98; Fin (985 # 10); of_int 99] = Ok fluor_min /\
    fluor_min = 0 /\
    vhf_result exact_div true (vhf_example_analyzer "Mic" (of_int 100)) vhf_late_row
      = Ok "Negative".
Proof.
  destruct (vhf_positive_below_98 exact_div true
              (vhf_example_analyzer "Mic" (of_int 100)) vhf_late_row
              [of_int 98; Fin (985 # 10); of_int 99] eq_refl)
    as (k & Hk & _ & Hzero).
  exists k. split; [exact Hk|].
  destruct Hzero as [Hk0 Hres].
  - intros v [<-|[<-|[]]]; reflexivity.
  - split; [exact Hk0|]. rewrite Hres. reflexivity.
Defined.

(* ------------------------------------------------------------------ *)
(** ** The largest dRn of a reporter *)

Lemma get_filter_head {A : Type} (cs rest : list (string * A)) (w : string) :
  filter (fun c => String.eqb (fst c) w) cs <> [] ->
  get (filter (fun c => String.eqb (fst c) w) cs ++ rest) w = get cs w.
Proof.
  induction cs as [|[l v] cs IH]; intros Hne; [now contradiction Hne|].
  cbn [filter fst] in *. cbn [get]. destruct (String.eqb l w) eqn:E.
  - cbn [app get]. now rewrite E.
  - now apply IH.
Qed.

Lemma loc_cols_head (t t' : DataFrame) (w : string) (ws : list string) :
  loc_cols t (w :: ws) = Ok t' ->
  nrows t' = nrows t /\ get (cols t') w = get (cols t) w.
Proof.
  unfold loc_cols. intros H. inv_bind H. injection H as <-. cbn [nrows cols].
  split; [reflexivity|].
  cbn [loc_cols_of] in E.
  destruct (filter (fun c => String.eqb (fst c) w) (cols t)) as [|c found] eqn:F;
    [discriminate|].
  inv_bind E. injection E as <-.
  change (c :: found ++ a0) with ((c :: found) ++ a0). rewrite <- F.
  apply get_filter_head. rewrite F. discriminate.
Qed.

Lemma loc_cols_one_ok (t : DataFrame) (w : string) (vs : list cell) :
  get (cols t) w = Ok vs -> exists t', loc_cols t [w] = Ok t'.
Proof.
  intros H. unfold loc_cols. cbn [loc_cols_of].
  destruct (filter (fun c => String.eqb (fst c) w) (cols t)) as [|c found] eqn:F.
  - exfalso. revert H F. induction (cols t) as [|[l v] cs IH]; [discriminate|].
    cbn [get filter fst]. destruct (String.eqb l w); [discriminate|]. exact IH.
  - cbn [bind]. eexists. reflexivity.
Qed.

Lemma column_of_get (t : DataFrame) (c : string) (vs : list cell) :
  get (cols t) c = Ok vs ->
  column t c = Ok (map (fun i => nth i vs Missing) (seq 0 (nrows t))).
Proof. intros H. unfold column. now rewrite H. Qed.

Lemma elem_ge_passes (c : cell) (t : number) : float_cell c -> elem_ge c t = Ok (passes t c).
Proof. destruct c; cbn; intros; try contradiction; reflexivity. Qed.

Lemma max_dRn_entry_eq (display fluor : string) (t : DataFrame) (be ds : list cell) :
  get (cols t) "Baseline End" = Ok be ->
  (forall i, i < nrows t -> float_cell (nth i be Missing)) ->
  get (cols t) (fluor ++ " dRn") = Ok ds ->
  max_dRn_entry display fluor t =
    series_max (map (fun i => nth i ds Missing) (counted_rows display (nrows t) be)).
Proof.
  intros Hbe Nbe Hds. unfold max_dRn_entry.
  rewrite (column_of_get _ _ _ Hbe). cbn [bind].
  set (thr := of_int (baseline_end_of display)).
  assert (Hmask :
    mapM (fun c => elem_ge c thr) (map (fun i => nth i be Missing) (seq 0 (nrows t)))
    = Ok (map (fun i => passes thr (nth i be Missing)) (seq 0 (nrows t)))).
  { rewrite <- (mapM_seq_ok (fun i => elem_ge (nth i be Missing) thr)).
    - generalize (seq 0 (nrows t)). induction l as [|i l IH]; [reflexivity|].
      cbn [map mapM]. now rewrite IH.
    - intros i Hi. apply elem_ge_passes, Nbe. lia. }
  rewrite Hmask. cbn [bind].
  set (mask := map _ (seq 0 (nrows t))).
  assert (Hkept : kept mask (nrows t) = counted_rows display (nrows t) be).
  { unfold kept, counted_rows. apply filter_ext_in. intros i Hi.
    apply in_seq in Hi. unfold mask. now rewrite nth_map_seq by lia. }
  assert (Hget : get (cols (loc_rows t mask)) (fluor ++ " dRn")
                 = Ok (map (fun i => nth i ds Missing) (counted_rows display (nrows t) be))).
  { unfold loc_rows. cbn [cols]. rewrite Hkept.
    rewrite (get_map_snd (fun vs => map (fun i => nth i vs Missing)
                                       (counted_rows display (nrows t) be))).
    now rewrite Hds. }
  destruct (loc_cols_one_ok _ _ _ Hget) as [gm Hgm].
  rewrite Hgm. cbn [bind].
  destruct (loc_cols_head _ _ _ _ Hgm) as [Hrows Hcol].
  unfold column. rewrite Hcol, Hget. cbn [bind].
  rewrite Hrows. unfold loc_rows. cbn [nrows]. rewrite Hkept.
  rewrite <- (length_map (fun i => nth i ds Missing)).
  now rewrite map_nth_seq.
Qed.

Lemma series_max_spec (vs : list cell) :
  Forall float_cell vs ->
  exists m,
    series_max vs = Ok m /\
    match m with
    | Missing => forall v, In v vs -> v = Missing
    | Num x => In (Num x) vs /\ forall y, In (Num y) vs -> num_ltb x y = false
    | PyNone | Str _ => False
    end.
Proof.
  induction 1 as [|c vs Hc Hall IH].
  - exists Missing. split; [reflexivity|]. intros v [].
  - destruct IH as (m & Hm & Hspec). cbn [series_max]. rewrite Hm. cbn [bind].
    destruct c as [| |x|s]; [|contradiction| |contradiction].
    + destruct m as [| |y|s]; [|contradiction| |contradiction].
      * exists Missing. split; [reflexivity|].
        intros v [<-|Hv]; [reflexivity|now apply Hspec].
      * exists (Num y). split; [reflexivity|]. destruct Hspec as [Hin Hmax].
        split; [now right|]. intros z [Hz|Hz]; [discriminate|now apply Hmax].
    + destruct m as [| |y|s]; [|contradiction| |contradiction].
      * exists (Num x). split; [reflexivity|]. split; [now left|].
        intros z [Hz|Hz]; [injection Hz as <-; apply num_ltb_irrefl|].
        apply Hspec in Hz. discriminate.
      * exists (Num (num_max x y)). split; [reflexivity|].
        destruct Hspec as [Hin Hmax]. unfold num_max.
        destruct (num_ltb x y) eqn:E.
        -- split; [now right|].
           intros z [Hz|Hz]; [injection Hz as <-; now apply num_ltb_asym|now apply Hmax].
        -- split; [now left|].
           intros z [Hz|Hz]; [injection Hz as <-; apply num_ltb_irrefl|].
           apply (num_nlt_trans _ y); [now apply Hmax|exact E].
Qed.

Lemma max_dRn_entry_largest (display fluor : string) (t : DataFrame) (m : cell) :
  numeric t "Baseline End" ->
  numeric t (fluor ++ " dRn") ->
  max_dRn_entry display fluor t = Ok m ->
  largest_dRn display fluor t m.
Proof.
  intros (be & Hbe & Nbe) (ds & Hds & Nds) Hentry be' ds' Hbe' Hds'.
  rewrite Hbe in Hbe'. injection Hbe' as <-.
  rewrite Hds in Hds'. injection Hds' as <-.
  rewrite (max_dRn_entry_eq display fluor t be ds Hbe Nbe Hds) in Hentry.
  set (rows := counted_rows display (nrows t) be) in *.
  assert (Hall : Forall float_cell (map (fun i => nth i ds Missing) rows)).
  { apply Forall_forall. intros v Hv. apply in_map_iff in Hv.
    destruct Hv as (i & <- & Hi). apply Nds.
    unfold rows, counted_rows in Hi. apply filter_In in Hi.
    destruct Hi as [Hi _]. apply in_seq in Hi. lia. }
  destruct (series_max_spec _ Hall) as (m' & Hm & Hspec).
  rewrite Hm in Hentry. injection Hentry as ->.
  destruct m as [| |x|s]; [|exact Hspec| |exact Hspec].
  - intros i Hi. apply Hspec. apply in_map_iff. now exists i.
  - destruct Hspec as [Hin Hmax]. split.
    + apply in_map_iff in Hin. destruct Hin as (i & Hi & Hin). now exists i.
    + intros i y Hi Hy. apply Hmax. apply in_map_iff. exists i. now split.
Qed.

Lemma parse_qs_loop_keeps (division : string) (results_table : DataFrame)
  (dict : list (string * string)) :
  forall st st' x,
    foldM (parse_qs_step division results_table) dict st = Ok st' ->
    In x (snd st) -> In x (snd st').
Proof.
  induction dict as [|e dict IH]; intros st st' x H Hx; cbn [foldM] in H.
  - now injection H as <-.
  - inv_bind H. apply (IH a st' x H).
    unfold parse_qs_step in E. inv_bind E. inv_bind E. injection E as <-.
    cbn [snd]. apply in_or_app. now left.
Qed.

Lemma parse_qs_loop_entries (division : string) (results_table : DataFrame)
  (dict : list (string * string)) :
  forall st st' fluor display,
    foldM (parse_qs_step division results_table) dict st = Ok st' ->
    In (fluor, display) dict ->
    exists partial m,
      qs_partial division results_table fluor = Ok partial /\
      max_dRn_entry display fluor partial = Ok m /\
      In (fluor, m) (snd st').
Proof.
  induction dict as [|e dict IH]; intros st st' fluor display H Hin; [destruct Hin|].
  cbn [foldM] in H. inv_bind H. destruct Hin as [->|Hin].
  - unfold parse_qs_step in E. cbn [fst snd] in E.
    inv_bind E. inv_bind E. injection E as <-.
    exists a0, a1. repeat split; try assumption.
    apply (parse_qs_loop_keeps _ _ _ _ _ _ H). cbn [snd].
    apply in_or_app. right. now left.
  - exact (IH a st' fluor display H Hin).
Qed.

(** C8 (as the code has it).  After the QuantStudio loop every configured
    reporter has an entry, computed from its own table: on numeric baseline
    ends and dRn it is the largest dRn over exactly the rows whose baseline
    end is at least the threshold, 5 for the display name "Internal Control"
    and 10 for any other; it is NaN when no such row has a dRn. *)
Theorem max_dRn_dict_entries (machine_type division : string)
  (reporter_dict : list (string * string)) (results_table results : DataFrame)
  (max_dRn_dict : list (string * cell)) (fluor display : string) :
  parse_qs_tables machine_type division reporter_dict results_table
    = Ok (results, max_dRn_dict) ->
  In (fluor, display) reporter_dict ->
  exists partial m,
    qs_partial division results_table fluor = Ok partial /\
    In (fluor, m) max_dRn_dict /\
    max_dRn_entry display fluor partial = Ok m /\
    baseline_end_of display
      = (if String.eqb display "Internal Control" then 5%Z else 10%Z) /\
    (numeric partial "Baseline End" -> numeric partial (fluor ++ " dRn") ->
     largest_dRn display fluor partial m).
Proof.
  unfold parse_qs_tables. intros H Hin.
  inv_bind H. inv_bind H. injection H as <- <-.
  destruct (parse_qs_loop_entries _ _ _ _ _ _ _ E Hin) as (partial & m & Hp & Hm & Hmd).
  exists partial, m. repeat split; try assumption.
  intros Hbe Hds. exact (max_dRn_entry_largest _ _ _ _ Hbe Hds Hm).
Qed.

Lemma max_dRn_dict_entries_witness :
  exists partial m,
    qs_partial "vhf" qs_example_table "FAM" = Ok partial /\
    In ("FAM", m) [("VIC", Num (of_int 6)); ("FAM", Num (of_int 7))] /\
    max_dRn_entry "Ebola" "FAM" partial = Ok m /\
    baseline_end_of "Ebola" = 10%Z /\
    (numeric partial "Baseline End" -> numeric partial "FAM dRn" ->
     largest_dRn "Ebola" "FAM" partial m).
Proof.
  destruct (parse_qs_tables "QuantStudio 5" "vhf" qs_example_dict qs_example_table)
    as [[res md]|e] eqn:E; [|discriminate E].
  assert (Hmd : md = [("VIC", Num (of_int 6)); ("FAM", Num (of_int 7))])
    by (vm_compute in E; now injection E as _ <-).
  rewrite <- Hmd.
  apply (max_dRn_dict_entries "QuantStudio 5" "vhf" qs_example_dict qs_example_table
           res md "FAM" "Ebola" E).
  right; left; reflexivity.
Defined.

(** C8 as stated fails: a row whose baseline end equals the threshold is
    counted, and here it holds the largest dRn. *)
Lemma max_dRn_counts_threshold_row :
  max_dRn_entry "Ebola" "FAM" qs_example_partial = Ok (Num (of_int 7)) /\
  series_max
    (map (fun i => nth i [Num (of_int 7); Num (of_int 3); Num (of_int 8)] Missing)
         (rows_exceeding "Ebola" 3 [Num (of_int 10); Num (of_int 11); Num (of_int 9)]))
  = Ok (Num (of_int 3)).
Proof. split; reflexivity. Qed.

(* ------------------------------------------------------------------ *)
(** ** Merging the per-reporter tables *)

Lemma cell_eqb_refl (a : cell) : cell_eqb a a = true.
Proof. destruct a; cbn; [reflexivity|reflexivity|apply num_eqb_refl|apply String.eqb_refl]. Qed.

Lemma num_eqb_sym (a b : number) : num_eqb a b = num_eqb b a.
Proof. destruct a, b; cbn; try reflexivity. apply Qeq_bool_comm. Qed.

Lemma num_eqb_trans (a b c : number) :
  num_eqb a b = true -> num_eqb b c = true -> num_eqb a c = true.
Proof.
  destruct a, b, c; cbn; try congruence. apply Qeq_bool_trans.
Qed.

Lemma cell_eqb_sym (a b : cell) : cell_eqb a b = cell_eqb b a.
Proof.
  destruct a, b; cbn; try reflexivity; [apply num_eqb_sym|apply String.eqb_sym].
Qed.

Lemma cell_eqb_trans (a b c : cell) :
  cell_eqb a b = true -> cell_eqb b c = true -> cell_eqb a c = true.
Proof.
  destruct a, b, c; cbn; try congruence.
  - apply num_eqb_trans.
  - rewrite !String.eqb_eq. congruence.
Qed.

Lemma key_column_get (t : DataFrame) (key : string) (ks : list cell) :
  key_column t key = Ok ks ->
  exists vs,
    get (cols t) key = Ok vs /\
    ks = map (fun i => nth i vs Missing) (seq 0 (nrows t)).
Proof.
  unfold key_column, column.
  destruct (filter _ (cols t)) as [|c [|c' l]]; try discriminate.
  intros H. inv_bind H. injection H as <-. now exists a.
Qed.

Lemma get_merge_left {A B : Type} (ov : string -> bool) (f : A -> B)
  (cs : list (string * A)) (rest : list (string * B)) (vs : A) :
  ov "Well" = false ->
  get cs "Well" = Ok vs ->
  get (map (fun c => (if ov (fst c) then (fst c ++ "_x")%string else fst c, f (snd c))) cs
       ++ rest) "Well"
  = Ok (f vs).
Proof.
  intros Hov. induction cs as [|[l v] cs IH]; [discriminate|].
  cbn [get map fst snd app]. destruct (String.eqb_spec l "Well") as [->|Hne].
  - intros H. injection H as <-. rewrite Hov. cbn [get]. reflexivity.
  - intros H. destruct (ov l).
    + cbn [get]. destruct (String.eqb_spec (l ++ "_x") "Well") as [E|_]; [|now apply IH].
      exfalso. revert E. apply (suffix_neq l EmptyString "_x" "Well");
        [reflexivity|reflexivity|discriminate].
    + cbn [get]. destruct (String.eqb_spec l "Well"); [contradiction|now apply IH].
Qed.

Lemma merge_wells (left right t : DataFrame) :
  merge left right "Well" = Ok t ->
  exists kl kr,
    column left "Well" = Ok kl /\
    column right "Well" = Ok kr /\
    length kl = nrows left /\
    length kr = nrows right /\
    wells t = map (fun p => nth (fst p) kl Missing) (join_pairs kl kr).
Proof.
  unfold merge. intros H. inv_bind H. inv_bind H.
  destruct (keys_clash a a0); [discriminate H|]. cbn [bind] in H. injection H as <-.
  rename a into kl, a0 into kr.
  destruct (key_column_get _ _ _ E) as (vl & Hvl & Hkl).
  destruct (key_column_get _ _ _ E0) as (vr & Hvr & Hkr).
  exists kl, kr.
  assert (Hcl : column left "Well" = Ok kl) by (rewrite Hkl; now apply column_of_get).
  assert (Hcr : column right "Well" = Ok kr) by (rewrite Hkr; now apply column_of_get).
  assert (Hll : length kl = nrows left) by (now rewrite Hkl, length_map, length_seq).
  assert (Hlr : length kr = nrows right) by (now rewrite Hkr, length_map, length_seq).
  repeat split; try assumption.
  unfold wells, column. cbn [cols nrows].
  match goal with
  | |- context [get (_ ++ ?rest) "Well"] =>
      pose proof (get_merge_left
                    (fun c => negb (String.eqb c "Well") && mem c (labels left)
                              && mem c (labels right))
                    (fun vs => map (fun p : nat * nat => nth (fst p) vs Missing)
                                   (join_pairs kl kr))
                    (cols left) rest vl eq_refl Hvl) as G
  end.
  cbv beta in G. rewrite G. cbn [bind].
  rewrite <- (length_map (fun p : nat * nat => nth (fst p) vl Missing)), map_nth_seq.
  apply map_ext_in. intros [i j] Hp. cbn [fst].
  unfold join_pairs in Hp. apply in_flat_map in Hp.
  destruct Hp as (i' & Hi' & Hp). apply in_map_iff in Hp.
  destruct Hp as (j' & Hp & _). injection Hp as -> ->.
  apply in_seq in Hi'. rewrite Hkl. rewrite nth_map_seq; [reflexivity|].
  rewrite Hll in Hi'. lia.
Qed.

Lemma in_join_pairs (kl kr : list cell) (i j : nat) :
  In (i, j) (join_pairs kl kr) <->
  i < length kl /\ j < length kr /\
  cell_eqb (nth i kl Missing) (nth j kr Missing) = true.
Proof.
  unfold join_pairs. rewrite in_flat_map. split.
  - intros (i' & Hi' & Hp). apply in_map_iff in Hp.
    destruct Hp as (j' & Hp & Hj'). injection Hp as -> ->.
    apply filter_In in Hj'. destruct Hj' as [Hj' Heq].
    apply in_seq in Hi', Hj'. repeat split; [lia|lia|exact Heq].
  - intros (Hi & Hj & Heq). exists i. split; [apply in_seq; lia|].
    apply in_map. apply filter_In. split; [apply in_seq; lia|exact Heq].
Qed.

Lemma well_in_merge (left right t : DataFrame) (w : cell) :
  merge left right "Well" = Ok t ->
  well_in w t = well_in w left && well_in w right.
Proof.
  intros H. destruct (merge_wells _ _ _ H) as (kl & kr & Hcl & Hcr & _ & _ & Hw).
  unfold well_in. rewrite Hw. unfold wells. rewrite Hcl, Hcr.
  apply eq_true_iff_eq. rewrite andb_true_iff, !existsb_exists. split.
  - intros (x & Hx & Hwx). apply in_map_iff in Hx.
    destruct Hx as ([i j] & <- & Hp). cbn [fst] in Hwx.
    apply in_join_pairs in Hp. destruct Hp as (Hi & Hj & Heq). split.
    + exists (nth i kl Missing). split; [now apply nth_In|exact Hwx].
    + exists (nth j kr Missing). split; [now apply nth_In|].
      now apply (cell_eqb_trans _ (nth i kl Missing)).
  - intros [(x & Hx & Hwx) (y & Hy & Hwy)].
    destruct (In_nth _ _ Missing Hx) as (i & Hi & <-).
    destruct (In_nth _ _ Missing Hy) as (j & Hj & <-).
    exists (nth i kl Missing). split; [|exact Hwx].
    apply in_map_iff. exists (i, j). split; [reflexivity|].
    apply in_join_pairs. repeat split; try assumption.
    apply (cell_eqb_trans _ w); [|exact Hwy]. now rewrite cell_eqb_sym.
Qed.

Lemma wells_loc_cols (t t' : DataFrame) (ws : list string) :
  loc_cols t ("Well" :: ws) = Ok t' -> wells t' = wells t.
Proof.
  intros H. destruct (loc_cols_head _ _ _ _ H) as [Hrows Hget].
  unfold wells, column. now rewrite Hget, Hrows.
Qed.

Lemma summarize_columns_head (machine_type division fluor : string) (b : bool) :
  exists ws, summarize_columns machine_type division fluor b = "Well" :: ws.
Proof.
  unfold summarize_columns.
  destruct (contains "QuantStudio" machine_type), (String.eqb division "hiv"), b;
    eexists; reflexivity.
Qed.

Lemma summarize_loop_wells (machine_type division : string)
  (df_dict : list (string * DataFrame)) :
  forall s st' w,
    foldM (summarize_step machine_type division) df_dict (Some s) = Ok st' ->
    exists t,
      st' = Some t /\
      well_in w t = well_in w s && forallb (fun e => well_in w (snd e)) df_dict.
Proof.
  induction df_dict as [|e df_dict IH]; intros s st' w H; cbn [foldM] in H.
  - injection H as <-. exists s. split; [reflexivity|]. cbn. now rewrite andb_true_r.
  - inv_bind H. unfold summarize_step in E. inv_bind E. inv_bind E. injection E as <-.
    destruct (IH a1 st' w H) as (t & -> & Ht).
    exists t. split; [reflexivity|].
    rewrite Ht, (well_in_merge _ _ _ w E1).
    destruct (summarize_columns_head machine_type division (fst e) false) as [ws Hws].
    rewrite Hws in E0. unfold well_in at 2. rewrite (wells_loc_cols _ _ _ E0).
    cbn [forallb]. unfold well_in. now rewrite andb_assoc.
Qed.

(** C1 (as the code has it).  The tables are joined on the well key by an
    inner join, in [summarize] and in the progressive merge of the
    Rotor-Gene parser alike, and the sets of wells are never compared.  When
    the join returns, a well is in the merged table exactly when it is in
    every joined table, so a well missing from some table is dropped, and
    the merged wells are those of every partial table only when the partial
    tables agree.  What the join does refuse is a key column of text against
    one of numbers, with a [ValueError], whatever the wells. *)
Theorem merge_keeps_common_wells :
  (forall left right t w,
     merge left right "Well" = Ok t ->
     well_in w t = well_in w left && well_in w right) /\
  (forall machine_type division df_dict t w,
     summarize machine_type division df_dict = Ok t ->
     well_in w t = forallb (fun e => well_in w (snd e)) df_dict) /\
  (forall left right kl kr,
     key_column left "Well" = Ok kl ->
     key_column right "Well" = Ok kr ->
     is_nil kl = false -> forallb is_str kl = true ->
     is_nil kr = false -> forallb is_num kr = true ->
     merge left right "Well" = Raise ValueError /\
     merge right left "Well" = Raise ValueError).
Proof.
  split; [|split].
  - intros left right t w. apply well_in_merge.
  - intros machine_type division df_dict t w H. unfold summarize in H.
    inv_bind H. destruct a as [t'|]; [injection H as <-|discriminate].
    destruct df_dict as [|e df_dict]; [discriminate|].
    cbn [foldM] in E. inv_bind E. unfold summarize_step, or_exit in E0.
    destruct (loc_cols (snd e) (summarize_columns machine_type division (fst e) true))
      as [t0|] eqn:L; [|discriminate].
    cbn [bind] in E0. injection E0 as <-.
    destruct (summarize_loop_wells _ _ _ _ _ w E) as (t1 & Ht1 & Hw).
    injection Ht1 as <-. rewrite Hw. cbn [forallb]. f_equal.
    destruct (summarize_columns_head machine_type division (fst e) true) as [ws Hws].
    rewrite Hws in L. unfold well_in. now rewrite (wells_loc_cols _ _ _ L).
  - intros left right kl kr Hl Hr Hnl Hsl Hnr Hsr.
    assert (Htl : text_keys kl = true).
    { unfold text_keys, object_dtype. destruct kl as [|c kl]; [discriminate|].
      cbn [forallb] in Hsl. apply andb_true_iff in Hsl. destruct Hsl as [Hc Hkl].
      destruct c; try discriminate Hc. cbn [existsb object_cell is_num orb andb].
      apply negb_true_iff. apply not_true_iff_false. intros Hex.
      apply existsb_exists in Hex. destruct Hex as (x & Hx & Hnum).
      rewrite forallb_forall in Hkl. specialize (Hkl x Hx). now destruct x. }
    assert (Hfr : float_keys kr = true).
    { unfold float_keys, object_dtype. rewrite Hnr, andb_true_r.
      apply negb_true_iff. apply not_true_iff_false. intros Hex.
      apply existsb_exists in Hex. destruct Hex as (x & Hx & Hobj).
      rewrite forallb_forall in Hsr. specialize (Hsr x Hx). now destruct x. }
    unfold merge. rewrite Hl, Hr. cbn [bind]. unfold keys_clash.
    rewrite Htl, Hfr. cbn [andb orb]. rewrite orb_true_r. split; reflexivity.
Qed.

Lemma merge_keeps_common_wells_witness :
  (well_in (Num (of_int 2))
     (mkDataFrame 1
        [("Well", [Num (of_int 1)]); ("Sample Name_x", [Str "s1"]);
         ("FAM CT", [Num (of_int 22)]); ("Sample Name_y", [Str "s1"]);
         ("HEX CT", [Num (of_int 25)])])
   = well_in (Num (of_int 2)) mic_example_fam
     && well_in (Num (of_int 2)) mic_example_hex) /\
  (well_in (Num (of_int 1))
     (mkDataFrame 1
        [("Well", [Num (of_int 1)]); ("Sample Name", [Str "s1"]);
         ("FAM CT", [Num (of_int 22)]); ("HEX CT", [Num (of_int 25)])])
   = forallb (fun e => well_in (Num (of_int 1)) (snd e))
             [("FAM", mic_example_fam); ("HEX", mic_example_hex)]) /\
  (merge qs_example_partial mic_example_hex "Well" = Raise ValueError /\
   merge mic_example_hex qs_example_partial "Well" = Raise ValueError).
Proof.
  split; [|split].
  - apply (proj1 merge_keeps_common_wells mic_example_fam mic_example_hex).
    reflexivity.
  - apply (proj1 (proj2 merge_keeps_common_wells) "Mic" "vhf"
             [("FAM", mic_example_fam); ("HEX", mic_example_hex)]).
    reflexivity.
  - apply (proj2 (proj2 merge_keeps_common_wells) qs_example_partial mic_example_hex
             [Str "A1"; Str "A2"; Str "A3"] [Num (of_int 1)]); reflexivity.
Defined.

(** C1 as stated fails: well 2 is in the first table only; the merge
    succeeds and the merged table has well 1 alone. *)
Lemma summarize_drops_unmatched_well :
  summarize "Mic" "vhf" [("FAM", mic_example_fam); ("HEX", mic_example_hex)]
    = Ok (mkDataFrame 1
            [("Well", [Num (of_int 1)]); ("Sample Name", [Str "s1"]);
             ("FAM CT", [Num (of_int 22)]); ("HEX CT", [Num (of_int 25)])]) /\
  wells mic_example_fam = [Num (of_int 1); Num (of_int 2)] /\
  wells mic_example_hex = [Num (of_int 1)].
Proof. repeat split. Qed.

(* ------------------------------------------------------------------ *)
(** ** The Rotor-Gene file check *)

Lemma rgq_fluor_loop_used (csv_rows : string -> result (list (list string)))
  (filepath : string) (dict : list (string * string)) :
  forall st st',
    foldM (rgq_fluor_step csv_rows filepath) dict st = Ok st' ->
    used_filepaths st' = used_filepaths st ++ flat_map (file_matches filepath) dict.
Proof.
  induction dict as [|e dict IH]; intros st st' H; cbn [foldM] in H.
  - injection H as <-. now rewrite app_nil_r.
  - inv_bind H. rewrite (IH _ _ H). cbn [flat_map]. rewrite app_assoc. f_equal.
    unfold rgq_fluor_step in E. unfold file_matches.
    destruct (contains (fst e ++ ".csv") filepath
              || contains (snd e ++ ".csv") filepath).
    + destruct (first_loop st).
      * inv_bind E. inv_bind E. now injection E as <-.
      * destruct (results st); [|discriminate].
        inv_bind E. inv_bind E. now injection E as <-.
    + injection E as <-. now rewrite app_nil_r.
Qed.

Lemma rgq_file_loop_used (read_csv : string -> result DataFrame)
  (csv_rows : string -> result (list (list string)))
  (cutoff : number) (dict : list (string * string)) (files : list string) :
  forall st st',
    foldM (rgq_file_step read_csv csv_rows cutoff dict) files st = Ok st' ->
    used_filepaths st' =
      used_filepaths st ++ flat_map (fun f => flat_map (file_matches f) dict) files.
Proof.
  induction files as [|f files IH]; intros st st' H; cbn [foldM] in H.
  - injection H as <-. now rewrite app_nil_r.
  - inv_bind H. rewrite (IH _ _ H). cbn [flat_map]. rewrite app_assoc. f_equal.
    unfold rgq_file_step in E. inv_bind E. inv_bind E.
    now rewrite (rgq_fluor_loop_used _ _ _ _ _ E).
Qed.

Lemma in_insert_sorted (x s : string) (l : list string) :
  In x (insert_sorted s l) <-> x = s \/ In x l.
Proof.
  induction l as [|t l IH]; cbn [insert_sorted].
  - cbn. intuition.
  - destruct (String.leb s t); cbn [In]; [intuition|].
    rewrite IH. intuition.
Qed.

Lemma in_sorted (x : string) (l : list string) : In x (sorted l) <-> In x l.
Proof.
  induction l as [|s l IH]; [reflexivity|].
  unfold sorted in *. cbn [fold_right]. rewrite in_insert_sorted, IH. cbn. intuition.
Qed.

(** C6.  A run of the Rotor-Gene parser that returns has matched every
    selected file: the selected paths and the matched paths are the same
    when sorted.  So when some selected file matches no reporter token the
    run fails, whatever the number of files. *)
Theorem parse_rgq_checks_files (read_csv : string -> result DataFrame)
  (csv_rows : string -> result (list (list string)))
  (cq_cutoff : number) (reporter_dict : list (string * string))
  (results_filepaths : list string) :
  (forall res,
     parse_rgq read_csv csv_rows cq_cutoff reporter_dict results_filepaths = Ok res ->
     sorted results_filepaths = sorted (matched_files reporter_dict results_filepaths) /\
     forall x, In x results_filepaths <->
               In x (matched_files reporter_dict results_filepaths)) /\
  ((exists x, In x results_filepaths /\
              ~ In x (matched_files reporter_dict results_filepaths)) ->
   exists e,
     parse_rgq read_csv csv_rows cq_cutoff reporter_dict results_filepaths = Raise e).
Proof.
  assert (Hok : forall res,
    parse_rgq read_csv csv_rows cq_cutoff reporter_dict results_filepaths = Ok res ->
    sorted results_filepaths = sorted (matched_files reporter_dict results_filepaths)).
  { intros res H. unfold parse_rgq in H. inv_bind H.
    destruct (list_eq_dec string_dec _ _) as [Heq|]; [|discriminate].
    rewrite (rgq_file_loop_used _ _ _ _ _ _ _ E) in Heq. exact Heq. }
  split.
  - intros res H. split; [exact (Hok res H)|].
    intros x. rewrite <- (in_sorted x results_filepaths), (Hok res H). apply in_sorted.
  - intros (x & Hx & Hnot).
    destruct (parse_rgq read_csv csv_rows cq_cutoff reporter_dict results_filepaths)
      as [res|e] eqn:E; [|now exists e].
    exfalso. apply Hnot.
    rewrite <- in_sorted, <- (Hok res eq_refl). now apply in_sorted.
Qed.

Lemma parse_rgq_checks_files_witness :
  (sorted ["run Green.csv"; "run Yellow.csv"]
   = sorted (matched_files rgq_example_dict ["run Green.csv"; "run Yellow.csv"])) /\
  (exists e,
     parse_rgq (fun _ => Ok rgq_example_file) (fun _ => Ok []) (of_int 35)
               rgq_example_dict ["run Green.csv"; "run notes.csv"]
     = Raise e).
Proof.
  split.
  - destruct (parse_rgq (fun _ => Ok rgq_example_file) (fun _ => Ok []) (of_int 35)
                rgq_example_dict ["run Green.csv"; "run Yellow.csv"])
      as [res|e] eqn:E; [|discriminate E].
    apply (proj1 (parse_rgq_checks_files (fun _ => Ok rgq_example_file) (fun _ => Ok [])
                    (of_int 35) rgq_example_dict ["run Green.csv"; "run Yellow.csv"])
             res E).
  - apply (proj2 (parse_rgq_checks_files (fun _ => Ok rgq_example_file) (fun _ => Ok [])
                    (of_int 35) rgq_example_dict ["run Green.csv"; "run notes.csv"])).
    exists "run notes.csv". split; [right; left; reflexivity|].
    intros [H|[]]. discriminate H.
Defined.

Example parse_rgq_wrong_file_exits :
  parse_rgq (fun _ => Ok rgq_example_file) (fun _ => Ok []) (of_int 35)
            rgq_example_dict ["run Green.csv"; "run notes.csv"]
  = Raise SystemExit.
Proof. reflexivity. Qed.

(* ================================================================== *)
(** * Further properties *)

(** ** Blank rows and the two extractors *)

Lemma is_empty_lstrip (s : string) : is_empty (lstrip s) = all_space s.
Proof.
  induction s as [|c s IH]; [reflexivity|].
  cbn [lstrip all_space]. destruct (py_isspace c); [exact IH|reflexivity].
Qed.

Lemma all_space_lstrip (s : string) : all_space (lstrip s) = all_space s.
Proof.
  induction s as [|c s IH]; [reflexivity|].
  cbn [lstrip]. destruct (py_isspace c) eqn:E; [|reflexivity].
  cbn [all_space]. now rewrite E.
Qed.

Lemma all_space_rev (s : string) :
  forall acc, all_space (rev_string s acc) = all_space s && all_space acc.
Proof.
  induction s as [|c s IH]; intros acc; [reflexivity|].
  cbn [rev_string all_space]. rewrite IH. cbn [all_space].
  destruct (py_isspace c), (all_space s), (all_space acc); reflexivity.
Qed.

Lemma is_empty_rev (s : string) :
  forall acc, is_empty (rev_string s acc) = is_empty s && is_empty acc.
Proof.
  induction s as [|c s IH]; intros acc; [reflexivity|].
  cbn [rev_string]. rewrite IH. cbn [is_empty]. apply andb_false_r.
Qed.

Lemma is_empty_strip (s : string) : is_empty (strip s) = all_space s.
Proof.
  unfold strip, rstrip.
  rewrite is_empty_rev, is_empty_lstrip, all_space_rev, all_space_lstrip.
  cbn. now rewrite !andb_true_r.
Qed.

(** X1.  A row is blank exactly when every field is made of whitespace
    only; the row without fields is blank. *)
Theorem isblank_all_space (row : list string) :
  isblank row = forallb all_space row.
Proof.
  unfold isblank. induction row as [|f row IH]; [reflexivity|].
  cbn [forallb]. now rewrite is_empty_strip, IH.
Qed.

Lemma extract_header_loop_no_flag (flag stop : option string) (reader : list (list string)) :
  (forall l, In l reader -> flag_hit flag l = false) ->
  forall head,
    fold_left (extract_header_step flag stop) reader (false, head) = (false, head) /\
    snd (fold_left (extract_header_step flag stop) reader (true, head))
      = head ++ take_until (stop_hit stop) reader.
Proof.
  unfold flag_hit, stop_hit.
  induction reader as [|line reader IH]; intros H head; cbn [fold_left take_until].
  - split; [reflexivity|]. cbn [snd]. now rewrite app_nil_r.
  - rewrite !extract_header_step_eq. cbv zeta.
    rewrite (H line (or_introl eq_refl)).
    assert (H' : forall l, In l reader -> truthy flag && in_str flag l = false)
      by (intros l Hl; apply H; now right).
    destruct (if truthy stop then in_str stop line else isblank line).
    + split; [now apply IH|].
      rewrite (proj1 (IH H' head)). cbn [snd]. now rewrite app_nil_r.
    + split; [now apply IH|].
      rewrite (proj2 (IH H' (head ++ [line]))). now rewrite <- app_assoc.
Qed.

(** X2.  Without a flag the captured header is the leading run of lines
    before the first line that has the stop token (the first blank line
    when no stop token is given); nothing after that line is captured. *)
Theorem extract_header_no_flag (reader : list (list string)) (flag stop : option string) :
  truthy flag = false ->
  extract_header reader flag stop = take_until (stop_hit stop) reader.
Proof.
  intros Hf. unfold extract_header. rewrite Hf.
  apply (extract_header_loop_no_flag flag stop reader).
  intros l _. unfold flag_hit. now rewrite Hf.
Qed.

Lemma extract_header_no_flag_witness :
  extract_header [["Excel Raw Data Export"]; ["Date"; "2024"]; ["Quantitative analysis"];
                  ["No."; "Name"; "Ct"]]
                 None (Some "Quantitative")
  = [["Excel Raw Data Export"]; ["Date"; "2024"]].
Proof.
  apply (extract_header_no_flag
           [["Excel Raw Data Export"]; ["Date"; "2024"]; ["Quantitative analysis"];
            ["No."; "Name"; "Ct"]]
           None (Some "Quantitative")).
  reflexivity.
Defined.

(** X3.  With a flag, nothing is captured while no line has the flag, so a
    stream without it gives the empty header; when the flag is on one line
    only, the header is that line followed by the lines up to the next stop
    (or blank) line. *)
Theorem extract_header_from_flag (reader : list (list string)) (flag stop : option string) :
  truthy flag = true ->
  ((forall l, In l reader -> in_str flag l = false) ->
   extract_header reader flag stop = []) /\
  (forall pre fl rest,
     reader = pre ++ fl :: rest ->
     (forall l, In l pre -> in_str flag l = false) ->
     in_str flag fl = true ->
     (forall l, In l rest -> in_str flag l = false) ->
     extract_header reader flag stop = fl :: take_until (stop_hit stop) rest).
Proof.
  intros Ht. unfold extract_header. rewrite Ht.
  assert (Hno : forall ls, (forall l, In l ls -> in_str flag l = false) ->
                           forall l, In l ls -> flag_hit flag l = false).
  { intros ls H l Hl. unfold flag_hit. now rewrite (H l Hl), andb_false_r. }
  split.
  - intros H.
    now rewrite (proj1 (extract_header_loop_no_flag flag stop reader (Hno _ H) [])).
  - intros pre fl rest -> Hpre Hfl Hrest.
    rewrite fold_left_app.
    rewrite (proj1 (extract_header_loop_no_flag flag stop pre (Hno _ Hpre) [])).
    cbn [fold_left]. rewrite extract_header_step_eq. cbv zeta.
    rewrite Ht, Hfl. cbn [andb app].
    now rewrite (proj2 (extract_header_loop_no_flag flag stop rest (Hno _ Hrest) [fl])).
Qed.

Lemma extract_header_from_flag_witness :
  extract_header [["a"]; ["b"]] (Some "Experiment") None = [] /\
  extract_header [["Block Type"]; ["Experiment Name"; "run 7"]; ["User"; "x"]; [];
                  ["[Results]"]]
                 (Some "Experiment") None
  = [["Experiment Name"; "run 7"]; ["User"; "x"]].
Proof.
  split.
  - apply (proj1 (extract_header_from_flag [["a"]; ["b"]] (Some "Experiment") None
                    eq_refl)).
    intros l [<-|[<-|[]]]; reflexivity.
  - apply (proj2 (extract_header_from_flag
                    [["Block Type"]; ["Experiment Name"; "run 7"]; ["User"; "x"]; [];
                     ["[Results]"]]
                    (Some "Experiment") None eq_refl)
             [["Block Type"]] ["Experiment Name"; "run 7"]
             [["User"; "x"]; []; ["[Results]"]]).
    + reflexivity.
    + intros l [<-|[]]; reflexivity.
    + reflexivity.
    + intros l [<-|[<-|[<-|[]]]]; reflexivity.
Defined.

Lemma csv_to_df_loop_rows (flag : string) (csv_file : list (list string)) :
  forall b acc,
    Forall (fun l => isblank l = false) acc ->
    Forall (fun l => isblank l = false)
           (snd (fold_left (csv_to_df_step flag) csv_file (b, acc))) /\
    forall l, In l (snd (fold_left (csv_to_df_step flag) csv_file (b, acc))) ->
              In l acc \/ In l csv_file.
Proof.
  induction csv_file as [|line f IH]; intros b acc Hacc; cbn [fold_left].
  - split; [exact Hacc|]. intros l Hl. now left.
  - unfold csv_to_df_step at 2 4.
    destruct (isblank line) eqn:Hb.
    + destruct (IH (if existsb (String.eqb flag) line then true else false) acc Hacc)
        as [H1 H2].
      split; [exact H1|]. intros l Hl. destruct (H2 l Hl); [now left|right; now right].
    + destruct b.
      * assert (Hacc' : Forall (fun l => isblank l = false) (acc ++ [line])).
        { apply Forall_app. split; [exact Hacc|]. now constructor. }
        destruct (IH (if existsb (String.eqb flag) line then true else true)
                     (acc ++ [line]) Hacc') as [H1 H2].
        split; [exact H1|]. intros l Hl. destruct (H2 l Hl) as [H|H].
        -- apply in_app_or in H. destruct H as [H|[<-|[]]];
             [now left|right; now left].
        -- right; now right.
      * destruct (IH (if existsb (String.eqb flag) line then true else false) acc Hacc)
          as [H1 H2].
        split; [exact H1|]. intros l Hl. destruct (H2 l Hl); [now left|right; now right].
Qed.

(** X4.  Every row that [csv_to_df] buffers is a line of the input that is
    not blank; so the labels of a returned table are a non-blank line of the
    input, and the table has no row from a blank line. *)
Theorem csv_to_df_rows_not_blank (csv_file : list (list string)) (results_flag : string) :
  Forall (fun l => isblank l = false /\ In l csv_file)
         (csv_to_df_loop results_flag csv_file) /\
  (forall t, csv_to_df csv_file results_flag = Ok t ->
             isblank (labels t) = false /\ In (labels t) csv_file).
Proof.
  destruct (csv_to_df_loop_rows results_flag csv_file false [] (Forall_nil _))
    as [H1 H2].
  assert (H : Forall (fun l => isblank l = false /\ In l csv_file)
                     (csv_to_df_loop results_flag csv_file)).
  { unfold csv_to_df_loop. apply Forall_forall. intros l Hl. split.
    - revert l Hl. now apply Forall_forall.
    - destruct (H2 l Hl) as [[]|Hin]. exact Hin. }
  split; [exact H|].
  intros t Ht. unfold csv_to_df in Ht.
  destruct (csv_to_df_loop results_flag csv_file) as [|header data]; [discriminate|].
  apply py_DataFrame_shape in Ht. destruct Ht as [<- _].
  now inversion H.
Qed.

Lemma csv_to_df_loop_body (flag : string) (body : list (list string)) :
  (forall l, In l body -> isblank l = false) ->
  forall acc,
    fold_left (csv_to_df_step flag) body (true, acc) = (true, acc ++ body).
Proof.
  induction body as [|line body IH]; intros H acc; cbn [fold_left].
  - now rewrite app_nil_r.
  - unfold csv_to_df_step at 2. rewrite (H line (or_introl eq_refl)).
    replace (if existsb (String.eqb flag) line then true else true) with true
      by (now destruct (existsb (String.eqb flag) line)).
    rewrite IH by (intros l Hl; apply H; now right).
    now rewrite <- app_assoc.
Qed.

(** X5.  On an export laid out as: lines without the flag, the flag line,
    a block of non-blank lines, and then nothing or a blank line and lines
    without the flag, the table is built from exactly that block: its first
    line is the header and the others are the rows. *)
Theorem csv_to_df_block (results_flag : string)
  (pre : list (list string)) (fl : list string) (body tail : list (list string)) :
  (forall l, In l pre -> existsb (String.eqb results_flag) l = false) ->
  existsb (String.eqb results_flag) fl = true ->
  (forall l, In l body -> isblank l = false) ->
  (forall l, In l tail -> existsb (String.eqb results_flag) l = false) ->
  match tail with
  | [] => True
  | b :: _ => isblank b = true
  end ->
  csv_to_df_loop results_flag (pre ++ fl :: body ++ tail) = body /\
  csv_to_df (pre ++ fl :: body ++ tail) results_flag =
    match body with
    | [] => Raise IndexError
    | header :: data => py_DataFrame data header
    end.
Proof.
  intros Hpre Hfl Hbody Htail Hblank.
  assert (E : csv_to_df_loop results_flag (pre ++ fl :: body ++ tail) = body).
  { unfold csv_to_df_loop.
    rewrite fold_left_app, csv_to_df_loop_no_flag by exact Hpre.
    cbn [fold_left]. unfold csv_to_df_step at 2. rewrite Hfl.
    replace (if (if isblank fl then false else false) then [] ++ [fl] else [])
      with (@nil (list string)) by (now destruct (isblank fl)).
    rewrite fold_left_app, csv_to_df_loop_body by exact Hbody. cbn [app].
    destruct tail as [|b rest]; [reflexivity|].
    cbn [fold_left]. unfold csv_to_df_step at 2. rewrite Hblank.
    rewrite (Htail b (or_introl eq_refl)).
    rewrite csv_to_df_loop_no_flag by (intros l Hl; apply Htail; now right).
    reflexivity. }
  split; [exact E|]. unfold csv_to_df. now rewrite E.
Qed.

Lemma csv_to_df_block_witness :
  csv_to_df_loop "[Results]"
    ([["* Block Type = 96"]] ++ ["[Results]"] :: [["Well"; "CT"]; ["1"; "20.5"]]
       ++ [[]; ["Analysis Type"]])
  = [["Well"; "CT"]; ["1"; "20.5"]] /\
  csv_to_df
    ([["* Block Type = 96"]] ++ ["[Results]"] :: [["Well"; "CT"]; ["1"; "20.5"]]
       ++ [[]; ["Analysis Type"]])
    "[Results]"
  = py_DataFrame [["1"; "20.5"]] ["Well"; "CT"].
Proof.
  apply (csv_to_df_block "[Results]" [["* Block Type = 96"]] ["[Results]"]
           [["Well"; "CT"]; ["1"; "20.5"]] [[]; ["Analysis Type"]]).
  - intros l [<-|[]]; reflexivity.
  - reflexivity.
  - intros l [<-|[<-|[]]]; reflexivity.
  - intros l [<-|[<-|[]]]; reflexivity.
  - reflexivity.
Defined.

Lemma csv_to_df_rows_not_blank_witness :
  isblank ["Well"; "CT"] = false /\
  In ["Well"; "CT"] [["x"]; ["[Results]"]; ["Well"; "CT"]; ["1"; "20.5"]; []].
Proof.
  apply (proj2 (csv_to_df_rows_not_blank
                  [["x"]; ["[Results]"]; ["Well"; "CT"]; ["1"; "20.5"]; []] "[Results]")
           (mkDataFrame 1 [("Well", [Str "1"]); ("CT", [Str "20.5"])])).
  reflexivity.
Defined.

(** ** The merger: errors and the agreeing case *)

Lemma loc_cols_of_missing (cs : list (string * list cell)) (wanted : list string) :
  (exists w, In w wanted /\ mem w (map fst cs) = false) ->
  loc_cols_of cs wanted = Raise KeyError.
Proof.
  induction wanted as [|w wanted IH]; intros (x & Hx & Hm); [destruct Hx|].
  cbn [loc_cols_of].
  destruct (filter (fun c => String.eqb (fst c) w) cs) as [|c found] eqn:F;
    [reflexivity|].
  destruct Hx as [->|Hx].
  - exfalso. assert (Hc : In c (filter (fun c => String.eqb (fst c) x) cs))
      by (rewrite F; now left).
    apply filter_In in Hc. destruct Hc as [Hin Heq].
    unfold mem in Hm. apply not_true_iff_false in Hm. apply Hm.
    apply existsb_exists. exists (fst c). split; [now apply in_map|].
    now rewrite String.eqb_sym.
  - rewrite IH; [reflexivity|]. now exists x.
Qed.

Lemma loc_cols_of_present (cs : list (string * list cell)) (wanted : list string) :
  (forall w, In w wanted -> mem w (map fst cs) = true) ->
  exists found, loc_cols_of cs wanted = Ok found.
Proof.
  induction wanted as [|w wanted IH]; intros H; [now exists []|].
  cbn [loc_cols_of].
  destruct (filter (fun c => String.eqb (fst c) w) cs) as [|c found] eqn:F.
  - exfalso. specialize (H w (or_introl eq_refl)). unfold mem in H.
    apply existsb_exists in H. destruct H as (l & Hl & Heq).
    apply in_map_iff in Hl. destruct Hl as (c & <- & Hc).
    assert (Hin : In c (filter (fun c => String.eqb (fst c) w) cs)).
    { apply filter_In. split; [exact Hc|]. now rewrite String.eqb_sym. }
    rewrite F in Hin. destruct Hin.
  - destruct IH as [rest Hrest]; [intros x Hx; apply H; now right|].
    rewrite Hrest. cbn [bind]. eexists. reflexivity.
Qed.

(** X6.  [summarize] reports a column missing from the first table as
    [SystemExit], after its dialog, but a column missing from a later table
    leaves it as a bare [KeyError]; without any table it fails on the
    unset summary. *)
Theorem summarize_missing_column (machine_type division : string) :
  summarize machine_type division [] = Raise UnboundLocalError /\
  (forall fluor t rest,
     (exists w, In w (summarize_columns machine_type division fluor true) /\
                mem w (labels t) = false) ->
     summarize machine_type division ((fluor, t) :: rest) = Raise SystemExit) /\
  (forall fluor1 t1 fluor2 t2 rest,
     (forall w, In w (summarize_columns machine_type division fluor1 true) ->
                mem w (labels t1) = true) ->
     (exists w, In w (summarize_columns machine_type division fluor2 false) /\
                mem w (labels t2) = false) ->
     summarize machine_type division ((fluor1, t1) :: (fluor2, t2) :: rest)
       = Raise KeyError).
Proof.
  split; [reflexivity|]. split.
  - intros fluor t rest H. unfold summarize. cbn [foldM summarize_step fst snd].
    unfold loc_cols. rewrite (loc_cols_of_missing _ _ H). reflexivity.
  - intros fluor1 t1 fluor2 t2 rest H1 H2.
    unfold summarize. cbn [foldM summarize_step fst snd].
    unfold loc_cols at 1. destruct (loc_cols_of_present _ _ H1) as [found Hf].
    unfold labels in Hf. rewrite Hf.
    cbn [bind or_exit foldM summarize_step fst snd].
    unfold loc_cols. rewrite (loc_cols_of_missing _ _ H2). reflexivity.
Qed.

Lemma summarize_missing_column_witness :
  summarize "Mic" "vhf"
    [("FAM", mkDataFrame 1 [("Well", [Num (of_int 1)]); ("FAM CT", [Num (of_int 20)])])]
  = Raise SystemExit /\
  summarize "Mic" "vhf"
    [("FAM", mic_example_fam);
     ("HEX", mkDataFrame 1 [("Well", [Num (of_int 1)]); ("Cq", [Num (of_int 20)])])]
  = Raise KeyError.
Proof.
  split.
  - apply (proj1 (proj2 (summarize_missing_column "Mic" "vhf"))).
    exists "Sample Name". split; [right; left; reflexivity|reflexivity].
  - apply (proj2 (proj2 (summarize_missing_column "Mic" "vhf"))).
    + intros w [<-|[<-|[<-|[]]]]; reflexivity.
    + exists "HEX CT". split; [right; left; reflexivity|reflexivity].
Defined.

Lemma filter_index {A : Type} (p : A -> bool) (d : A) (l : list A) :
  map (fun j => nth j l d) (filter (fun j => p (nth j l d)) (seq 0 (length l)))
  = filter p l.
Proof.
  induction l as [|a l IH]; [reflexivity|].
  cbn [length seq filter nth].
  rewrite <- seq_shift, filter_map_swap.
  destruct (p a); cbn [map nth]; rewrite map_map; cbn [nth]; now rewrite IH.
Qed.

Lemma join_pairs_once (kl kr : list cell) :
  (forall w, In w kl -> length (filter (cell_eqb w) kr) = 1) ->
  map (fun p => nth (fst p) kl Missing) (join_pairs kl kr) = kl.
Proof.
  intros H. unfold join_pairs.
  assert (E : forall idx,
    (forall i, In i idx -> i < length kl) ->
    map (fun p : nat * nat => nth (fst p) kl Missing)
        (flat_map
           (fun i => map (pair i)
                       (filter (fun j => cell_eqb (nth i kl Missing) (nth j kr Missing))
                               (seq 0 (length kr))))
           idx)
    = map (fun i => nth i kl Missing) idx).
  { induction idx as [|i idx IH]; intros Hidx; [reflexivity|].
    cbn [flat_map map]. rewrite map_app, IH by (intros j Hj; apply Hidx; now right).
    rewrite map_map. cbn [fst].
    assert (L : length (filter (fun j => cell_eqb (nth i kl Missing) (nth j kr Missing))
                               (seq 0 (length kr))) = 1).
    { rewrite <- (length_map (fun j => nth j kr Missing)).
      rewrite (filter_index (cell_eqb (nth i kl Missing)) Missing kr).
      apply H. apply nth_In. apply Hidx. now left. }
    destruct (filter _ (seq 0 (length kr))) as [|j [|j' js]]; try discriminate L.
    reflexivity. }
  rewrite E by (intros i Hi; apply in_seq in Hi; lia).
  apply map_nth_seq.
Qed.

Lemma merge_once (left right t : DataFrame) :
  merge left right "Well" = Ok t ->
  (forall w, In w (wells left) -> length (filter (cell_eqb w) (wells right)) = 1) ->
  wells t = wells left.
Proof.
  intros H Honce.
  destruct (merge_wells _ _ _ H) as (kl & kr & Hcl & Hcr & _ & _ & Hw).
  unfold wells in Honce |- *. rewrite Hcl, Hcr in Honce. rewrite Hcl.
  unfold wells in Hw. rewrite Hw. now apply join_pairs_once.
Qed.

Lemma summarize_loop_once (machine_type division : string)
  (df_dict : list (string * DataFrame)) :
  forall s st',
    foldM (summarize_step machine_type division) df_dict (Some s) = Ok st' ->
    (forall e w, In e df_dict -> In w (wells s) ->
                 length (filter (cell_eqb w) (wells (snd e))) = 1) ->
    exists t, st' = Some t /\ wells t = wells s.
Proof.
  induction df_dict as [|e df_dict IH]; intros s st' H Honce; cbn [foldM] in H.
  - injection H as <-. now exists s.
  - inv_bind H. unfold summarize_step in E. inv_bind E. inv_bind E. injection E as <-.
    destruct (summarize_columns_head machine_type division (fst e) false) as [ws Hws].
    rewrite Hws in E0.
    assert (Hw : wells a1 = wells s).
    { apply (merge_once _ _ _ E1). intros w Hw.
      rewrite (wells_loc_cols _ _ _ E0). apply Honce; [now left|exact Hw]. }
    destruct (IH a1 st' H) as (t & -> & Ht).
    + intros e' w He' Hin. rewrite Hw in Hin. apply Honce; [now right|exact Hin].
    + exists t. split; [reflexivity|congruence].
Qed.

(** X7.  When every well of the first table occurs exactly once in each
    later table, [summarize] keeps the wells of the first table, each once
    and in the same order: no row is dropped, doubled or moved. *)
Theorem summarize_keeps_agreeing_wells (machine_type division fluor : string)
  (first t : DataFrame) (rest : list (string * DataFrame)) :
  summarize machine_type division ((fluor, first) :: rest) = Ok t ->
  (forall e w, In e rest -> In w (wells first) ->
               length (filter (cell_eqb w) (wells (snd e))) = 1) ->
  wells t = wells first.
Proof.
  intros H Honce. unfold summarize in H. inv_bind H.
  destruct a as [t'|]; [injection H as <-|discriminate].
  cbn [foldM] in E. inv_bind E. unfold summarize_step, or_exit in E0.
  cbn [fst snd] in E0.
  destruct (loc_cols first (summarize_columns machine_type division fluor true))
    as [t0|] eqn:L; [|discriminate].
  cbn [bind] in E0. injection E0 as <-.
  destruct (summarize_columns_head machine_type division fluor true) as [ws Hws].
  rewrite Hws in L. pose proof (wells_loc_cols _ _ _ L) as Hw0.
  destruct (summarize_loop_once _ _ _ _ _ E) as (t1 & Ht1 & Hw).
  - intros e w He Hin. rewrite Hw0 in Hin. now apply Honce.
  - injection Ht1 as <-. congruence.
Qed.

Lemma summarize_keeps_agreeing_wells_witness :
  wells (mkDataFrame 2
           [("Well", [Num (of_int 1); Num (of_int 2)]);
            ("Sample Name", [Str "s1"; Str "s2"]);
            ("FAM CT", [Num (of_int 22); Num (of_int 35)]);
            ("HEX CT", [Num (of_int 30); Num (of_int 25)])])
  = wells mic_example_fam.
Proof.
  apply (summarize_keeps_agreeing_wells "Mic" "vhf" "FAM" mic_example_fam _
           [("HEX", mkDataFrame 2
                      [("Well", [Num (of_int 2); Num (of_int 1)]);
                       ("Sample Name", [Str "s2"; Str "s1"]);
                       ("HEX CT", [Num (of_int 25); Num (of_int 30)])])]).
  - reflexivity.
  - intros e w [<-|[]] [<-|[<-|[]]]; reflexivity.
Defined.

(** X8.  Every machine type on which [vhf_result] applies the dRn gate is
    one that [parse] hands to the QuantStudio parser and for which
    [summarize] keeps each reporter's dRn and Cq confidence columns; the
    converse fails, a type such as "QuantStudio 7" being parsed as a
    QuantStudio and classified without the gate. *)
Theorem gated_machines_keep_dRn :
  (forall machine_type division fluor first_loop,
     is_quantstudio machine_type = true ->
     parse_dispatch machine_type = Ok ParseQs /\
     In (fluor ++ " dRn")%string
        (summarize_columns machine_type division fluor first_loop) /\
     In (fluor ++ " CT")%string
        (summarize_columns machine_type division fluor first_loop)) /\
  (parse_dispatch "QuantStudio 7" = Ok ParseQs /\
   is_quantstudio "QuantStudio 7" = false).
Proof.
  split; [|split; reflexivity].
  intros machine_type division fluor first_loop H.
  unfold is_quantstudio in H. apply orb_true_iff in H.
  assert (E : machine_type = "QuantStudio 3" \/ machine_type = "QuantStudio 5")
    by (destruct H as [H|H]; apply String.eqb_eq in H; auto).
  assert (Hd : parse_dispatch machine_type = Ok ParseQs)
    by (destruct E as [->| ->]; reflexivity).
  assert (Hc : contains "QuantStudio" machine_type = true)
    by (destruct E as [->| ->]; reflexivity).
  split; [exact Hd|].
  unfold summarize_columns. rewrite Hc.
  destruct (String.eqb division "hiv"), first_loop; cbn; auto 10.
Qed.

Lemma gated_machines_keep_dRn_witness :
  parse_dispatch "QuantStudio 5" = Ok ParseQs /\
  In "FAM dRn" (summarize_columns "QuantStudio 5" "vhf" "FAM" false) /\
  In "FAM CT" (summarize_columns "QuantStudio 5" "vhf" "FAM" false).
Proof.
  apply (proj1 gated_machines_keep_dRn "QuantStudio 5" "vhf" "FAM" false).
  reflexivity.
Defined.

(** ** The two analyses as a whole *)

Lemma mapM_ok_all {A B : Type} (f : A -> result B) (l : list A) :
  (forall a, In a l -> exists b, f a = Ok b) ->
  exists bs, mapM f l = Ok bs.
Proof.
  induction l as [|a l IH]; intros H; [now exists []|].
  destruct (H a (or_introl eq_refl)) as [b Hb].
  destruct IH as [bs Hbs]; [intros x Hx; apply H; now right|].
  exists (b :: bs). cbn [mapM]. now rewrite Hb, Hbs.
Qed.

Lemma get_in {A : Type} (cs : list (string * A)) (k : string) (v : A) :
  get cs k = Ok v -> In (k, v) cs.
Proof.
  induction cs as [|[l w] cs IH]; [discriminate|].
  cbn [get]. destruct (String.eqb_spec l k) as [->|_].
  - intros H. injection H as <-. now left.
  - intros H. right. now apply IH.
Qed.

Lemma get_of_key {A : Type} (cs : list (string * A)) (k : string) :
  In k (map fst cs) -> exists v, get cs k = Ok v.
Proof.
  induction cs as [|[l w] cs IH]; intros H; [destruct H|].
  cbn [get]. destruct (String.eqb l k) eqn:E; [now exists w|].
  destruct H as [H|H]; [|now apply IH].
  cbn [fst] in H. subst l. now rewrite String.eqb_refl in E.
Qed.

(** X9.  [vhf_analysis] adds the column "Result", one call per row, the call
    of [vhf_result] on that row, and leaves the number of rows and every
    other column as they were. *)
Theorem vhf_analysis_frame (fdiv : Q -> Q -> number)
  (self : DataAnalyzer) (t' : DataFrame) :
  vhf_analysis fdiv self = Ok t' ->
  nrows t' = nrows (df self) /\
  (forall c, c <> "Result" -> get (cols t') c = get (cols (df self)) c) /\
  exists calls,
    get (cols t') "Result" = Ok (map Str calls) /\
    length calls = nrows (df self) /\
    forall i, i < nrows (df self) ->
      vhf_result fdiv (object_frame (df self)) self (row (df self) i) = Ok (nth i calls EmptyString).
Proof.
  unfold vhf_analysis. intros H. inv_bind H. injection H as <-.
  split; [apply nrows_set_col|]. split.
  - intros c Hc. now apply get_set_col_other.
  - exists a. split; [apply get_set_col_same|].
    unfold iterrows in E. split.
    + apply mapM_length in E. now rewrite length_map, length_seq in E.
    + intros i Hi. rewrite mapM_map in E.
      exact (mapM_seq_inv _ _ 0 a E i EmptyString Hi).
Qed.

Lemma vhf_analysis_frame_witness :
  nrows (mkDataFrame 1
           [("Well", [Str "A1"]); ("Cy5 CT", [Num (of_int 20)]);
            ("FAM CT", [Num (of_int 25)]); ("HEX CT", [Num (of_int 40)]);
            ("Result", [Str "Ebola Positive"])]) = 1 /\
  (forall c, c <> "Result" ->
     get [("Well", [Str "A1"]); ("Cy5 CT", [Num (of_int 20)]);
          ("FAM CT", [Num (of_int 25)]); ("HEX CT", [Num (of_int 40)]);
          ("Result", [Str "Ebola Positive"])] c
     = get [("Well", [Str "A1"]); ("Cy5 CT", [Num (of_int 20)]);
            ("FAM CT", [Num (of_int 25)]); ("HEX CT", [Num (of_int 40)])] c) /\
  exists calls,
    get [("Well", [Str "A1"]); ("Cy5 CT", [Num (of_int 20)]);
         ("FAM CT", [Num (of_int 25)]); ("HEX CT", [Num (of_int 40)]);
         ("Result", [Str "Ebola Positive"])] "Result" = Ok (map Str calls) /\
    length calls = 1 /\
    forall i, i < 1 ->
      vhf_result exact_div true
        (mkAnalyzer
           (mkDataFrame 1
              [("Well", [Str "A1"]); ("Cy5 CT", [Num (of_int 20)]);
               ("FAM CT", [Num (of_int 25)]); ("HEX CT", [Num (of_int 40)])])
           "Mic" [("Cy5", "Internal Control"); ("FAM", "Ebola"); ("HEX", "Marburg")]
           ["Cy5"; "FAM"; "HEX"] "Cy5" [] (of_int 35) (of_int 30)
           (Fin (5 # 100)) (Fin (5 # 100)) (Fin (1 # 10)))
        (row (mkDataFrame 1
                [("Well", [Str "A1"]); ("Cy5 CT", [Num (of_int 20)]);
                 ("FAM CT", [Num (of_int 25)]); ("HEX CT", [Num (of_int 40)])]) i)
      = Ok (nth i calls EmptyString).
Proof.
  apply (vhf_analysis_frame exact_div
           (mkAnalyzer
              (mkDataFrame 1
                 [("Well", [Str "A1"]); ("Cy5 CT", [Num (of_int 20)]);
                  ("FAM CT", [Num (of_int 25)]); ("HEX CT", [Num (of_int 40)])])
              "Mic" [("Cy5", "Internal Control"); ("FAM", "Ebola"); ("HEX", "Marburg")]
              ["Cy5"; "FAM"; "HEX"] "Cy5" [] (of_int 35) (of_int 30)
              (Fin (5 # 100)) (Fin (5 # 100)) (Fin (1 # 10)))
           (mkDataFrame 1
              [("Well", [Str "A1"]); ("Cy5 CT", [Num (of_int 20)]);
               ("FAM CT", [Num (of_int 25)]); ("HEX CT", [Num (of_int 40)]);
               ("Result", [Str "Ebola Positive"])])).
  reflexivity.
Defined.

Lemma init_reporters_keys (config : list (string * AssayConfig)) (assay : string)
  (dict : list (string * string)) (ic0 : string) (keys : list string) :
  init_reporters config assay = Ok (dict, ic0, keys) ->
  keys = map fst dict.
Proof.
  unfold init_reporters. intros H. inv_bind H. now injection H as <- <- <-.
Qed.

Lemma cell_lt_float (c : cell) (t : number) :
  float_cell c -> exists b, cell_lt c t = Ok b.
Proof. destruct c; cbn; intros; try contradiction; eexists; reflexivity. Qed.

(** X10.  With the reporters set up by [init_reporters], on a machine
    without the dRn gate, [vhf_result] returns a call for every row whose Cq
    cells (of the non-control reporters and of the internal control) are
    numbers or NaN, neither [None] nor text: it is "Negative", "Invalid
    Result" or the display name of a configured reporter with
    " Positive". *)
Theorem vhf_result_returns (fdiv : Q -> Q -> number) (boxed : bool)
  (self : DataAnalyzer) (row : Series)
  (config : list (string * AssayConfig)) (assay : string) :
  init_reporters config assay = Ok (reporter_dict self, ic self, reporter_list self) ->
  is_quantstudio (machine_type self) = false ->
  (forall r, In r (tl (reporter_list self)) ->
             exists c, get row (r ++ " CT") = Ok c /\ float_cell c) ->
  (exists c, get row (ic self ++ " CT") = Ok c /\ float_cell c) ->
  exists s,
    vhf_result fdiv boxed self row = Ok s /\
    (s = "Negative" \/ s = "Invalid Result" \/
     exists r name,
       In (r, name) (reporter_dict self) /\ s = (name ++ " Positive")%string).
Proof.
  intros Hinit Hqs Hct (cic & Hic & Nic).
  apply init_reporters_keys in Hinit.
  destruct (mapM_ok_all (vhf_entry fdiv boxed self row) (tl (reporter_list self)))
    as [vs Hvs].
  { intros r Hr. destruct (Hct r Hr) as (c & Hc & Nc).
    unfold vhf_entry. rewrite Hqs, Hc. cbn [bind].
    destruct c as [| |n|s]; [|contradiction| |contradiction]; cbn [below bind].
    - eexists. reflexivity.
    - destruct (num_ltb n (pos_cutoff self)); eexists; reflexivity. }
  assert (Hv : vhf_cq_vals fdiv boxed self row = Ok (of_int 98 :: vs))
    by (rewrite vhf_cq_vals_eq, Hvs; reflexivity).
  destruct (vhf_fluor_min_first (of_int 98 :: vs) (of_int 98))
    as (k & Hk & Hlen & _); [discriminate|].
  rewrite (vhf_result_of_min fdiv boxed self row _ k Hv Hk).
  destruct k as [|j]; cbn [Nat.eqb].
  - unfold ic_call. rewrite Hic. cbn [bind].
    destruct (cell_lt_float cic (pos_cutoff self) Nic) as [b Hb].
    rewrite Hb. cbn [bind]. destruct b; eexists; split; eauto.
  - apply mapM_length in Hvs. cbn [length] in Hlen.
    unfold positive_call, py_nth.
    destruct (reporter_list self) as [|r0 rl] eqn:Hrl; [cbn in Hvs; lia|].
    cbn [tl] in Hvs. cbn [nth_error].
    destruct (nth_error rl j) as [r|] eqn:Hr;
      [|apply nth_error_None in Hr; lia].
    cbn [bind].
    assert (Hin : In r (map fst (reporter_dict self))).
    { rewrite <- Hinit. right. now apply (nth_error_In _ j). }
    destruct (get_of_key _ _ Hin) as [name Hname].
    rewrite Hname. cbn [bind]. eexists. split; [reflexivity|].
    right; right. exists r, name. split; [now apply get_in|reflexivity].
Qed.

Lemma vhf_result_returns_witness :
  exists s,
    vhf_result exact_div true (vhf_example_analyzer "Mic" (of_int 30))
               vhf_example_row = Ok s /\
    (s = "Negative" \/ s = "Invalid Result" \/
     exists r name,
       In (r, name) [("Cy5", "Internal Control"); ("FAM", "Ebola"); ("HEX", "Marburg")] /\
       s = (name ++ " Positive")%string).
Proof.
  apply (vhf_result_returns exact_div true (vhf_example_analyzer "Mic" (of_int 30))
           vhf_example_row
           [("Ebola Marburg",
             mkAssayConfig
               (Some [("Cy5", "Internal Control"); ("FAM", "Ebola"); ("HEX", "Marburg")])
               (Some "Cy5"))]
           "Ebola Marburg").
  - reflexivity.
  - reflexivity.
  - intros r [<-|[<-|[]]]; eexists; (split; [reflexivity|exact I]).
  - eexists; split; [reflexivity|exact I].
Defined.

Lemma foldM_last {S A : Type} (f : S -> A -> result S) (l : list A) :
  l <> [] ->
  forall s s', foldM f l s = Ok s' -> exists s0 a, f s0 a = Ok s'.
Proof.
  induction l as [|a l IH]; intros Hne s s' H; [contradiction|].
  cbn [foldM] in H. inv_bind H. destruct l as [|b l].
  - cbn [foldM] in H. injection H as <-. now exists s, a.
  - apply (IH ltac:(discriminate) _ _ H).
Qed.

Lemma in_set_col (t : DataFrame) (c0 : string) (vs0 : list cell)
  (c : string) (vs : list cell) :
  In (c, vs) (cols (set_col t c0 vs0)) -> vs = vs0 \/ In (c, vs) (cols t).
Proof.
  unfold set_col. destruct (mem c0 (labels t)); cbn [cols]; intros H.
  - apply in_map_iff in H. destruct H as ([l w] & E & Hin). cbn [fst] in E.
    destruct (String.eqb l c0); injection E as <- <-; [now left|now right].
  - apply in_app_or in H. destruct H as [H|[H|[]]]; [now right|].
    injection H as <- <-. now left.
Qed.

(** X11.  After [hiv_analysis] has worked on at least one non-control
    reporter, the table has no missing cell left in any column. *)
Theorem hiv_analysis_no_missing (fdiv : Q -> Q -> number) (self : DataAnalyzer)
  (t' : DataFrame) (c : string) (vs : list cell) (i : nat) :
  tl (reporter_list self) <> [] ->
  hiv_analysis fdiv self = Ok t' ->
  In (c, vs) (cols t') ->
  i < nrows t' ->
  present (nth i vs Missing) = true.
Proof.
  unfold hiv_analysis. intros Hne H Hin Hi.
  destruct (foldM_last _ _ Hne _ _ H) as (t0 & fluor & Hstep).
  destruct (hiv_step_inv _ _ _ _ _ Hstep)
    as (name & xs & ys & qs & calls & _ & _ & _ & _ & Hcalls & ->).
  rewrite nrows_set_col, nrows_with_pct in Hi.
  apply in_set_col in Hin. destruct Hin as [->|Hin].
  - apply mapM_length in Hcalls. unfold iterrows in Hcalls.
    rewrite length_map, length_seq, nrows_with_pct in Hcalls.
    rewrite (nth_indep _ Missing (Str EmptyString))
      by (rewrite length_map; lia).
    now rewrite map_nth.
  - unfold with_pct, fillna in Hin. cbn [cols] in Hin.
    apply in_map_iff in Hin. destruct Hin as ([l w] & E & _).
    injection E as <- <-. rewrite nrows_set_col.
    rewrite nth_map_seq by exact Hi.
    cbn [snd]. destruct (nth i w Missing); reflexivity.
Qed.

Lemma hiv_analysis_no_missing_witness :
  present (nth 1 [Str "s1"; Num (of_int 0); Str "s3"] Missing) = true.
Proof.
  apply (hiv_analysis_no_missing exact_div (hiv_example_analyzer hiv_example_table)
           (mkDataFrame 3
              [("Well", [Num (of_int 1); Num (of_int 2); Num (of_int 3)]);
               ("Sample Name", [Str "s1"; Num (of_int 0); Str "s3"]);
               ("VQ Quantity", [Num (of_int 0); Num (of_int 0); Num (of_int 1000)]);
               ("FAM Quantity", [Num (of_int 100); Num (of_int 0); Num (of_int 70)]);
               ("K103N DRM Percentage",
                [Num PInf; Num (of_int 0); Num (Fin (70 # 1000))]);
               ("K103N Call", [Str "Negative"; Str "Negative"; Str "Indeterminate"])])
           "Sample Name" [Str "s1"; Num (of_int 0); Str "s3"] 1).
  - discriminate.
  - reflexivity.
  - right; left; reflexivity.
  - cbn; lia.
Defined.

(** ** Selecting files, chunks and tabs *)

Lemma chunks_from_spec (csv_lines : list string) :
  forall cur,
    Forall (fun l => line_blank l = false) cur ->
    Forall (fun chunk => chunk <> [] /\ Forall (fun l => line_blank l = false) chunk)
           (chunks_from cur csv_lines) /\
    concat (chunks_from cur csv_lines)
      = cur ++ filter (fun l => negb (line_blank l)) csv_lines.
Proof.
  induction csv_lines as [|line rest IH]; intros cur Hcur; cbn [chunks_from filter].
  - destruct cur as [|c cur'].
    + split; [constructor|reflexivity].
    + split; [constructor; [split; [discriminate|exact Hcur]|constructor]|].
      cbn [concat]. now rewrite !app_nil_r.
  - destruct (line_blank line) eqn:Hb; cbn [negb].
    + destruct (IH [] (Forall_nil _)) as [H1 H2]. destruct cur as [|c cur'].
      * split; [exact H1|exact H2].
      * split; [constructor; [split; [discriminate|exact Hcur]|exact H1]|].
        cbn [concat]. rewrite H2. reflexivity.
    + destruct (IH (cur ++ [line])) as [H1 H2].
      { apply Forall_app. split; [exact Hcur|]. now constructor. }
      split; [exact H1|]. rewrite H2. now rewrite <- app_assoc.
Qed.

(** X12.  The chunks of a text export are the runs of lines between blank
    lines: every chunk has a first line (its title), no chunk holds a blank
    line, and the chunks put end to end are the non-blank lines of the file
    in order. *)
Theorem chunks_are_runs (csv_lines : list string) :
  (forall chunk, In chunk (chunks csv_lines) -> exists title, py_nth chunk 0 = Ok title) /\
  (forall chunk line,
     In chunk (chunks csv_lines) -> In line chunk -> line_blank line = false) /\
  concat (chunks csv_lines) = filter (fun l => negb (line_blank l)) csv_lines.
Proof.
  destruct (chunks_from_spec csv_lines [] (Forall_nil _)) as [H1 H2].
  fold (chunks csv_lines) in H1, H2. rewrite Forall_forall in H1.
  split; [|split; [|exact H2]].
  - intros chunk Hc. destruct (H1 chunk Hc) as [Hne _].
    destruct chunk as [|title tail]; [contradiction|]. now exists title.
  - intros chunk line Hc Hl. destruct (H1 chunk Hc) as [_ Hall].
    rewrite Forall_forall in Hall. now apply Hall.
Qed.

Lemma chunks_are_runs_witness :
  (exists title,
     py_nth ["Start Worksheet - Samples"; "Well,Type"] 0 = Ok title) /\
  line_blank "Well,Type" = false.
Proof.
  split.
  - apply (proj1 (chunks_are_runs
                    ["Run Info"; " "; "Start Worksheet - Samples"; "Well,Type"; EmptyString])).
    right; left; reflexivity.
  - apply (proj1 (proj2 (chunks_are_runs
                    ["Run Info"; " "; "Start Worksheet - Samples"; "Well,Type"; EmptyString]))
             ["Start Worksheet - Samples"; "Well,Type"]).
    + right; left; reflexivity.
    + right; left; reflexivity.
Defined.

Lemma mic_scan_finds (division fluor display : string) (chs : list (list string)) :
  (forall chunk, In chunk chs -> chunk <> []) ->
  forall info,
    exists info',
      mic_scan division fluor display chs info
      = Ok (find (chunk_matches fluor display) chs, info').
Proof.
  induction chs as [|chunk rest IH]; intros Hne info; cbn [mic_scan find].
  - now exists info.
  - destruct chunk as [|title tail]; [now contradiction (Hne [] (or_introl eq_refl))|].
    cbn [py_nth nth_error bind chunk_matches].
    destruct (mic_title_matches fluor display title); [now exists info|].
    destruct (String.eqb division "hiv" && contains "Start Worksheet - Samples" title);
      apply IH; intros c Hc; apply Hne; now right.
Qed.

Lemma mic_loop_chosen (division : string) (chs : list (list string))
  (dict : list (string * string)) :
  (forall chunk, In chunk chs -> chunk <> []) ->
  forall st,
    exists st',
      foldM (mic_fluor_step division chs) dict st = Ok st' /\
      results_csvs st' = results_csvs st ++ chosen_chunks chs dict /\
      tabs_to_use st' = tabs_to_use st ++ chosen_titles chs dict.
Proof.
  intros Hne. induction dict as [|e dict IH]; intros st.
  - exists st. cbn. now rewrite !app_nil_r.
  - cbn [foldM]. unfold mic_fluor_step at 1.
    destruct (mic_scan_finds division (fst e) (snd e) chs Hne (info_csv st))
      as [info' Hscan].
    rewrite Hscan. cbn [bind fst snd].
    unfold chosen_chunks, chosen_titles. cbn [flat_map]. unfold mic_chosen at 1 3.
    destruct (find (chunk_matches (fst e) (snd e)) chs) as [chunk|] eqn:F.
    + apply find_some in F. destruct F as [Hin Hm].
      destruct chunk as [|title tail]; [cbn in Hm; discriminate Hm|].
      cbn [py_nth nth_error bind].
      destruct (IH (mkMic (results_csvs st ++ [(fst e, title :: tail)])
                          (tabs_to_use st ++ [(fst e, title)]) info'))
        as (st' & H1 & H2 & H3).
      exists st'. split; [exact H1|]. cbn [results_csvs tabs_to_use] in H2, H3.
      rewrite H2, H3, <- !app_assoc. split; reflexivity.
    + destruct (IH (mkMic (results_csvs st) (tabs_to_use st) info'))
        as (st' & H1 & H2 & H3).
      exists st'. split; [exact H1|]. cbn [results_csvs tabs_to_use] in H2, H3.
      rewrite H2, H3. split; reflexivity.
Qed.

Lemma length_insert_sorted (s : string) (l : list string) :
  length (insert_sorted s l) = S (length l).
Proof.
  induction l as [|t l IH]; [reflexivity|].
  cbn [insert_sorted]. destruct (String.leb s t); cbn [length]; [reflexivity|].
  now rewrite IH.
Qed.

Lemma length_sorted (l : list string) : length (sorted l) = length l.
Proof.
  induction l as [|s l IH]; [reflexivity|].
  unfold sorted in *. cbn [fold_right]. now rewrite length_insert_sorted, IH.
Qed.

Lemma flat_map_all {A B C : Type} (f : A -> option B) (g : A -> B -> C) (l : list A) :
  length (flat_map (fun a => match f a with
                             | Some b => [g a b]
                             | None => []
                             end) l) = length l ->
  forall a, In a l -> exists b, f a = Some b.
Proof.
  induction l as [|x l IH]; intros Hlen a Ha; [destruct Ha|].
  cbn [flat_map] in Hlen. rewrite length_app in Hlen. cbn [length] in Hlen.
  assert (Hle : length (flat_map (fun a => match f a with
                                           | Some b => [g a b]
                                           | None => []
                                           end) l) <= length l).
  { clear. induction l as [|y l IH]; [cbn; lia|].
    cbn [flat_map]. rewrite length_app. cbn [length].
    destruct (f y); cbn [length]; lia. }
  destruct (f x) as [b|] eqn:E; cbn [length] in Hlen; [|lia].
  destruct Ha as [<-|Ha]; [now exists b|].
  apply IH; [lia|exact Ha].
Qed.

(** X13.  For a text export the choice of chunks never fails on the title
    of a chunk, and it passes its check only when every configured reporter
    has a chunk: the first chunk of the file whose title has the worksheet
    marker, "Result" and the reporter's key or display name.  When some
    reporter has no such chunk the run ends in [SystemExit]. *)
Theorem mic_select_chunks_complete (division : string)
  (reporter_dict : list (string * string)) (csv_lines : list string) :
  (forall st,
     mic_select_chunks division reporter_dict csv_lines = Ok st ->
     forall entry, In entry reporter_dict ->
       exists title tail,
         mic_chosen (chunks csv_lines) entry = Some (title :: tail) /\
         In (title :: tail) (chunks csv_lines) /\
         mic_title_matches (fst entry) (snd entry) title = true /\
         In (fst entry, title :: tail) (results_csvs st) /\
         In (fst entry, title) (tabs_to_use st)) /\
  ((exists entry, In entry reporter_dict /\ mic_chosen (chunks csv_lines) entry = None) ->
   mic_select_chunks division reporter_dict csv_lines = Raise SystemExit).
Proof.
  assert (Hne : forall chunk, In chunk (chunks csv_lines) -> chunk <> []).
  { pose proof (proj1 (chunks_from_spec csv_lines [] (Forall_nil _))) as Hall.
    fold (chunks csv_lines) in Hall. rewrite Forall_forall in Hall.
    intros chunk Hc. exact (proj1 (Hall chunk Hc)). }
  destruct (mic_loop_chosen division (chunks csv_lines) reporter_dict Hne (mkMic [] [] None))
    as (st0 & Hloop & Hres & Htabs).
  cbn [results_csvs tabs_to_use app] in Hres, Htabs.
  assert (Hkeys : map fst (tabs_to_use st0)
                  = flat_map (fun e => match mic_chosen (chunks csv_lines) e with
                                       | Some chunk => [fst e]
                                       | None => []
                                       end) reporter_dict).
  { rewrite Htabs. unfold chosen_titles. clear -Hne.
    induction reporter_dict as [|e dict IH]; [reflexivity|].
    cbn [flat_map]. rewrite map_app, IH. f_equal.
    destruct (mic_chosen (chunks csv_lines) e) as [chunk|] eqn:F; [|reflexivity].
    unfold mic_chosen in F. apply find_some in F. destruct F as [Hin _].
    destruct chunk as [|title tail]; [now contradiction (Hne [] Hin)|reflexivity]. }
  unfold mic_select_chunks. rewrite Hloop. cbn [bind]. split.
  - intros st H.
    destruct (list_eq_dec string_dec _ _) as [Heq|]; [|discriminate].
    injection H as <-.
    apply (f_equal (@length string)) in Heq.
    rewrite !length_sorted, Hkeys, length_map in Heq.
    intros entry Hentry.
    destruct (flat_map_all (mic_chosen (chunks csv_lines)) (fun e _ => fst e)
                reporter_dict Heq entry Hentry) as [chunk Hchunk].
    pose proof Hchunk as F. unfold mic_chosen in F. apply find_some in F.
    destruct F as [Hin Hm].
    destruct chunk as [|title tail]; [cbn in Hm; discriminate Hm|].
    exists title, tail. split; [exact Hchunk|]. split; [exact Hin|].
    split; [exact Hm|]. split.
    + rewrite Hres. unfold chosen_chunks. apply in_flat_map.
      exists entry. split; [exact Hentry|]. rewrite Hchunk. now left.
    + rewrite Htabs. unfold chosen_titles. apply in_flat_map.
      exists entry. split; [exact Hentry|]. rewrite Hchunk. now left.
  - intros (entry & Hentry & Hnone).
    destruct (list_eq_dec string_dec _ _) as [Heq|]; [|reflexivity].
    exfalso.
    apply (f_equal (@length string)) in Heq.
    rewrite !length_sorted, Hkeys, length_map in Heq.
    destruct (flat_map_all (mic_chosen (chunks csv_lines)) (fun e _ => fst e)
                reporter_dict Heq entry Hentry) as [chunk Hchunk].
    congruence.
Qed.

Lemma mic_select_chunks_complete_witness :
  (exists title tail,
     mic_chosen
       (chunks ["Start Worksheet - Analysis - Cycling A.Green Result"; "Well,Cq"; "1,20";
                EmptyString; "Start Worksheet - Samples"; "Well,Type"])
       ("Green", "Ebola") = Some (title :: tail) /\
     In (title :: tail)
        (chunks ["Start Worksheet - Analysis - Cycling A.Green Result"; "Well,Cq"; "1,20";
                 EmptyString; "Start Worksheet - Samples"; "Well,Type"]) /\
     mic_title_matches "Green" "Ebola" title = true /\
     In ("Green", title :: tail)
        [("Green", ["Start Worksheet - Analysis - Cycling A.Green Result"; "Well,Cq"; "1,20"])] /\
     In ("Green", title)
        [("Green", "Start Worksheet - Analysis - Cycling A.Green Result")]) /\
  mic_select_chunks "vhf" [("Green", "Ebola"); ("Yellow", "Internal Control")]
    ["Start Worksheet - Analysis - Cycling A.Green Result"; "Well,Cq"; "1,20"]
  = Raise SystemExit.
Proof.
  split.
  - apply (proj1 (mic_select_chunks_complete "vhf" [("Green", "Ebola")]
                    ["Start Worksheet - Analysis - Cycling A.Green Result"; "Well,Cq";
                     "1,20"; EmptyString; "Start Worksheet - Samples"; "Well,Type"])
             (mkMic
                [("Green",
                  ["Start Worksheet - Analysis - Cycling A.Green Result"; "Well,Cq"; "1,20"])]
                [("Green", "Start Worksheet - Analysis - Cycling A.Green Result")]
                None)
             eq_refl ("Green", "Ebola")).
    left; reflexivity.
  - apply (proj2 (mic_select_chunks_complete "vhf"
                    [("Green", "Ebola"); ("Yellow", "Internal Control")]
                    ["Start Worksheet - Analysis - Cycling A.Green Result"; "Well,Cq";
                     "1,20"])).
    exists ("Yellow", "Internal Control"). split; [right; left; reflexivity|reflexivity].
Defined.

Lemma mic_tabs_chosen (sheetnames : list string) (dict : list (string * string)) :
  forall tabs,
    fold_left (mic_tab_step sheetnames) dict tabs
    = tabs ++ flat_map (fun e => match find (mic_tab_matches (snd e)) sheetnames with
                                 | Some tab => [(fst e, tab)]
                                 | None => []
                                 end) dict.
Proof.
  induction dict as [|e dict IH]; intros tabs; cbn [fold_left flat_map].
  - now rewrite app_nil_r.
  - rewrite IH. unfold mic_tab_step.
    destruct (find (mic_tab_matches (snd e)) sheetnames);
      [now rewrite <- app_assoc|reflexivity].
Qed.

(** X14.  For a spreadsheet the choice of tabs passes its check only when
    every configured reporter has a tab: the first sheet whose name has the
    reporter's display name and "Result" and has not "Absolute".  When some
    reporter has no such sheet the run ends in [SystemExit]. *)
Theorem mic_select_tabs_complete (reporter_dict : list (string * string))
  (sheetnames : list string) :
  (forall tabs,
     mic_select_tabs reporter_dict sheetnames = Ok tabs ->
     forall entry, In entry reporter_dict ->
       exists tab,
         find (mic_tab_matches (snd entry)) sheetnames = Some tab /\
         In tab sheetnames /\
         contains (snd entry) tab = true /\
         contains "Result" tab = true /\
         contains "Absolute" tab = false /\
         In (fst entry, tab) tabs) /\
  ((exists entry, In entry reporter_dict /\
                  find (mic_tab_matches (snd entry)) sheetnames = None) ->
   mic_select_tabs reporter_dict sheetnames = Raise SystemExit).
Proof.
  unfold mic_select_tabs. rewrite mic_tabs_chosen. cbn [app].
  set (tabs0 := flat_map _ reporter_dict).
  assert (Hkeys : length (map fst tabs0) = length reporter_dict ->
                  forall entry, In entry reporter_dict ->
                    exists tab, find (mic_tab_matches (snd entry)) sheetnames = Some tab).
  { rewrite length_map. unfold tabs0. intros Hlen.
    exact (flat_map_all (fun e => find (mic_tab_matches (snd e)) sheetnames)
             (fun e tab => (fst e, tab)) reporter_dict Hlen). }
  split.
  - intros tabs H.
    destruct (list_eq_dec string_dec _ _) as [Heq|]; [|discriminate].
    injection H as <-.
    apply (f_equal (@length string)) in Heq. rewrite !length_sorted, (length_map fst reporter_dict) in Heq.
    intros entry Hentry. destruct (Hkeys Heq entry Hentry) as [tab Htab].
    exists tab. pose proof (find_some _ _ Htab) as [Hin Hm].
    unfold mic_tab_matches in Hm.
    apply andb_true_iff in Hm. destruct Hm as [Hm Habs].
    apply andb_true_iff in Hm. destruct Hm as [Hd Hr].
    apply negb_true_iff in Habs.
    repeat split; try assumption.
    unfold tabs0. apply in_flat_map. exists entry. split; [exact Hentry|].
    rewrite Htab. now left.
  - intros (entry & Hentry & Hnone).
    destruct (list_eq_dec string_dec _ _) as [Heq|]; [|reflexivity].
    exfalso.
    apply (f_equal (@length string)) in Heq. rewrite !length_sorted, (length_map fst reporter_dict) in Heq.
    destruct (Hkeys Heq entry Hentry) as [tab Htab]. congruence.
Qed.

Lemma mic_select_tabs_complete_witness :
  (exists tab,
     find (mic_tab_matches "Ebola")
          ["General Information"; "Ebola Absolute Result"; "Cycling Ebola Result"]
       = Some tab /\
     In tab ["General Information"; "Ebola Absolute Result"; "Cycling Ebola Result"] /\
     contains "Ebola" tab = true /\
     contains "Result" tab = true /\
     contains "Absolute" tab = false /\
     In ("Green", tab) [("Green", "Cycling Ebola Result")]) /\
  mic_select_tabs [("Green", "Ebola"); ("Yellow", "Internal Control")]
    ["General Information"; "Ebola Absolute Result"; "Cycling Ebola Result"]
  = Raise SystemExit.
Proof.
  split.
  - apply (proj1 (mic_select_tabs_complete [("Green", "Ebola")]
                    ["General Information"; "Ebola Absolute Result"; "Cycling Ebola Result"])
             [("Green", "Cycling Ebola Result")] eq_refl ("Green", "Ebola")).
    left; reflexivity.
  - apply (proj2 (mic_select_tabs_complete
                    [("Green", "Ebola"); ("Yellow", "Internal Control")]
                    ["General Information"; "Ebola Absolute Result"; "Cycling Ebola Result"])).
    exists ("Yellow", "Internal Control"). split; [right; left; reflexivity|reflexivity].
Defined.

(** X15.  A selection of several files that [select_file] returns has
    exactly the expected number of paths, and a single selection it returns
    is a non-empty path; closing the several-files dialog without a choice
    ends in [IndexError], before the count is looked at, while closing the
    one-file dialog ends in [SystemExit]. *)
Theorem select_file_counts (splitext : string -> string)
  (ask_many : list string) (ask_one : string) (num_files : nat) :
  (forall selected ext,
     select_file splitext ask_many ask_one num_files = Ok (selected, ext) ->
     (1 < num_files /\ selected = ManyFiles ask_many /\ length ask_many = num_files) \/
     (num_files <= 1 /\ selected = OneFile ask_one /\ is_empty ask_one = false)) /\
  (1 < num_files ->
   select_file splitext [] ask_one num_files = Raise IndexError) /\
  (num_files <= 1 ->
   select_file splitext ask_many EmptyString num_files = Raise SystemExit).
Proof.
  unfold select_file. split; [|split].
  - intros selected ext H. destruct (Nat.ltb_spec 1 num_files) as [Hn|Hn].
    + left. inv_bind H.
      destruct (Nat.eqb_spec (length ask_many) num_files) as [Hlen|]; [|discriminate].
      cbn [negb] in H. destruct ask_many; [discriminate|].
      injection H as <- _. repeat split; assumption.
    + right. destruct (is_empty ask_one) eqn:E; [discriminate|].
      injection H as <- _. split; [lia|]. split; reflexivity.
  - intros Hn. destruct (Nat.ltb_spec 1 num_files); [reflexivity|lia].
  - intros Hn. destruct (Nat.ltb_spec 1 num_files); [lia|reflexivity].
Qed.

Lemma select_file_counts_witness :
  ((1 < 2 /\ ManyFiles ["a Green.csv"; "a Yellow.csv"] = ManyFiles ["a Green.csv"; "a Yellow.csv"]
    /\ length ["a Green.csv"; "a Yellow.csv"] = 2) \/
   (2 <= 1 /\ ManyFiles ["a Green.csv"; "a Yellow.csv"] = OneFile EmptyString
    /\ is_empty EmptyString = false)) /\
  select_file (fun _ => ".csv") [] EmptyString 2 = Raise IndexError /\
  select_file (fun _ => ".csv") [] EmptyString 1 = Raise SystemExit.
Proof.
  split; [|split].
  - apply (proj1 (select_file_counts (fun _ => ".csv") ["a Green.csv"; "a Yellow.csv"]
                    EmptyString 2)
             (ManyFiles ["a Green.csv"; "a Yellow.csv"]) ".csv").
    reflexivity.
  - apply (proj1 (proj2 (select_file_counts (fun _ => ".csv") [] EmptyString 2))). lia.
  - apply (proj2 (proj2 (select_file_counts (fun _ => ".csv") [] EmptyString 1))). lia.
Defined.

Lemma prefix_length (a b : string) :
  prefix a b = true -> String.length a <= String.length b.
Proof.
  revert b. induction a as [|c a IH]; intros b H; [cbn; lia|].
  destruct b as [|d b]; [discriminate|].
  cbn [prefix] in H. destruct (ascii_dec c d); [|discriminate].
  cbn [String.length]. apply IH in H. lia.
Qed.

Lemma contains_length (needle hay : string) :
  contains needle hay = true -> String.length needle <= String.length hay.
Proof.
  induction hay as [|c hay IH]; cbn [contains].
  - apply prefix_length.
  - intros H. apply orb_true_iff in H. destruct H as [H|H].
    + now apply prefix_length.
    + apply IH in H. cbn [String.length]. lia.
Qed.

Lemma chars_length (s x : string) : In x (chars s) -> String.length x = 1.
Proof.
  induction s as [|c s IH]; [intros []|].
  cbn [chars]. intros [<-|H]; [reflexivity|now apply IH].
Qed.

Lemma file_matches_char (dict : list (string * string)) (f : string) :
  String.length f = 1 -> flat_map (file_matches f) dict = [].
Proof.
  intros Hf.
  assert (Hno : forall k, contains (k ++ ".csv") f = false).
  { intros k. destruct (contains (k ++ ".csv") f) eqn:E; [|reflexivity].
    apply contains_length in E. rewrite length_append in E. cbn in E. lia. }
  induction dict as [|e dict IH]; [reflexivity|].
  cbn [flat_map]. unfold file_matches at 1. now rewrite !Hno, IH.
Qed.

Lemma matched_files_chars (dict : list (string * string)) (path : string) :
  matched_files dict (chars path) = [].
Proof.
  change (flat_map (fun f => flat_map (file_matches f) dict) (chars path) = []).
  assert (H : forall files, (forall x, In x files -> String.length x = 1) ->
    flat_map (fun f => flat_map (file_matches f) dict) files = []).
  { induction files as [|f files IH]; intros Hlen; [reflexivity|].
    cbn [flat_map]. rewrite IH by (intros x Hx; apply Hlen; now right).
    rewrite file_matches_char by (apply Hlen; now left). reflexivity. }
  apply H. intros x. apply chars_length.
Qed.

(** X16.  With fewer than two configured reporters the Rotor-Gene parser
    never returns a table: the one-file dialog hands back a single path,
    the loop then runs over its characters, none of which can hold a
    reporter's file token, and the run fails. *)
Theorem parse_rgq_needs_two_reporters (splitext : string -> string)
  (ask_many : list string) (ask_one : string)
  (read_csv : string -> result DataFrame)
  (csv_rows : string -> result (list (list string)))
  (cq_cutoff : number) (reporter_dict : list (string * string)) :
  length reporter_dict <= 1 ->
  exists e,
    parse_rgq_selected splitext ask_many ask_one read_csv csv_rows cq_cutoff reporter_dict
    = Raise e.
Proof.
  intros Hlen. unfold parse_rgq_selected, select_file.
  destruct (Nat.ltb_spec 1 (length reporter_dict)); [lia|].
  destruct ask_one as [|c path]; [now exists SystemExit|].
  cbn [is_empty bind fst iter_selection].
  destruct (parse_rgq read_csv csv_rows cq_cutoff reporter_dict (chars (String c path)))
    as [res|e] eqn:E; [|now exists e].
  exfalso. unfold parse_rgq in E. inv_bind E.
  destruct (list_eq_dec string_dec _ _) as [Heq|]; [|discriminate].
  rewrite (rgq_file_loop_used _ _ _ _ _ _ _ E0) in Heq.
  cbn [used_filepaths app] in Heq.
  change (flat_map (fun f => flat_map (file_matches f) reporter_dict)
                   (chars (String c path)))
    with (matched_files reporter_dict (chars (String c path))) in Heq.
  rewrite matched_files_chars in Heq.
  apply (f_equal (@length string)) in Heq. rewrite length_sorted in Heq.
  discriminate Heq.
Qed.

Lemma parse_rgq_needs_two_reporters_witness :
  exists e,
    parse_rgq_selected (fun _ => ".csv") [] "run Green.csv"
      (fun _ => Ok rgq_example_file) (fun _ => Ok []) (of_int 35) [("Green", "Ebola")]
    = Raise e.
Proof.
  apply (parse_rgq_needs_two_reporters (fun _ => ".csv") [] "run Green.csv"
           (fun _ => Ok rgq_example_file) (fun _ => Ok []) (of_int 35)
           [("Green", "Ebola")]).
  cbn; lia.
Defined.

(** ** The QuantStudio reporters *)

Lemma cell_same_refl (a : cell) : cell_same a a = true.
Proof. destruct a; cbn; [reflexivity|reflexivity|apply num_eqb_refl|apply String.eqb_refl]. Qed.

Lemma cell_same_trans (a b c : cell) :
  cell_same a b = true -> cell_same b c = true -> cell_same a c = true.
Proof.
  destruct a, b, c; cbn; try congruence.
  - apply num_eqb_trans.
  - rewrite !String.eqb_eq. congruence.
Qed.

Lemma unique_loop_mem (vs : list cell) :
  forall seen v,
    existsb (cell_same v)
      (fold_left (fun seen v => if existsb (cell_same v) seen then seen else seen ++ [v])
                 vs seen)
    = existsb (cell_same v) seen || existsb (cell_same v) vs.
Proof.
  induction vs as [|x vs IH]; intros seen v; cbn [fold_left existsb].
  - now rewrite orb_false_r.
  - rewrite IH. destruct (existsb (cell_same x) seen) eqn:E.
    + destruct (existsb (cell_same v) seen) eqn:Ev; [reflexivity|]. cbn [orb].
      destruct (cell_same v x) eqn:Evx; [|reflexivity]. cbn [orb].
      exfalso. apply existsb_exists in E. destruct E as (y & Hy & Hxy).
      apply not_true_iff_false in Ev. apply Ev. apply existsb_exists.
      exists y. split; [exact Hy|]. now apply (cell_same_trans _ x).
    + rewrite existsb_app. cbn [existsb]. rewrite orb_false_r. now rewrite orb_assoc.
Qed.

Lemma as_strings_map (vs : list cell) (names : list string) :
  as_strings vs = Some names -> vs = map Str names.
Proof.
  revert names. induction vs as [|c vs IH]; intros names H; cbn [as_strings] in H.
  - now injection H as <-.
  - destruct c as [| |n|s]; try discriminate.
    destruct (as_strings vs) as [ns|]; [|discriminate].
    injection H as <-. cbn [map]. f_equal. now apply IH.
Qed.

Lemma existsb_str (s : string) (names : list string) :
  existsb (cell_same (Str s)) (map Str names) = true <-> In s names.
Proof.
  rewrite existsb_exists. split.
  - intros (x & Hx & Heq). apply in_map_iff in Hx. destruct Hx as (t & <- & Ht).
    cbn in Heq. apply String.eqb_eq in Heq. now subst.
  - intros H. exists (Str s). split; [now apply in_map|apply cell_same_refl].
Qed.

Lemma filter_or_disjoint {A : Type} (p q : A -> bool) (l : list A) :
  (forall a, In a l -> p a = true -> q a = false) ->
  length (filter (fun a => p a || q a) l) = length (filter p l) + length (filter q l).
Proof.
  induction l as [|a l IH]; intros H; [reflexivity|].
  cbn [filter]. specialize (IH (fun x Hx => H x (or_intror Hx))).
  destruct (p a) eqn:Ep.
  - rewrite (H a (or_introl eq_refl) Ep). cbn [orb length]. lia.
  - cbn [orb]. destruct (q a); cbn [length]; lia.
Qed.

Lemma sum_of_disjoint_filters (col : nat -> cell) (idx : list nat) (keys : list string) :
  NoDup keys ->
  list_sum (map (fun f => length (filter (fun i => cell_eqb (Str f) (col i)) idx)) keys)
  = length (filter (fun i => existsb (fun f => cell_eqb (Str f) (col i)) keys) idx).
Proof.
  induction 1 as [|f keys Hnot Hnd IH]; cbn [map existsb].
  - induction idx as [|i idx IHi]; [reflexivity|exact IHi].
  - rewrite filter_or_disjoint.
    + rewrite <- IH. reflexivity.
    + intros i _ Hf. destruct (existsb _ keys) eqn:E; [|reflexivity].
      exfalso. apply existsb_exists in E. destruct E as (g & Hg & Hgi).
      destruct (col i) as [| |n|s]; try discriminate Hf.
      cbn in Hf, Hgi. apply String.eqb_eq in Hf, Hgi. subst. contradiction.
Qed.

Lemma kept_reporter_rows (fluor : string) (reporter : list cell) (n : nat) :
  length reporter = n ->
  kept (map (cell_eqb (Str fluor)) reporter) n
  = filter (fun i => cell_eqb (Str fluor) (nth i reporter Missing)) (seq 0 n).
Proof.
  intros <-. unfold kept. apply filter_ext_in. intros i Hi. apply in_seq in Hi.
  rewrite (nth_indep _ false (cell_eqb (Str fluor) Missing))
    by (rewrite length_map; lia).
  apply map_nth.
Qed.

Lemma qs_partial_nrows (division : string) (t : DataFrame) (fluor : string)
  (reporter : list cell) :
  column t "Reporter" = Ok reporter ->
  exists part,
    qs_partial division t fluor = Ok part /\
    nrows part
    = length (filter (fun i => cell_eqb (Str fluor) (nth i reporter Missing))
                     (seq 0 (nrows t))).
Proof.
  intros Hcol. unfold qs_partial. rewrite Hcol. cbn [bind].
  assert (Hlen : length reporter = nrows t).
  { unfold column in Hcol. inv_bind Hcol. injection Hcol as <-.
    now rewrite length_map, length_seq. }
  eexists. split; [reflexivity|].
  rewrite <- (kept_reporter_rows fluor reporter (nrows t) Hlen).
  destruct (String.eqb division "hiv"); reflexivity.
Qed.

(** X17.  When the check of the reporters passes, every row of the results
    table carries the key of a configured reporter and every configured
    reporter has a row; so each per-reporter table has at least one row,
    and (the keys being distinct) the per-reporter tables have together as
    many rows as the results table: the split loses no row. *)
Theorem qs_split_loses_no_row (division : string) (results_table : DataFrame)
  (reporter_dict : list (string * string)) (reporter : list cell) :
  qs_check_reporters results_table reporter_dict = Ok tt ->
  column results_table "Reporter" = Ok reporter ->
  (forall i, i < nrows results_table ->
     exists fluor, In fluor (map fst reporter_dict) /\
                   nth i reporter Missing = Str fluor) /\
  (forall fluor, In fluor (map fst reporter_dict) ->
     exists i, i < nrows results_table /\ nth i reporter Missing = Str fluor) /\
  (NoDup (map fst reporter_dict) ->
   rows_of_partials division results_table reporter_dict = Ok (nrows results_table)).
Proof.
  intros Hcheck Hcol. unfold qs_check_reporters in Hcheck. rewrite Hcol in Hcheck.
  cbn [bind] in Hcheck.
  destruct (as_strings (unique reporter)) as [names|] eqn:Hs;
    [|destruct (existsb is_str (unique reporter)
                || existsb is_none (unique reporter)
                   && Nat.ltb 1 (length (unique reporter))); discriminate].
  destruct (list_eq_dec string_dec _ _) as [Heq|]; [|discriminate].
  apply as_strings_map in Hs.
  assert (Hlen : length reporter = nrows results_table).
  { unfold column in Hcol. inv_bind Hcol. injection Hcol as <-.
    now rewrite length_map, length_seq. }
  assert (Hkeys : forall s, In s names <-> In s (map fst reporter_dict)).
  { intros s. rewrite <- (in_sorted s names), Heq. apply in_sorted. }
  assert (Hmem : forall v, existsb (cell_same v) (map Str names)
                           = existsb (cell_same v) reporter).
  { intros v. rewrite <- Hs. unfold unique. now rewrite unique_loop_mem. }
  assert (Hrows : forall i, i < nrows results_table ->
            exists fluor, In fluor (map fst reporter_dict) /\
                          nth i reporter Missing = Str fluor).
  { intros i Hi.
    assert (Hin : existsb (cell_same (nth i reporter Missing)) (map Str names) = true).
    { rewrite Hmem. apply existsb_exists. exists (nth i reporter Missing).
      split; [apply nth_In; lia|apply cell_same_refl]. }
    apply existsb_exists in Hin. destruct Hin as (x & Hx & Hxe).
    apply in_map_iff in Hx. destruct Hx as (s & <- & Hsn).
    exists s. split; [now apply Hkeys|].
    destruct (nth i reporter Missing) as [| |n|s']; try discriminate Hxe.
    cbn in Hxe. apply String.eqb_eq in Hxe. now subst. }
  split; [exact Hrows|]. split.
  - intros fluor Hf. apply Hkeys in Hf. apply existsb_str in Hf.
    rewrite Hmem in Hf. apply existsb_exists in Hf. destruct Hf as (x & Hx & Hxe).
    destruct (In_nth _ _ Missing Hx) as (i & Hi & <-).
    exists i. split; [lia|].
    destruct (nth i reporter Missing) as [| |n|s']; try discriminate Hxe.
    cbn in Hxe. apply String.eqb_eq in Hxe. now subst.
  - intros Hnd. unfold rows_of_partials.
    assert (Hparts :
      mapM (qs_partial division results_table) (map fst reporter_dict)
      = Ok (map (fun f => match qs_partial division results_table f with
                          | Ok part => part
                          | Raise _ => results_table
                          end) (map fst reporter_dict))).
    { generalize (map fst reporter_dict). induction l as [|f l IH]; [reflexivity|].
      cbn [mapM map]. destruct (qs_partial_nrows division results_table f reporter Hcol)
        as (part & Hp & _).
      rewrite Hp, IH. reflexivity. }
    rewrite Hparts. cbn [bind]. f_equal. rewrite map_map.
    rewrite (map_ext _
      (fun f => length (filter (fun i => cell_eqb (Str f) (nth i reporter Missing))
                               (seq 0 (nrows results_table))))).
    + rewrite (sum_of_disjoint_filters (fun i => nth i reporter Missing) _ _ Hnd).
      transitivity (length (seq 0 (nrows results_table))); [|apply length_seq].
      f_equal.
      apply forallb_filter_id. apply forallb_forall. intros i Hi. apply in_seq in Hi.
      destruct (Hrows i) as (fluor & Hf & Hnth); [lia|].
      apply existsb_exists. exists fluor. split; [exact Hf|].
      rewrite Hnth. apply cell_eqb_refl.
    + intros f. destruct (qs_partial_nrows division results_table f reporter Hcol)
        as (part & Hp & Hn).
      now rewrite Hp.
Qed.

Lemma qs_split_loses_no_row_witness :
  (forall i, i < 4 ->
     exists fluor, In fluor ["VIC"; "FAM"] /\
                   nth i [Str "FAM"; Str "VIC"; Str "FAM"; Str "VIC"] Missing = Str fluor) /\
  (forall fluor, In fluor ["VIC"; "FAM"] ->
     exists i, i < 4 /\
               nth i [Str "FAM"; Str "VIC"; Str "FAM"; Str "VIC"] Missing = Str fluor) /\
  (NoDup ["VIC"; "FAM"] ->
   rows_of_partials "vhf" qs_example_table qs_example_dict = Ok 4).
Proof.
  apply (qs_split_loses_no_row "vhf" qs_example_table qs_example_dict
           [Str "FAM"; Str "VIC"; Str "FAM"; Str "VIC"]); reflexivity.
Defined.

(** ** The columns of the export *)

Lemma py_remove_ok (x : string) (l : list string) :
  forall l',
    py_remove x l = Ok l' ->
    In x l /\ (forall y, In y l' -> In y l) /\ (NoDup l -> NoDup l' /\ ~ In x l').
Proof.
  induction l as [|y l IH]; intros l' H; [discriminate|].
  cbn [py_remove] in H. destruct (String.eqb_spec y x) as [->|Hne].
  - injection H as <-. split; [now left|]. split; [intros z Hz; now right|].
    intros Hnd. inversion Hnd. now split.
  - inv_bind H. injection H as <-. destruct (IH a eq_refl) as (Hin & Hsub & Hnd).
    split; [now right|]. split.
    + intros z [<-|Hz]; [now left|right; now apply Hsub].
    + intros Hno. inversion Hno as [|? ? Hy Hl]. subst.
      destruct (Hnd Hl) as [Hnd' Hx]. split.
      * constructor; [|exact Hnd']. intros Hy'. apply Hy. now apply Hsub.
      * intros [Heq|Hx']; [congruence|contradiction].
Qed.

Lemma py_remove_raise (x : string) (l : list string) (e : exn) :
  py_remove x l = Raise e -> e = ValueError /\ ~ In x l.
Proof.
  induction l as [|y l IH]; cbn [py_remove]; intros H.
  - injection H as <-. split; [reflexivity|intros []].
  - destruct (String.eqb_spec y x) as [->|Hne]; [discriminate|].
    destruct (py_remove x l) as [l'|e'] eqn:E; [discriminate|].
    cbn [bind] in H. injection H as <-. destruct (IH eq_refl) as [-> Hno].
    split; [reflexivity|]. intros [E'|Hin]; [congruence|contradiction].
Qed.

Lemma py_remove_absent (x : string) (l : list string) :
  ~ In x l -> py_remove x l = Raise ValueError.
Proof.
  intros Hno. destruct (py_remove x l) as [l'|e] eqn:E.
  - apply py_remove_ok in E. now destruct E.
  - apply py_remove_raise in E. now destruct E as [-> _].
Qed.

(** A loop of removals only shrinks the list. *)
Lemma remove_loop_shrinks {A : Type} (f : list string -> A -> result (list string))
  (items : list A) :
  (forall rm a rm', f rm a = Ok rm' ->
     (forall y, In y rm' -> In y rm) /\ (NoDup rm -> NoDup rm')) ->
  forall rm rm',
    foldM f items rm = Ok rm' ->
    (forall y, In y rm' -> In y rm) /\ (NoDup rm -> NoDup rm').
Proof.
  intros Hf. induction items as [|a items IH]; intros rm rm' H; cbn [foldM] in H.
  - injection H as <-. now split.
  - inv_bind H. destruct (Hf _ _ _ E) as [H1 H2]. destruct (IH _ _ H) as [H3 H4].
    split; [intros y Hy; now apply H1, H3|intros Hnd; now apply H4, H2].
Qed.

Lemma cleanup_step_shrinks (reporter_dict : list (string * string))
  (reporter_list : list string) (rm rm' : list string) (header : string) :
  cleanup_step reporter_dict reporter_list rm header = Ok rm' ->
  (forall y, In y rm' -> In y rm) /\ (NoDup rm -> NoDup rm').
Proof.
  unfold cleanup_step.
  assert (Hone : forall x l l', py_remove x l = Ok l' ->
            (forall y, In y l' -> In y l) /\ (NoDup l -> NoDup l')).
  { intros x l l' H. destruct (py_remove_ok _ _ _ H) as (_ & Hsub & Hnd).
    split; [exact Hsub|]. intros Hl. now apply Hnd. }
  assert (Hnamed : forall suffix rm0 key rm1,
            (name <- get reporter_dict key ;; py_remove (name ++ suffix) rm0) = Ok rm1 ->
            (forall y, In y rm1 -> In y rm0) /\ (NoDup rm0 -> NoDup rm1)).
  { intros suffix rm0 key rm1 H. inv_bind H. now apply (Hone _ _ _ H). }
  destruct (contains "Cq" header && negb (contains "Cq Conf" header)).
  { apply remove_loop_shrinks. intros rm0 a rm1. apply Hone. }
  destruct (contains "dRn" header).
  { apply remove_loop_shrinks. intros rm0 a rm1. apply Hone. }
  destruct (contains "Call" header).
  { apply remove_loop_shrinks. intros rm0 a rm1. apply Hnamed. }
  destruct (contains "DRM Percentage" header).
  { apply remove_loop_shrinks. intros rm0 a rm1. apply Hnamed. }
  destruct (py_remove header rm) as [l|e] eqn:E; intros H; injection H as <-.
  - now apply (Hone _ _ _ E).
  - now split.
Qed.

Lemma cleanup_loop_plain (reporter_dict : list (string * string))
  (reporter_list : list string) (h : string) (columns : list string) :
  is_group h = false ->
  forall rm rm',
    foldM (cleanup_step reporter_dict reporter_list) columns rm = Ok rm' ->
    NoDup rm ->
    (In h columns \/ ~ In h rm) ->
    ~ In h rm'.
Proof.
  intros Hplain. induction columns as [|c columns IH]; intros rm rm' H Hnd Hcase;
    cbn [foldM] in H.
  - injection H as <-. destruct Hcase as [[]|Hno]. exact Hno.
  - inv_bind H. destruct (cleanup_step_shrinks _ _ _ _ _ E) as [Hsub Hnd'].
    apply (IH _ _ H (Hnd' Hnd)).
    destruct Hcase as [[->|Hin]|Hno].
    + right. unfold cleanup_step in E. unfold is_group in Hplain.
      apply orb_false_iff in Hplain. destruct Hplain as [Hplain H4].
      apply orb_false_iff in Hplain. destruct Hplain as [Hplain H3].
      apply orb_false_iff in Hplain. destruct Hplain as [H1 H2].
      rewrite H1, H2, H3, H4 in E.
      destruct (py_remove h rm) as [l|e] eqn:R; injection E as <-.
      * apply py_remove_ok in R. destruct R as (_ & _ & Hn). now apply Hn.
      * apply py_remove_raise in R. now destruct R.
    + now left.
    + right. intros Hin. apply Hno. now apply Hsub.
Qed.

(** X18.  [cleanup] only takes columns away: the exported table has the
    rows of the table and a selection of its columns, in their order and
    with their cells.  On a table with distinct labels, a column asked for
    by its own label (an entry that names no group) is kept. *)
Theorem cleanup_keeps_requested (reporter_dict : list (string * string))
  (reporter_list columns : list string) (results t' : DataFrame) :
  cleanup reporter_dict reporter_list columns results = Ok t' ->
  nrows t' = nrows results /\
  (exists rm_headers,
     (forall y, In y rm_headers -> In y (labels results)) /\
     cols t' = filter (fun c => negb (mem (fst c) rm_headers)) (cols results)) /\
  (NoDup (labels results) ->
   forall h, In h columns -> is_group h = false -> In h (labels results) ->
             In h (labels t')).
Proof.
  unfold cleanup. intros H. inv_bind H. injection H as <-. rename a into rm.
  split; [reflexivity|]. split.
  - exists rm. split; [|reflexivity].
    refine (proj1 (remove_loop_shrinks _ _ _ _ _ E)).
    intros rm0 c rm1. apply cleanup_step_shrinks.
  - intros Hnd h Hh Hplain Hin.
    assert (Hno : ~ In h rm)
      by (apply (cleanup_loop_plain _ _ h columns Hplain _ _ E Hnd); now left).
    unfold labels, drop_columns in *. cbn [cols].
    apply in_map_iff in Hin. destruct Hin as (c & <- & Hc).
    apply in_map_iff. exists c. split; [reflexivity|].
    apply filter_In. split; [exact Hc|].
    apply negb_true_iff. apply not_true_iff_false. intros Hm. apply Hno.
    unfold mem in Hm. apply existsb_exists in Hm. destruct Hm as (y & Hy & Heq).
    apply String.eqb_eq in Heq. now subst.
Qed.

Lemma cleanup_keeps_requested_witness :
  nrows (mkDataFrame 1 [("Well", [Str "A1"]); ("Result", [Str "Ebola Positive"])])
  = nrows export_example_table /\
  (exists rm_headers,
     (forall y, In y rm_headers -> In y (labels export_example_table)) /\
     cols (mkDataFrame 1 [("Well", [Str "A1"]); ("Result", [Str "Ebola Positive"])])
     = filter (fun c => negb (mem (fst c) rm_headers)) (cols export_example_table)) /\
  (NoDup (labels export_example_table) ->
   forall h, In h ["Well"; "Result"; "Comments"] -> is_group h = false ->
             In h (labels export_example_table) ->
             In h (labels (mkDataFrame 1
                             [("Well", [Str "A1"]); ("Result", [Str "Ebola Positive"])]))).
Proof.
  apply (cleanup_keeps_requested [("Cy5", "Internal Control"); ("FAM", "Ebola")]
           ["Cy5"; "FAM"] ["Well"; "Result"; "Comments"] export_example_table).
  reflexivity.
Defined.

Lemma group_loop_missing (suffix : string) (reporter_dict : list (string * string)) :
  forall rm,
    (exists entry, In entry reporter_dict /\ ~ In (snd entry ++ suffix)%string rm) ->
    foldM (fun rm entry => py_remove (snd entry ++ suffix) rm) reporter_dict rm
    = Raise ValueError.
Proof.
  induction reporter_dict as [|e0 dict IH]; intros rm (entry & Hin & Hno);
    [destruct Hin|].
  cbn [foldM]. destruct (py_remove (snd e0 ++ suffix) rm) as [rm'|e] eqn:R.
  - cbn [bind]. apply py_remove_ok in R. destruct R as (Hin0 & Hsub & _).
    apply IH. exists entry. split.
    + destruct Hin as [->|Hin]; [contradiction|exact Hin].
    + intros H. apply Hno. now apply Hsub.
  - apply py_remove_raise in R. now destruct R as [-> _].
Qed.

(** X19.  An entry of [columns] that asks for the Cq columns (or the dRn
    columns) makes [cleanup] fail with [ValueError] when the table lacks
    that column for some configured reporter, whereas an entry that names a
    single column the table lacks is passed over without effect. *)
Theorem cleanup_missing_column (reporter_dict : list (string * string))
  (reporter_list : list string) (header : string) (columns : list string)
  (results : DataFrame) :
  (contains "Cq" header = true -> contains "Cq Conf" header = false ->
   (exists entry, In entry reporter_dict /\
                  ~ In (snd entry ++ " Cq")%string (labels results)) ->
   cleanup reporter_dict reporter_list (header :: columns) results = Raise ValueError) /\
  (contains "Cq" header = false -> contains "dRn" header = true ->
   (exists entry, In entry reporter_dict /\
                  ~ In (snd entry ++ " dRn")%string (labels results)) ->
   cleanup reporter_dict reporter_list (header :: columns) results = Raise ValueError) /\
  (is_group header = false -> ~ In header (labels results) ->
   cleanup reporter_dict reporter_list (header :: columns) results
   = cleanup reporter_dict reporter_list columns results).
Proof.
  unfold cleanup. cbn [foldM]. unfold cleanup_step at 1 3 5. split; [|split].
  - intros H1 H2 Hmiss. rewrite H1, H2. cbn [negb andb].
    now rewrite (group_loop_missing " Cq" reporter_dict _ Hmiss).
  - intros H1 H2 Hmiss. rewrite H1, H2. cbn [andb].
    now rewrite (group_loop_missing " dRn" reporter_dict _ Hmiss).
  - intros Hplain Hno. unfold is_group in Hplain.
    apply orb_false_iff in Hplain. destruct Hplain as [Hplain H4].
    apply orb_false_iff in Hplain. destruct Hplain as [Hplain H3].
    apply orb_false_iff in Hplain. destruct Hplain as [H1 H2].
    rewrite H1, H2, H3, H4. now rewrite (py_remove_absent _ _ Hno).
Qed.

Lemma cleanup_missing_column_witness :
  cleanup [("Cy5", "Internal Control"); ("FAM", "Ebola"); ("HEX", "Marburg")]
          ["Cy5"; "FAM"; "HEX"] ["Cq"; "Well"] export_example_table
  = Raise ValueError /\
  cleanup [("Cy5", "Internal Control"); ("FAM", "Ebola")]
          ["Cy5"; "FAM"] ["Comments"; "Well"] export_example_table
  = cleanup [("Cy5", "Internal Control"); ("FAM", "Ebola")]
            ["Cy5"; "FAM"] ["Well"] export_example_table.
Proof.
  split.
  - apply (proj1 (cleanup_missing_column
                    [("Cy5", "Internal Control"); ("FAM", "Ebola"); ("HEX", "Marburg")]
                    ["Cy5"; "FAM"; "HEX"] "Cq" ["Well"] export_example_table));
      [reflexivity|reflexivity|].
    exists ("HEX", "Marburg"). split; [right; right; left; reflexivity|].
    intros H. repeat (destruct H as [H|H]; [discriminate H|]). exact H.
  - apply (proj2 (proj2 (cleanup_missing_column
                    [("Cy5", "Internal Control"); ("FAM", "Ebola")]
                    ["Cy5"; "FAM"] "Comments" ["Well"] export_example_table)));
      [reflexivity|].
    intros H. repeat (destruct H as [H|H]; [discriminate H|]). exact H.
Defined.
